(** * Content pipeline: heuristic analyzers and stage functions

    A shallow embedding of the rule-based part of the content-creation
    pipeline (utils/tools.py and the agents under agents/), followed by the
    properties established for it.

    Modelling conventions.
    - A Python [str] is a [string]; the embedding covers ASCII text (the
      case and white-space tables below are Python's, restricted to code
      points below 128).
    - A Python [float] is the rational it denotes, and a float operation
      rounds to binary64: [float_of] for a literal, an [int] or an exact
      result, [fadd], [fsub], [fmul], [py_truediv], and [float_round1],
      [float_round2] for [round(x, 1)], [round(x, 2)].  The exponent is
      not bounded, so the embedding covers numbers within the range of a
      float.  The one exception is the credibility scores of the
      researcher, which are summed over a list of any length: the scores,
      their sum and their mean are exact rationals ([py_div], [round2]),
      and the properties stated about them are bounds and an ordering.
    - A [dict] with a fixed key set is a record; a key that may be absent is
      an [option] field and [d.get(k, v)] is [default v].  A [dict] keyed by
      data (keywords, words) is a [gmap] when only lookups matter and an
      association list in insertion order when the code iterates over it.
    - Division and indexing by a computed position, which raise in Python
      when the divisor is zero or the position is out of range, return in
      the [result] monad ([py_truediv], [py_div], [py_index]); a [try ... except] around
      them turns a raised exception into the error value of the tool.
      Loops that visit the items of a list are structural recursions.
    - The [re] module and the web search tool are collaborators outside the
      repository; they enter as type-class parameters, except for the two
      punctuation patterns of the content validator, which are embedded. *)

From Stdlib Require Import String Ascii List ZArith QArith Qround Qabs Qpower.
From Stdlib Require Import Lia Lqa Bool.
From Stdlib Require Import DecimalString Sorted.
From stdpp Require Import base option list gmap strings.

Local Open Scope string_scope.
Local Open Scope list_scope.
Local Open Scope nat_scope.

(** ** Python string operations *)

Module PyStr.

Definition chr (n : nat) : ascii := ascii_of_nat n.

Definition NL : string := String (chr 10) "".

(** The double quote, as a one-character string *)
Definition DQ : string := String (chr 34) "".

(** [c.isspace()] on ASCII: TAB, LF, VT, FF, CR, FS, GS, RS, US, SPACE. *)
Definition is_space (c : ascii) : bool :=
  let n := nat_of_ascii c in
  ((9 <=? n) && (n <=? 13)) || ((28 <=? n) && (n <=? 32)).

Definition is_upper_char (c : ascii) : bool :=
  let n := nat_of_ascii c in (65 <=? n) && (n <=? 90).

Definition is_lower_char (c : ascii) : bool :=
  let n := nat_of_ascii c in (97 <=? n) && (n <=? 122).

Definition lower_char (c : ascii) : ascii :=
  if is_upper_char c then ascii_of_nat (nat_of_ascii c + 32) else c.

Definition upper_char (c : ascii) : ascii :=
  if is_lower_char c then ascii_of_nat (nat_of_ascii c - 32) else c.

(** [s.lower()] *)
Fixpoint lower (s : string) : string :=
  match s with
  | EmptyString => EmptyString
  | String c s' => String (lower_char c) (lower s')
  end.

Fixpoint existsb_char (p : ascii -> bool) (s : string) : bool :=
  match s with
  | EmptyString => false
  | String c s' => p c || existsb_char p s'
  end.

(** [s.isupper()]: some cased character, and no lower-case one. *)
Definition isupper (s : string) : bool :=
  existsb_char is_upper_char s && negb (existsb_char is_lower_char s).

(** [s[:n]] *)
Fixpoint take (n : nat) (s : string) : string :=
  match n, s with
  | S n', String c s' => String c (take n' s')
  | _, _ => EmptyString
  end.

(** [s[n:]] *)
Fixpoint drop (n : nat) (s : string) : string :=
  match n, s with
  | S n', String _ s' => drop n' s'
  | _, _ => s
  end.

(** [s[-n:]] for [n > 0] *)
Definition last (n : nat) (s : string) : string :=
  drop (String.length s - n) s.

(** [s.startswith(p)] *)
Definition startswith (p s : string) : bool := String.prefix p s.

(** [needle in s] *)
Fixpoint contains (needle s : string) : bool :=
  String.prefix needle s ||
  match s with
  | EmptyString => false
  | String _ s' => contains needle s'
  end.

(** [s.find(needle)], [None] standing for -1 *)
Fixpoint find (needle s : string) : option nat :=
  if String.prefix needle s then Some 0
  else match s with
       | EmptyString => None
       | String _ s' => S <$> find needle s'
       end.

(** Occurrences are scanned left to right without overlap: after a match
    the scan resumes behind it, which [skip] counts down. *)
Fixpoint count_go (needle : string) (skip : nat) (s : string) : nat :=
  match s with
  | EmptyString => 0
  | String _ s' =>
      match skip with
      | S k => count_go needle k s'
      | O => if String.prefix needle s
             then S (count_go needle (String.length needle - 1) s')
             else count_go needle 0 s'
      end
  end.

(** [s.count(needle)]; the empty needle is found between all characters. *)
Definition count (needle s : string) : nat :=
  match needle with
  | EmptyString => S (String.length s)
  | _ => count_go needle 0 s
  end.

(** All offsets at which [needle] starts, overlapping ones included: the
    list built by the [find(needle, start)] loop with [start = pos + 1]. *)
Fixpoint positions_from (needle : string) (i : nat) (s : string) : list nat :=
  (if String.prefix needle s then [i] else []) ++
  match s with
  | EmptyString => []
  | String _ s' => positions_from needle (S i) s'
  end.

Definition cons_head (c : ascii) (l : list string) : list string :=
  match l with
  | w :: ws => String c w :: ws
  | [] => [String c ""]
  end.

(** [s.split(sep)] for a non-empty [sep] *)
Fixpoint split_go (sep : string) (skip : nat) (s : string) : list string :=
  match s with
  | EmptyString => [""]
  | String c s' =>
      match skip with
      | S k => split_go sep k s'
      | O => if String.prefix sep s
             then "" :: split_go sep (String.length sep - 1) s'
             else cons_head c (split_go sep 0 s')
      end
  end.

Definition split (sep s : string) : list string := split_go sep 0 s.

Definition starts_blank (s : string) : bool :=
  match s with
  | EmptyString => true
  | String c _ => is_space c
  end.

(** [s.split()]: the maximal runs of non-blank characters *)
Fixpoint words (s : string) : list string :=
  match s with
  | EmptyString => []
  | String c s' =>
      if is_space c then words s'
      else if starts_blank s' then String c "" :: words s'
      else cons_head c (words s')
  end.

(** [len(s.split())] *)
Definition word_count (s : string) : nat := length (words s).

(** [sep.join(l)] *)
Fixpoint join (sep : string) (l : list string) : string :=
  match l with
  | [] => ""
  | [x] => x
  | x :: l' => x +:+ sep +:+ join sep l'
  end.

Fixpoint lstrip_by (p : ascii -> bool) (s : string) : string :=
  match s with
  | String c s' => if p c then lstrip_by p s' else s
  | EmptyString => EmptyString
  end.

Fixpoint rstrip_by (p : ascii -> bool) (s : string) : string :=
  match s with
  | EmptyString => EmptyString
  | String c s' =>
      match rstrip_by p s' with
      | EmptyString => if p c then EmptyString else String c ""
      | r => String c r
      end
  end.

(** [s.strip()] *)
Definition strip (s : string) : string := rstrip_by is_space (lstrip_by is_space s).

(** [s.strip(chars)] *)
Definition strip_chars (chars s : string) : string :=
  let p c := existsb_char (Ascii.eqb c) chars in
  rstrip_by p (lstrip_by p s).

(** [s.lstrip(c)] for a single character [c] *)
Fixpoint lstrip_char (c : ascii) (s : string) : string :=
  match s with
  | String d s' => if Ascii.eqb c d then lstrip_char c s' else s
  | EmptyString => EmptyString
  end.

(** [s.replace(old, new)] for a non-empty [old] *)
Fixpoint replace_go (old new : string) (skip : nat) (s : string) : string :=
  match s with
  | EmptyString => EmptyString
  | String c s' =>
      match skip with
      | S k => replace_go old new k s'
      | O => if String.prefix old s
             then new +:+ replace_go old new (String.length old - 1) s'
             else String c (replace_go old new 0 s')
      end
  end.

Definition replace (old new s : string) : string := replace_go old new 0 s.

(** [s.replace(old, new, 1)] for a non-empty [old] *)
Fixpoint replace_first (old new s : string) : string :=
  match s with
  | EmptyString => EmptyString
  | String c s' =>
      if String.prefix old s then new +:+ drop (String.length old) s
      else String c (replace_first old new s')
  end.

(** [c * n] *)
Fixpoint repeat_char (c : ascii) (n : nat) : string :=
  match n with
  | O => EmptyString
  | S n' => String c (repeat_char c n')
  end.

(** [str(n)] for a non-negative [int] *)
Definition of_nat (n : nat) : string := NilEmpty.string_of_uint (Nat.to_uint n).

(** [s[0].upper() + s[1:]] when [s[0].islower()], else [s] *)
Definition capitalize_first (s : string) : string :=
  match s with
  | String c s' => if is_lower_char c then String (upper_char c) s' else s
  | EmptyString => EmptyString
  end.

Definition is_empty (s : string) : bool :=
  match s with EmptyString => true | _ => false end.

(** [s.find(needle)] as an [int], -1 when absent *)
Definition find_Z (needle s : string) : Z :=
  match find needle s with
  | Some i => Z.of_nat i
  | None => (-1)%Z
  end.

(** [s[a:b]] for [0 <= a] and [0 <= b] *)
Definition slice (a b : nat) (s : string) : string := take (b - a) (drop a s).

End PyStr.

(** ** Numbers, exceptions, collaborators *)

(** [round(q)] to an integer, ties to even. *)
Definition round_half_even (q : Q) : Z :=
  let f := Qfloor q in
  match Qcompare (q - inject_Z f) (1 # 2) with
  | Lt => f
  | Gt => (f + 1)%Z
  | Eq => if Z.even f then f else (f + 1)%Z
  end.

(** [round(q, d)] *)
Definition round_to (d : nat) (q : Q) : Q :=
  Qmake (round_half_even (q * inject_Z (10 ^ Z.of_nat d))) (Pos.pow 10 (Pos.of_nat d)).

Definition round2 (q : Q) : Q := Qmake (round_half_even (q * 100)) 100.

Definition Qnat (n : nat) : Q := inject_Z (Z.of_nat n).

(** *** Binary64 rounding

    [float_of q] is the float nearest to [q], ties to the even
    significand: [q] is scaled by the power of two that brings it into
    [2^52, 2^53), rounded to an integer and scaled back.  The exponent is
    not bounded, so overflow and subnormal numbers are outside the
    embedding. *)

(** [floor(log2 q)] for [q > 0] *)
Definition Qlog2 (q : Q) : Z :=
  let e := (Z.log2 (Qnum q) - Z.log2 (Zpos (Qden q)))%Z in
  if Qle_bool (2 ^ e) q then e else (e - 1)%Z.

Definition nearest_binary64 (q : Q) : Q :=
  let ulp := (2 ^ (Qlog2 q - 52))%Q in
  (inject_Z (round_half_even (q / ulp)) * ulp)%Q.

(** The float of a literal, of an [int], or of the exact result of an
    operation on floats. *)
Definition float_of (q : Q) : Q :=
  Qred match Qcompare q 0 with
       | Eq => 0%Q
       | Gt => nearest_binary64 q
       | Lt => (- nearest_binary64 (- q))%Q
       end.

(** [a + b], [a - b] and [a * b] on floats *)
Definition fadd (a b : Q) : Q := float_of (a + b).
Definition fsub (a b : Q) : Q := float_of (a - b).
Definition fmul (a b : Q) : Q := float_of (a * b).

(** [round(x, 2)] on a float: the nearest hundredth of its exact value,
    ties to even, and the float nearest to that decimal. *)
Definition float_round2 (x : Q) : Q := float_of (round2 x).

(** [round(x, 1)] on a float *)
Definition float_round1 (x : Q) : Q := float_of (round_to 1 x).

(** Half the distance, relative to 1, between neighbouring floats. *)
Definition unit_roundoff : Q := 1 # 9007199254740992.

Definition Qmax (a b : Q) : Q := if Qle_bool b a then a else b.
Definition Qmin (a b : Q) : Q := if Qle_bool a b then a else b.
Definition Qlt_bool (a b : Q) : bool := negb (Qle_bool b a).

Inductive exn : Set :=
| ZeroDivisionError
| IndexError.

Inductive result (A : Type) : Type :=
| Ok (a : A)
| Raise (e : exn).
Arguments Ok {A} a.
Arguments Raise {A} e.

#[global] Instance result_ret : MRet result := fun A a => Ok a.
#[global] Instance result_bind : MBind result := fun A B f m =>
  match m with
  | Ok a => f a
  | Raise e => Raise e
  end.

(** [a / b], exact *)
Definition py_div (a b : Q) : result Q :=
  if Qeq_bool b 0 then Raise ZeroDivisionError else Ok (a / b)%Q.

(** [a / b] on [int]s, the float nearest to the quotient *)
Definition py_truediv (a b : Z) : result Q :=
  if (b =? 0)%Z then Raise ZeroDivisionError
  else Ok (float_of (inject_Z a / inject_Z b)).

(** [l[i]] for [i >= 0] *)
Definition py_index {A} (l : list A) (i : nat) : result A :=
  match l !! i with
  | Some x => Ok x
  | None => Raise IndexError
  end.

(** A loop that threads an accumulator through a fallible body. *)
Fixpoint foldM {A B} (f : B -> A -> result B) (l : list A) (b : B) : result B :=
  match l with
  | [] => Ok b
  | x :: l' => b' ← f b x; foldM f l' b'
  end.

Inductive re_flag : Set := NOFLAG | MULTILINE | IGNORECASE.

(** The part of Python's [re] module the pipeline calls with patterns that
    are not embedded.  [re_findall] is [re.findall] on a pattern with at
    most one group (one string per match), [re_findall2] on a pattern with
    two groups (one pair per match). *)
Class RegexLib := {
  re_search : string -> re_flag -> string -> bool;
  re_findall : string -> re_flag -> string -> list string;
  re_findall2 : string -> re_flag -> string -> list (string * string)
}.

(** A search result is a [dict] of strings: [title], [url], [snippet], or
    the single key [error]. *)
Abbreviation search_result := (gmap string string).

(** [WebSearchTool.run(query, num_results)] *)
Class SearchTool := {
  web_search : string -> nat -> list search_result
}.

(** ** utils/tools.py *)

(** [re.split(r'[.!?]+', s)] and [re.search(r'[.!?]$', s)] *)
Module Terminators.

Definition is_terminator (c : ascii) : bool :=
  Ascii.eqb c "." || Ascii.eqb c "!" || Ascii.eqb c "?".

Fixpoint split_runs (in_run : bool) (s : string) : list string :=
  match s with
  | EmptyString => [""]
  | String c s' =>
      if is_terminator c
      then (if in_run then split_runs true s' else "" :: split_runs true s')
      else PyStr.cons_head c (split_runs false s')
  end.

Definition re_split (s : string) : list string := split_runs false s.

(** [$] matches at the end and before a final line break. *)
Fixpoint re_search_end (s : string) : bool :=
  match s with
  | EmptyString => false
  | String c s' =>
      (is_terminator c && (PyStr.is_empty s' || String.eqb s' PyStr.NL))
      || re_search_end s'
  end.

End Terminators.

Module ContentValidatorTool.

Record metrics := {
  word_count : nat;
  character_count : nat;
  sentence_count : Z;
  paragraph_count : nat;
  readability_score : Q;
  issues : list string;
  quality_score : Z
}.

(** The validator returns the metrics, or [{'error': ...}]. *)
Inductive output :=
| Metrics (m : metrics)
| ValidationFailed (e : exn).

Definition nonblank_paragraphs (content : string) : list string :=
  List.filter (fun p => negb (PyStr.is_empty (PyStr.strip p)))
         (PyStr.split (PyStr.NL +:+ PyStr.NL) content).

Definition _calculate_readability (content : string) : result Q :=
  let sentences := (Z.of_nat (length (Terminators.re_split content)) - 1)%Z in
  let words := PyStr.word_count content in
  if (sentences =? 0)%Z then Ok 0%Q
  else
    avg_sentence_length ← py_truediv (Z.of_nat words) sentences;
    let readability := Qmax 0 (fsub 100 (fmul avg_sentence_length 2)) in
    Ok (float_round2 readability).

Fixpoint long_paragraph_issues (i : nat) (paragraphs : list string) : list string :=
  match paragraphs with
  | [] => []
  | para :: rest =>
      (if 200 <? PyStr.word_count para
       then ["Paragraph " +:+ PyStr.of_nat (i + 1) +:+ " is very long ("
             +:+ PyStr.of_nat (PyStr.word_count para) +:+ " words)"]
       else [])
      ++ long_paragraph_issues (S i) rest
  end.

(** [word_freq[word] = word_freq.get(word, 0) + 1], keeping insertion order *)
Fixpoint bump (word : string) (word_freq : list (string * nat)) : list (string * nat) :=
  match word_freq with
  | [] => [(word, 1)]
  | (k, n) :: rest =>
      if String.eqb k word then (k, S n) :: rest else (k, n) :: bump word rest
  end.

Definition count_long_words (words : list string) : list (string * nat) :=
  fold_left (fun word_freq word =>
               if 5 <? String.length word then bump word word_freq else word_freq)
            words [].

Definition repetition_issues (word_freq : list (string * nat)) : list string :=
  flat_map (fun '(word, freq) =>
              if 10 <? freq
              then ["Word '" +:+ word +:+ "' appears " +:+ PyStr.of_nat freq
                    +:+ " times (potentially repetitive)"]
              else [])
           word_freq.

Definition _identify_issues (content : string) : list string :=
  long_paragraph_issues 0 (nonblank_paragraphs content)
  ++ repetition_issues (count_long_words (PyStr.words (PyStr.lower content)))
  ++ (if Terminators.re_search_end (PyStr.strip content) then []
      else ["Content doesn't end with proper punctuation"]).

Definition _calculate_quality_score
    (issues : list string) (readability_score : Q) (word_count : nat) : Z :=
  let score := 100%Z in
  let score := (score - Z.of_nat (length issues) * 5)%Z in
  let score :=
    if Qlt_bool readability_score 30 then (score - 20)%Z
    else if Qlt_bool readability_score 50 then (score - 10)%Z
    else score in
  let score :=
    if word_count <? 100 then (score - 30)%Z
    else if word_count <? 300 then (score - 15)%Z
    else if 3000 <? word_count then (score - 10)%Z
    else score in
  Z.max 0 (Z.min 100 score).

Definition validate (content : string) : result metrics :=
  readability ← _calculate_readability content;
  let issues := _identify_issues content in
  let word_count := PyStr.word_count content in
  Ok {| word_count := word_count;
        character_count := String.length content;
        sentence_count := (Z.of_nat (length (Terminators.re_split content)) - 1)%Z;
        paragraph_count := length (nonblank_paragraphs content);
        readability_score := readability;
        issues := issues;
        quality_score := _calculate_quality_score issues readability word_count |}.

(** [run]: the body above under [try ... except Exception] *)
Definition run (content : string) : output :=
  match validate content with
  | Ok m => Metrics m
  | Raise e => ValidationFailed e
  end.

(** [result.get('quality_score', 0)] and the like *)
Definition get_quality_score (o : output) : Z :=
  match o with Metrics m => quality_score m | ValidationFailed _ => 0%Z end.
Definition get_readability_score (o : output) : Q :=
  match o with Metrics m => readability_score m | ValidationFailed _ => 0%Q end.
Definition get_issues (o : output) : list string :=
  match o with Metrics m => issues m | ValidationFailed _ => [] end.
Definition get_word_count (o : output) : nat :=
  match o with Metrics m => word_count m | ValidationFailed _ => 0 end.

End ContentValidatorTool.

Module SEOAnalyzerTool.

Record keyword_analysis_t := {
  target_keywords : list string;
  keyword_density : gmap string Q;
  keyword_positions : gmap string (list nat);
  missing_keywords : list string
}.

Record content_structure_t := {
  has_headings : bool;
  heading_hierarchy : list string;
  paragraph_count : nat;
  avg_paragraph_length : Q;
  has_lists : bool;
  internal_links : nat;
  word_count : nat
}.

Record meta_suggestions_t := {
  title : string;
  description : string
}.

Record analysis := {
  keyword_analysis : keyword_analysis_t;
  content_structure : content_structure_t;
  meta_suggestions : meta_suggestions_t;
  seo_score : Z;
  recommendations : list string
}.

(** The analyzer returns the analysis, or [{'error': ...}]. *)
Inductive output :=
| Analysis (a : analysis)
| AnalysisFailed (e : exn).

(** One round of the loop over the keywords. *)
Definition analyze_keyword (content content_lower : string)
    (ka : keyword_analysis_t) (keyword : string) : result keyword_analysis_t :=
  let keyword_lower := PyStr.lower keyword in
  let count := PyStr.count keyword_lower content_lower in
  let total_words := PyStr.word_count content in
  density_map ←
    (if 0 <? total_words
     then q ← py_truediv (Z.of_nat count) (Z.of_nat total_words);
          let density := fmul q 100 in
          Ok (<[keyword := float_round2 density]> (keyword_density ka))
     else Ok (keyword_density ka));
  let positions := PyStr.positions_from keyword_lower 0 content_lower in
  Ok {| target_keywords := target_keywords ka;
        keyword_density := density_map;
        keyword_positions := <[keyword := positions]> (keyword_positions ka);
        missing_keywords :=
          if count =? 0 then missing_keywords ka ++ [keyword]
          else missing_keywords ka |}.

Definition _analyze_keywords (content : string) (keywords : list string)
    : result keyword_analysis_t :=
  let content_lower := PyStr.lower content in
  foldM (analyze_keyword content content_lower) keywords
        {| target_keywords := keywords;
           keyword_density := ∅;
           keyword_positions := ∅;
           missing_keywords := [] |}.

Definition _calculate_seo_score
    (ka : keyword_analysis_t) (structure : content_structure_t) : Z :=
  let score := 100%Z in
  let score :=
    match missing_keywords ka with
    | [] => score
    | _ => (score - Z.of_nat (length (missing_keywords ka)) * 10)%Z
    end in
  let score := if has_headings structure then score else (score - 20)%Z in
  let score := if word_count structure <? 300 then (score - 15)%Z else score in
  let score :=
    if Qlt_bool 150 (avg_paragraph_length structure) then (score - 10)%Z else score in
  Z.max 0 (Z.min 100 score).

Definition _generate_recommendations
    (ka : keyword_analysis_t) (structure : content_structure_t) : list string :=
  (match missing_keywords ka with
   | [] => []
   | _ => ["Include missing keywords: " +:+ PyStr.join ", " (missing_keywords ka)]
   end)
  ++ (if has_headings structure then []
      else ["Add headings to improve content structure"])
  ++ (if word_count structure <? 300
      then ["Increase content length to at least 300 words"] else [])
  ++ (if Qlt_bool 150 (avg_paragraph_length structure)
      then ["Break up long paragraphs for better readability"] else [])
  ++ (if has_lists structure then []
      else ["Consider adding bullet points or numbered lists"])
  ++ (if internal_links structure =? 0
      then ["Add internal links to related content"] else []).

Definition _generate_meta_suggestions (content : string) : result meta_suggestions_t :=
  let sentences := Terminators.re_split content in
  first_sentence ←
    (match sentences with
     | [] => Ok ""
     | _ => s ← py_index sentences 0; Ok (PyStr.strip s)
     end);
  let title_suggestion :=
    if 60 <? String.length first_sentence
    then PyStr.take 60 first_sentence +:+ "..."
    else first_sentence in
  let description_suggestion :=
    if 155 <? String.length content
    then PyStr.take 155 content +:+ "..."
    else content in
  Ok {| title := title_suggestion;
        description :=
          PyStr.strip (PyStr.replace PyStr.NL " " description_suggestion) |}.

Section WithRegex.
Context `{RegexLib}.

Definition _check_heading_hierarchy (content : string) : list string :=
  let headings := re_findall2 "^(#+)\s+(.+)$" MULTILINE content in
  map (fun '(level, text) =>
         "H" +:+ PyStr.of_nat (String.length level) +:+ ": " +:+ text)
      headings.

Definition _analyze_structure (content : string) : result content_structure_t :=
  let paragraphs := ContentValidatorTool.nonblank_paragraphs content in
  avg ←
    (match paragraphs with
     | [] => Ok 0%Q
     | _ =>
         let total_words :=
           fold_right Nat.add 0 (map PyStr.word_count paragraphs) in
         q ← py_truediv (Z.of_nat total_words) (Z.of_nat (length paragraphs));
         Ok (float_round1 q)
     end);
  Ok {| has_headings := re_search "#+\s" NOFLAG content;
        heading_hierarchy := _check_heading_hierarchy content;
        paragraph_count := length paragraphs;
        avg_paragraph_length := avg;
        has_lists := re_search "^\s*[-*+]\s" MULTILINE content;
        internal_links := length (re_findall "\[.*?\]\(.*?\)" NOFLAG content);
        word_count := PyStr.word_count content |}.

Definition analyze (content : string) (target_keywords : list string)
    : result analysis :=
  ka ← _analyze_keywords content target_keywords;
  structure ← _analyze_structure content;
  meta ← _generate_meta_suggestions content;
  Ok {| keyword_analysis := ka;
        content_structure := structure;
        meta_suggestions := meta;
        seo_score := _calculate_seo_score ka structure;
        recommendations := _generate_recommendations ka structure |}.

(** [run]: the body above under [try ... except Exception] *)
Definition run (content : string) (target_keywords : list string) : output :=
  match analyze content target_keywords with
  | Ok a => Analysis a
  | Raise e => AnalysisFailed e
  end.

End WithRegex.

(** [analysis.get('seo_score', 0)], [analysis.get('recommendations', [])] *)
Definition get_seo_score (o : output) : Z :=
  match o with Analysis a => seo_score a | AnalysisFailed _ => 0%Z end.
Definition get_recommendations (o : output) : list string :=
  match o with Analysis a => recommendations a | AnalysisFailed _ => [] end.

End SEOAnalyzerTool.

(** ** The requirements mapping *)

Module Requirements.

(** Every key is optional; readers supply their own defaults. *)
Record t := {
  topic : option string;
  target_audience : option string;
  word_count : option Z;
  tone : option string;
  seo_keywords : option (list string);
  content_type : option string
}.

Definition empty : t :=
  {| topic := None; target_audience := None; word_count := None;
     tone := None; seo_keywords := None; content_type := None |}.

End Requirements.

(** [str(z)] for an [int] *)
Definition str_of_Z (z : Z) : string := NilEmpty.string_of_int (Z.to_int z).

(** Truncation of a float towards zero, [int(q)] *)
Definition py_int (q : Q) : Z := Z.quot (Qnum q) (Zpos (Qden q)).

(** ** agents/coordinator.py *)

Module CoordinatorAgent.

Record task := {
  name : string;
  agent : string;
  description : string;
  deliverables : list string;
  dependencies : option (list string);
  estimated_time : string
}.

Record structure_requirements_t := {
  req_has_introduction : bool;
  req_has_conclusion : bool;
  req_has_headings : bool;
  max_paragraph_length : Z
}.

Record band := { band_min : Q; band_max : Q }.

Record seo_requirements_t := {
  keyword_density : band;
  meta_title_length : band;
  meta_description_length : band
}.

Record quality_criteria_t := {
  minimum_word_count : option Q;
  maximum_word_count : option Q;
  required_keywords : list string;
  readability_score : Z;
  structure_requirements : option structure_requirements_t;
  seo_requirements : seo_requirements_t
}.

Record timeline_t := {
  estimated_duration : string;
  research_phase : string;
  writing_phase : string;
  editing_phase : string;
  seo_phase : string;
  review_phase : string
}.

Record plan := {
  topic : option string;
  target_audience : option string;
  word_count : Z;
  tone : string;
  seo_keywords : list string;
  content_type : option string;
  tasks : list task;
  quality_criteria : option quality_criteria_t;
  timeline : timeline_t
}.

Definition _generate_task_sequence (requirements : Requirements.t) : list task :=
  [ {| name := "research";
       agent := "researcher";
       description :=
         "Research comprehensive information about '"
         +:+ default "" (Requirements.topic requirements) +:+ "'";
       deliverables := ["research_summary"; "key_facts"; "source_references"];
       dependencies := None;
       estimated_time := "15 minutes" |};
    {| name := "content_writing";
       agent := "writer";
       description :=
         "Write a "
         +:+ str_of_Z (default 1000%Z (Requirements.word_count requirements))
         +:+ "-word "
         +:+ default "blog post" (Requirements.content_type requirements);
       deliverables := ["first_draft"];
       dependencies := Some ["research"];
       estimated_time := "20 minutes" |};
    {| name := "editing";
       agent := "editor";
       description := "Review and improve content for clarity, flow, and grammar";
       deliverables := ["edited_content"; "improvement_notes"];
       dependencies := Some ["content_writing"];
       estimated_time := "10 minutes" |};
    {| name := "seo_optimization";
       agent := "seo";
       description :=
         "Optimize content for SEO with keywords: "
         +:+ PyStr.join ", " (default [] (Requirements.seo_keywords requirements));
       deliverables := ["seo_optimized_content"; "meta_tags"; "seo_report"];
       dependencies := Some ["editing"];
       estimated_time := "10 minutes" |};
    {| name := "final_review";
       agent := "coordinator";
       description := "Conduct final quality assurance and approval";
       deliverables := ["final_content"; "quality_report"];
       dependencies := Some ["seo_optimization"];
       estimated_time := "5 minutes" |} ].

Definition _define_quality_criteria (requirements : Requirements.t)
    : quality_criteria_t :=
  {| minimum_word_count :=
       Some (fmul (float_of (inject_Z (default 1000%Z
                                         (Requirements.word_count requirements))))
                  (float_of (9 # 10)));
     maximum_word_count :=
       Some (fmul (float_of (inject_Z (default 1000%Z
                                         (Requirements.word_count requirements))))
                  (float_of (11 # 10)));
     required_keywords := default [] (Requirements.seo_keywords requirements);
     readability_score := 60;
     structure_requirements :=
       Some {| req_has_introduction := true;
               req_has_conclusion := true;
               req_has_headings := true;
               max_paragraph_length := 150 |};
     seo_requirements :=
       {| keyword_density := {| band_min := (1 # 2)%Q; band_max := 3%Q |};
          meta_title_length := {| band_min := 30%Q; band_max := 60%Q |};
          meta_description_length := {| band_min := 120%Q; band_max := 160%Q |} |} |}.

Definition _estimate_timeline (requirements : Requirements.t) : timeline_t :=
  let word_count := default 1000%Z (Requirements.word_count requirements) in
  let complexity_multiplier : Q :=
    if (2000 <? word_count)%Z then float_of (3 # 2)
    else if (1500 <? word_count)%Z then float_of (6 # 5)
    else 1%Q in
  let base_time : Z := 60%Z in
  let estimated_time :=
    py_int (fmul (float_of (inject_Z base_time)) complexity_multiplier) in
  {| estimated_duration := str_of_Z estimated_time +:+ " minutes";
     research_phase := "15 minutes";
     writing_phase := "20 minutes";
     editing_phase := "10 minutes";
     seo_phase := "10 minutes";
     review_phase := "5 minutes" |}.

Definition create_content_plan (requirements : Requirements.t) : plan :=
  {| topic := Some (default "" (Requirements.topic requirements));
     target_audience :=
       Some (default "General audience" (Requirements.target_audience requirements));
     word_count := default 1000%Z (Requirements.word_count requirements);
     tone := default "Professional" (Requirements.tone requirements);
     seo_keywords := default [] (Requirements.seo_keywords requirements);
     content_type :=
       Some (default "Blog post" (Requirements.content_type requirements));
     tasks := _generate_task_sequence requirements;
     quality_criteria := Some (_define_quality_criteria requirements);
     timeline := _estimate_timeline requirements |}.

Record word_count_check := {
  current : nat;
  target_range : Q * Q;
  passed : bool
}.

Record structure_check := {
  has_introduction : bool;
  has_conclusion : bool;
  has_headings : bool
}.

(** The values stored under [checks]: the word-count entry carries a
    [passed] key, the structure entry does not. *)
Inductive check :=
| WordCountCheck (c : word_count_check)
| StructureCheck (c : structure_check).

(** [check.get('passed', True)] *)
Definition check_get_passed (c : check) : bool :=
  match c with
  | WordCountCheck w => passed w
  | StructureCheck _ => true
  end.

(** "Content is too short ({word_count} words). Add {min_words - word_count}
    more words." and "Content is too long ({word_count} words). Remove
    {word_count - max_words} words." *)
Inductive improvement :=
| TooShort (word_count : nat) (missing : Q)
| TooLong (word_count : nat) (excess : Q).

Inductive feedback_line :=
| MeetsStandards
| NeedsImprovements
| Needed (i : improvement).

Record validation_results := {
  overall_score : Q;
  validation_passed : bool;
  checks : list (string * check);
  feedback : list feedback_line;
  improvements_needed : list improvement
}.

Definition intro_markers : list string :=
  ["introduction"; "overview"; "begin"; "start"].
Definition conclusion_markers : list string :=
  ["conclusion"; "summary"; "final"; "end"].

Definition validate_content_quality (content : string) (plan : plan)
    : result validation_results :=
  let criteria := quality_criteria plan in
  let word_count := PyStr.word_count content in
  let min_words := default 900%Q (criteria ≫= minimum_word_count) in
  let max_words := default 1100%Q (criteria ≫= maximum_word_count) in
  let wc_passed :=
    Qle_bool min_words (Qnat word_count) && Qle_bool (Qnat word_count) max_words in
  let improvements :=
    if wc_passed then []
    else if Qlt_bool (Qnat word_count) min_words
         then [TooShort word_count (fsub min_words (Qnat word_count))]
         else [TooLong word_count (fsub (Qnat word_count) max_words)] in
  let has_intro :=
    existsb (fun keyword => PyStr.contains keyword (PyStr.take 200 (PyStr.lower content)))
            intro_markers in
  let has_conclusion :=
    existsb (fun keyword => PyStr.contains keyword (PyStr.last 200 (PyStr.lower content)))
            conclusion_markers in
  let checks :=
    [ ("word_count",
       WordCountCheck {| current := word_count;
                         target_range := (min_words, max_words);
                         passed := wc_passed |});
      ("structure",
       StructureCheck {| has_introduction := has_intro;
                         has_conclusion := has_conclusion;
                         has_headings :=
                           PyStr.contains "#" content
                           || existsb PyStr.isupper (PyStr.split PyStr.NL content) |}) ] in
  let passed_checks := length (List.filter (fun c => check_get_passed c.2) checks) in
  let total_checks := length checks in
  '(score, ok) ←
    (if 0 <? total_checks
     then q ← py_truediv (Z.of_nat passed_checks) (Z.of_nat total_checks);
          let score := fmul q 100 in
          Ok (score, Qle_bool 80 score)
     else Ok (0%Q, false));
  Ok {| overall_score := score;
        validation_passed := ok;
        checks := checks;
        feedback :=
          if ok then [MeetsStandards]
          else NeedsImprovements :: map Needed improvements;
        improvements_needed := improvements |}.

End CoordinatorAgent.

(** Python's stable sort with [reverse=True]: descending, equal keys in
    their original order.  [lt x y] reads "the key of [x] is below that of
    [y]". *)
Fixpoint insert_desc {A} (lt : A -> A -> bool) (x : A) (l : list A) : list A :=
  match l with
  | [] => [x]
  | y :: l' => if lt y x then x :: l else y :: insert_desc lt x l'
  end.

Definition sort_desc {A} (lt : A -> A -> bool) (l : list A) : list A :=
  fold_left (fun acc x => insert_desc lt x acc) l [].

(** ** agents/researcher.py *)

Module ResearchAgent.

Record source := {
  title : string;
  url : string;
  snippet : string;
  credibility : Q
}.

(** With no valid source only [overall_score] and [assessment] are set. *)
Record credibility_assessment_t := {
  overall_score : Q;
  total_sources : option nat;
  high_credibility_sources : option nat;
  assessment : string
}.

Record research_output := {
  topic : string;
  research_summary : string;
  key_facts : list string;
  statistics : list string;
  expert_quotes : list string;
  source_references : list source;
  content_outline : list string;
  research_gaps : list string;
  credibility_assessment : credibility_assessment_t
}.

(** [r.get(k, d)] on a search result *)
Definition get (r : search_result) (k d : string) : string := default d (r !! k).

(** [[r for r in search_results if 'error' not in r]] *)
Definition valid_results (search_results : list search_result) : list search_result :=
  List.filter (fun r => bool_decide (r !! "error" = None)) search_results.

Definition _generate_research_queries (topic : string) (requirements : Requirements.t)
    : list string :=
  let base_queries :=
    [ topic;
      topic +:+ " definition";
      topic +:+ " benefits";
      topic +:+ " challenges";
      topic +:+ " statistics";
      topic +:+ " recent developments" ] in
  let audience := default "" (Requirements.target_audience requirements) in
  let base_queries :=
    if PyStr.is_empty audience then base_queries
    else base_queries
         ++ [ topic +:+ " for " +:+ audience;
              topic +:+ " " +:+ audience +:+ " case studies" ] in
  let keywords := default [] (Requirements.seo_keywords requirements) in
  let base_queries :=
    base_queries ++ map (fun keyword => keyword +:+ " " +:+ topic) (take 3 keywords) in
  take 8 base_queries.

Definition common_words : list string :=
  ["the"; "and"; "or"; "but"; "in"; "on"; "at"; "to"; "for"; "of"; "with";
   "by"; "from"; "up"; "about"; "into"; "through"; "during"; "before";
   "after"; "above"; "below"; "between"; "among"; "around"; "is"; "are";
   "was"; "were"; "be"; "been"; "being"; "have"; "has"; "had"; "do"; "does";
   "did"; "will"; "would"; "could"; "should"; "may"; "might"; "must"; "can";
   "this"; "that"; "these"; "those"; "a"; "an"].

Definition in_list (w : string) (l : list string) : bool :=
  existsb (String.eqb w) l.

Definition _extract_main_themes (text : string) : string :=
  let words := PyStr.words (PyStr.lower text) in
  let word_freq :=
    fold_left
      (fun word_freq word =>
         let clean_word :=
           PyStr.strip_chars (".,!?" +:+ PyStr.DQ +:+ ";:()[]{}") word in
         if (3 <? String.length clean_word) && negb (in_list clean_word common_words)
         then ContentValidatorTool.bump clean_word word_freq
         else word_freq)
      words [] in
  let top_words := take 5 (sort_desc (fun x y : string * nat => x.2 <? y.2) word_freq) in
  let themes := map fst top_words in
  match themes with
  | [] => "General information and insights"
  | _ => PyStr.join ", " themes
  end.

Definition indent : string := "        ".

Definition _create_research_summary (topic : string)
    (search_results : list search_result) : string :=
  let valid := valid_results search_results in
  match valid with
  | [] =>
      "Limited research available on " +:+ topic
      +:+ ". Recommend using authoritative sources."
  | _ =>
      let combined_text :=
        PyStr.join " " (map (fun r => get r "snippet" "") (take 10 valid)) in
      let summary :=
        PyStr.NL
        +:+ indent +:+ "Research Summary: " +:+ topic +:+ PyStr.NL
        +:+ indent +:+ PyStr.NL
        +:+ indent +:+ "Overview: Based on analysis of "
        +:+ PyStr.of_nat (length valid) +:+ " sources, " +:+ topic
        +:+ " appears to be a significant subject with multiple dimensions worth exploring."
        +:+ PyStr.NL
        +:+ indent +:+ PyStr.NL
        +:+ indent +:+ "Key Themes Identified:" +:+ PyStr.NL
        +:+ indent +:+ "- " +:+ _extract_main_themes combined_text +:+ PyStr.NL
        +:+ indent +:+ PyStr.NL
        +:+ indent
        +:+ "Current Status: The topic shows ongoing relevance with recent developments and continued interest from various stakeholders."
        +:+ PyStr.NL
        +:+ indent +:+ PyStr.NL
        +:+ indent +:+ "Research Confidence: "
        +:+ (if 5 <=? length valid then "High"
             else if 3 <=? length valid then "Medium" else "Low")
        +:+ PyStr.NL
        +:+ indent in
      PyStr.strip summary
  end.

Definition fact_indicators : list string :=
  ["is"; "are"; "was"; "were"; "has"; "have"; "can"; "will"; "according"].

(** The loop over the sentences of one snippet; it stops after an append
    that brings the list to five facts. *)
Fixpoint facts_of_sentences (sentences : list string) (facts : list string)
    : list string :=
  match sentences with
  | [] => facts
  | sentence :: rest =>
      if (50 <? String.length (PyStr.strip sentence))
         && existsb (fun word => PyStr.contains word (PyStr.lower sentence))
                    fact_indicators
      then
        let facts := facts ++ [PyStr.strip sentence] in
        if 5 <=? length facts then facts else facts_of_sentences rest facts
      else facts_of_sentences rest facts
  end.

Definition _extract_key_facts (search_results : list search_result) : list string :=
  let facts :=
    fold_left
      (fun facts r => facts_of_sentences (PyStr.split "." (get r "snippet" "")) facts)
      (take 5 (valid_results search_results)) [] in
  take 5 facts.

Definition stat_patterns : list string :=
  [ "\d+%";
    "\$[\d,]+";
    "\d+\.\d+\s*(million|billion|thousand)";
    "\d+\s*(times|fold)" ].

(** The loop over the matches of one pattern; it stops after an append
    that brings the list to three entries. *)
Fixpoint stats_of_matches (snippet : string) (matches : list string)
    (statistics : list string) : list string :=
  match matches with
  | [] => statistics
  | m :: rest =>
      let pos := PyStr.find_Z m snippet in
      let context :=
        PyStr.slice (Z.to_nat (Z.max 0 (pos - 50))) (Z.to_nat (pos + 50)) snippet in
      let statistics := statistics ++ [m +:+ ": " +:+ PyStr.strip context] in
      if 3 <=? length statistics then statistics
      else stats_of_matches snippet rest statistics
  end.

(** Every second piece of the snippet split at the double quote, from
    index 1 on: [range(1, len(quoted_parts), 2)]. *)
Fixpoint odd_items {A} (l : list A) : list A :=
  match l with
  | _ :: x :: rest => x :: odd_items rest
  | _ => []
  end.

Fixpoint quotes_of_parts (title : string) (parts : list string)
    (quotes : list string) : list string :=
  match parts with
  | [] => quotes
  | part :: rest =>
      if 20 <? String.length part
      then
        let quotes :=
          quotes ++ [PyStr.DQ +:+ part +:+ PyStr.DQ +:+ " - " +:+ title] in
        if 3 <=? length quotes then quotes else quotes_of_parts title rest quotes
      else quotes_of_parts title rest quotes
  end.

Definition _extract_quotes (search_results : list search_result) : list string :=
  let quotes :=
    fold_left
      (fun quotes r =>
         let snippet := get r "snippet" "" in
         let title := get r "title" "" in
         if PyStr.contains PyStr.DQ snippet
         then quotes_of_parts title (odd_items (PyStr.split PyStr.DQ snippet)) quotes
         else quotes)
      (valid_results search_results) [] in
  take 3 quotes.

Definition high_credibility_domains : list string :=
  [".edu"; ".gov"; ".org"; "wikipedia"; "scholar.google"].
Definition medium_credibility_domains : list string :=
  [".com"; "news"; "journal"; "research"].
Definition quality_indicators : list string :=
  ["research"; "study"; "analysis"; "report"; "official"].

Definition _assess_single_source_credibility (source : search_result) : Q :=
  let url := PyStr.lower (get source "url" "") in
  let title := PyStr.lower (get source "title" "") in
  let score : Q := (1 # 2)%Q in
  let score :=
    if existsb (fun domain => PyStr.contains domain url) high_credibility_domains
    then (score + (3 # 10))%Q
    else if existsb (fun domain => PyStr.contains domain url) medium_credibility_domains
         then (score + (1 # 10))%Q
         else score in
  let score :=
    if existsb (fun indicator => PyStr.contains indicator title) quality_indicators
    then (score + (1 # 10))%Q
    else score in
  Qmin 1 score.

Definition _compile_sources (search_results : list search_result) : list source :=
  let sources :=
    map (fun r =>
           {| title := get r "title" "Unknown Title";
              url := get r "url" "";
              snippet := PyStr.take 200 (get r "snippet" "") +:+ "...";
              credibility := _assess_single_source_credibility r |})
        (take 5 (valid_results search_results)) in
  sort_desc (fun x y => Qlt_bool (credibility x) (credibility y)) sources.

Definition _suggest_content_outline (topic : string) (requirements : Requirements.t)
    : list string :=
  let content_type :=
    PyStr.lower (default "blog post" (Requirements.content_type requirements)) in
  if in_list content_type ["guide"; "tutorial"; "how-to"]
  then [ "Introduction to " +:+ topic;
         "Prerequisites and Requirements";
         "Step-by-Step Process";
         "Best Practices";
         "Common Mistakes to Avoid";
         "Advanced Tips";
         "Conclusion and Next Steps" ]
  else if in_list content_type ["review"; "comparison"]
  then [ "Overview of " +:+ topic;
         "Methodology";
         "Detailed Analysis";
         "Pros and Cons";
         "Comparisons";
         "Recommendations";
         "Final Verdict" ]
  else [ "Introduction to " +:+ topic;
         "What is " +:+ topic +:+ "?";
         "Key Benefits of " +:+ topic;
         "Challenges and Considerations";
         "Current Trends and Developments";
         "Practical Applications";
         "Future Outlook";
         "Conclusion" ].

Definition recent_indicators : list string :=
  ["2024"; "2023"; "recent"; "latest"; "new"; "current"].

Definition _identify_research_gaps (topic : string)
    (search_results : list search_result) : list string :=
  let valid := valid_results search_results in
  let all_text :=
    PyStr.lower
      (PyStr.join " " (map (fun r => get r "snippet" "" +:+ get r "title" "") valid)) in
  let has_recent_content :=
    existsb (fun indicator => PyStr.contains indicator all_text) recent_indicators in
  let combined_content :=
    PyStr.lower (PyStr.join " " (map (fun r => get r "snippet" "") valid)) in
  (if length valid <? 3
   then ["Limited source diversity - recommend finding additional authoritative sources"]
   else [])
  ++ (if has_recent_content then []
      else ["Lack of recent information - consider finding more current sources"])
  ++ (if negb (PyStr.contains "however" combined_content)
         && negb (PyStr.contains "but" combined_content)
      then ["Limited perspective diversity - consider finding contrasting viewpoints"]
      else []).

Definition _get_credibility_assessment (score : Q) : string :=
  if Qle_bool (8 # 10) score
  then "High credibility - sources are trustworthy and authoritative"
  else if Qle_bool (6 # 10) score
  then "Good credibility - sources are generally reliable"
  else if Qle_bool (4 # 10) score
  then "Medium credibility - sources should be verified"
  else "Low credibility - additional authoritative sources needed".

Definition Qsum (l : list Q) : Q := fold_left Qplus l 0%Q.

Definition _assess_source_credibility (search_results : list search_result)
    : result credibility_assessment_t :=
  let valid := valid_results search_results in
  let credibility_scores := map _assess_single_source_credibility valid in
  match credibility_scores with
  | [] =>
      Ok {| overall_score := 0;
            total_sources := None;
            high_credibility_sources := None;
            assessment := "No valid sources found" |}
  | _ =>
      avg_score ← py_div (Qsum credibility_scores) (Qnat (length credibility_scores));
      Ok {| overall_score := round2 avg_score;
            total_sources := Some (length valid);
            high_credibility_sources :=
              Some (length (List.filter (fun score => Qle_bool (8 # 10) score)
                                   credibility_scores));
            assessment := _get_credibility_assessment avg_score |}
  end.

Section WithCollaborators.
Context `{RegexLib} `{SearchTool}.

Definition _extract_statistics (search_results : list search_result) : list string :=
  let statistics :=
    fold_left
      (fun statistics r =>
         let snippet := get r "snippet" "" in
         fold_left
           (fun statistics pattern =>
              stats_of_matches snippet (re_findall pattern IGNORECASE snippet)
                               statistics)
           stat_patterns statistics)
      (valid_results search_results) [] in
  take 3 statistics.

Definition conduct_research (topic : string) (requirements : Requirements.t)
    : result research_output :=
  let queries := _generate_research_queries topic requirements in
  let search_results := flat_map (fun query => web_search query 5) queries in
  assessment ← _assess_source_credibility search_results;
  Ok {| topic := topic;
        research_summary := _create_research_summary topic search_results;
        key_facts := _extract_key_facts search_results;
        statistics := _extract_statistics search_results;
        expert_quotes := _extract_quotes search_results;
        source_references := _compile_sources search_results;
        content_outline := _suggest_content_outline topic requirements;
        research_gaps := _identify_research_gaps topic search_results;
        credibility_assessment := assessment |}.

End WithCollaborators.

End ResearchAgent.

(** ** agents/editor.py *)

Module EditorAgent.

(** An editing note is a line of text; the readability note prints two
    floats, "Improved readability score from {a} to {b}". *)
Inductive editing_note :=
| Note (s : string)
| ReadabilityImproved (original improved : Q).

Record editing_output := {
  original_content : string;
  edited_content : string;
  quality_analysis : ContentValidatorTool.output;
  improvements_made : list string;
  editing_notes : list editing_note;
  final_quality_score : Z;
  recommendations : list string
}.

Definition _fix_paragraph_spacing (content : string) : string :=
  let paragraphs := PyStr.split (PyStr.NL +:+ PyStr.NL) content in
  let cleaned_paragraphs :=
    flat_map
      (fun para =>
         let cleaned_para := PyStr.strip para in
         if PyStr.is_empty cleaned_para then []
         else [PyStr.join " " (PyStr.split PyStr.NL cleaned_para)])
      paragraphs in
  PyStr.join (PyStr.NL +:+ PyStr.NL) cleaned_paragraphs.

Definition _improve_structure (content : string) (requirements : Requirements.t)
    : string :=
  let lines := PyStr.split PyStr.NL content in
  let improved_lines :=
    map (fun line =>
           if PyStr.startswith "#" line
           then
             let heading_text := PyStr.strip line in
             let level :=
               String.length heading_text
               - String.length (PyStr.lstrip_char "#" heading_text) in
             let text := PyStr.strip (PyStr.lstrip_char "#" heading_text) in
             PyStr.repeat_char "#" level +:+ " " +:+ text
           else line)
        lines in
  _fix_paragraph_spacing (PyStr.join PyStr.NL improved_lines).

Definition clarity_improvements : list (string * string) :=
  [ ("in order to", "to");
    ("due to the fact that", "because");
    ("at this point in time", "now");
    ("for the purpose of", "to");
    ("in the event that", "if");
    ("take into consideration", "consider");
    ("make a decision", "decide");
    ("come to a conclusion", "conclude");
    ("it is important to note that", "");
    ("it should be mentioned that", "");
    ("it is worth noting that", "") ].

Definition replace_all (table : list (string * string)) (content : string) : string :=
  fold_left (fun improved '(old, new) => PyStr.replace old new improved) table content.

Definition _improve_clarity (content : string) : string :=
  replace_all clarity_improvements content.

Definition transition_starters : list string :=
  [ "However,"; "Furthermore,"; "Additionally,"; "Moreover,";
    "In contrast,"; "Similarly,"; "Therefore,"; "Consequently," ].

(** The body of the loop for a paragraph at index [i > 0], [previous]
    being [paragraphs[i-1]]. *)
Definition add_transition (previous para : string) : string :=
  if 20 <? PyStr.word_count para
  then
    if negb (existsb (fun starter => PyStr.startswith starter (PyStr.strip para))
                     transition_starters)
    then
      if PyStr.contains "benefit" (PyStr.lower para)
         || PyStr.contains "advantage" (PyStr.lower para)
      then
        if PyStr.contains "challenge" (PyStr.lower previous)
        then "However, " +:+ para
        else "Additionally, " +:+ para
      else if PyStr.contains "challenge" (PyStr.lower para)
              || PyStr.contains "difficult" (PyStr.lower para)
      then "However, " +:+ para
      else para
    else para
  else para.

Fixpoint flow_loop (previous : option string) (paragraphs : list string)
    : list string :=
  match paragraphs with
  | [] => []
  | para :: rest =>
      match previous with
      | None => para
      | Some p => add_transition p para
      end :: flow_loop (Some para) rest
  end.

Definition _improve_flow (content : string) : string :=
  let paragraphs := PyStr.split (PyStr.NL +:+ PyStr.NL) content in
  PyStr.join (PyStr.NL +:+ PyStr.NL) (flow_loop None paragraphs).

(** What one piece of [content.split('.')] adds to [improved_sentences]. *)
Definition split_long_sentence (piece : string) : list string :=
  let sentence := PyStr.strip piece in
  let kept := if PyStr.is_empty sentence then [] else [sentence] in
  if 30 <? PyStr.word_count sentence
  then
    if PyStr.contains " and " sentence
    then match PyStr.split " and " sentence with
         | [part0; part1] => [PyStr.strip part0; PyStr.strip part1]
         | _ => kept
         end
    else if PyStr.contains " which " sentence
    then match PyStr.split " which " sentence with
         | [part0; part1] => [PyStr.strip part0; "This " +:+ PyStr.strip part1]
         | _ => kept
         end
    else kept
  else kept.

Definition _improve_readability (content : string) : string :=
  let sentences := PyStr.split "." content in
  PyStr.join ". " (flat_map split_long_sentence sentences).

Definition grammar_fixes : list (string * string) :=
  [ (" ,", ",");
    (" .", ".");
    (",,", ",");
    ("..", ".");
    ("  ", " ") ].

Definition _fix_common_issues (content : string)
    (quality_analysis : ContentValidatorTool.output) : string :=
  let improved_content := replace_all grammar_fixes content in
  let sentences := PyStr.split ". " improved_content in
  PyStr.join ". " (map PyStr.capitalize_first sentences).

Definition _improve_content (content : string) (requirements : Requirements.t)
    (quality_analysis : ContentValidatorTool.output) : string :=
  let improved_content := content in
  let improved_content := _improve_structure improved_content requirements in
  let improved_content := _improve_clarity improved_content in
  let improved_content := _improve_flow improved_content in
  let improved_content := _improve_readability improved_content in
  let improved_content := _fix_common_issues improved_content quality_analysis in
  improved_content.

Definition transitions : list string :=
  ["However"; "Furthermore"; "Additionally"; "Moreover"; "Therefore"].

Definition count_transitions (s : string) : nat :=
  fold_right Nat.add 0 (map (fun t => PyStr.count t s) transitions).

Definition _track_improvements (original improved : string) : list string :=
  let original_words := PyStr.word_count original in
  let improved_words := PyStr.word_count improved in
  let original_headings := PyStr.count "#" original in
  let improved_headings := PyStr.count "#" improved in
  let original_paras := length (ContentValidatorTool.nonblank_paragraphs original) in
  let improved_paras := length (ContentValidatorTool.nonblank_paragraphs improved) in
  let original_transitions := count_transitions original in
  let improved_transitions := count_transitions improved in
  let improvements :=
    (if improved_words =? original_words then []
     else if improved_words <? original_words
          then ["Reduced word count by "
                +:+ PyStr.of_nat (original_words - improved_words)
                +:+ " words for better conciseness"]
          else ["Expanded content by "
                +:+ PyStr.of_nat (improved_words - original_words)
                +:+ " words for better clarity"])
    ++ (if original_headings <? improved_headings
        then ["Added headings to improve content structure"] else [])
    ++ (if improved_paras =? original_paras then []
        else ["Reorganized content into better paragraph structure"])
    ++ (if original_transitions <? improved_transitions
        then ["Added transition words to improve flow"] else []) in
  match improvements with
  | [] => ["Made minor improvements to clarity and readability"]
  | _ => improvements
  end.

Definition _generate_editing_notes (original improved : string)
    (requirements : Requirements.t) : list editing_note :=
  let original_quality := ContentValidatorTool.run original in
  let improved_quality := ContentValidatorTool.run improved in
  let original_score := ContentValidatorTool.get_quality_score original_quality in
  let improved_score := ContentValidatorTool.get_quality_score improved_quality in
  let original_issues := length (ContentValidatorTool.get_issues original_quality) in
  let improved_issues := length (ContentValidatorTool.get_issues improved_quality) in
  let original_readability :=
    ContentValidatorTool.get_readability_score original_quality in
  let improved_readability :=
    ContentValidatorTool.get_readability_score improved_quality in
  let target_words := default 1000%Z (Requirements.word_count requirements) in
  let actual_words := PyStr.word_count improved in
  (if (original_score <? improved_score)%Z
   then [Note ("Quality score improved from " +:+ str_of_Z original_score
               +:+ " to " +:+ str_of_Z improved_score)]
   else [])
  ++ (if improved_issues <? original_issues
      then [Note ("Resolved " +:+ PyStr.of_nat (original_issues - improved_issues)
                  +:+ " content issues")]
      else [])
  ++ (if Qlt_bool original_readability improved_readability
      then [ReadabilityImproved original_readability improved_readability]
      else [])
  ++ (if Qle_bool (inject_Z (Z.abs (Z.of_nat actual_words - target_words)))
                  (fmul (float_of (inject_Z target_words)) (float_of (1 # 10)))
      then [Note ("Content length optimized to target ("
                  +:+ PyStr.of_nat actual_words +:+ " words)")]
      else [])
  ++ [ Note "Applied standard editorial best practices";
       Note "Ensured consistency in tone and style" ].

Definition _calculate_final_quality_score (content : string) : Z :=
  ContentValidatorTool.get_quality_score (ContentValidatorTool.run content).

Definition _generate_recommendations (content : string)
    (requirements : Requirements.t) : list string :=
  let quality_analysis := ContentValidatorTool.run content in
  let quality_score := ContentValidatorTool.get_quality_score quality_analysis in
  let issues := ContentValidatorTool.get_issues quality_analysis in
  let word_count := PyStr.word_count content in
  let target_words := default 1000%Z (Requirements.word_count requirements) in
  let seo_keywords := default [] (Requirements.seo_keywords requirements) in
  let content_lower := PyStr.lower content in
  let missing_keywords :=
    List.filter (fun kw => negb (PyStr.contains (PyStr.lower kw) content_lower))
           seo_keywords in
  let recommendations :=
    (if (90 <=? quality_score)%Z
     then [ "Excellent content quality - ready for publication";
            "Consider this content for featured placement or promotion" ]
     else if (80 <=? quality_score)%Z
     then [ "Good content quality - minor improvements may enhance impact";
            "Content is ready for publication" ]
     else if (70 <=? quality_score)%Z
     then [ "Content needs minor improvements before publication";
            "Consider additional review of structure and clarity" ]
     else [ "Content requires significant improvements";
            "Recommend additional editing pass before publication" ])
    ++ map (fun issue => "Address: " +:+ issue) (take 3 issues)
    ++ (if Qlt_bool (Qnat word_count)
                    (fmul (float_of (inject_Z target_words)) (float_of (9 # 10)))
        then ["Consider expanding content to reach target word count ("
              +:+ str_of_Z target_words +:+ " words)"]
        else if Qlt_bool (fmul (float_of (inject_Z target_words)) (float_of (11 # 10)))
                         (Qnat word_count)
        then ["Consider condensing content to meet target word count ("
              +:+ str_of_Z target_words +:+ " words)"]
        else [])
    ++ (match seo_keywords, missing_keywords with
        | _ :: _, _ :: _ =>
            ["Consider incorporating missing SEO keywords: "
             +:+ PyStr.join ", " missing_keywords]
        | _, _ => []
        end) in
  take 5 recommendations.

Definition edit_content (content : string) (requirements : Requirements.t)
    : editing_output :=
  let quality_analysis := ContentValidatorTool.run content in
  let improved_content := _improve_content content requirements quality_analysis in
  {| original_content := content;
     edited_content := improved_content;
     quality_analysis := quality_analysis;
     improvements_made := _track_improvements content improved_content;
     editing_notes := _generate_editing_notes content improved_content requirements;
     final_quality_score := _calculate_final_quality_score improved_content;
     recommendations := _generate_recommendations improved_content requirements |}.

End EditorAgent.

(** ** agents/seo_optimizer.py *)

Module SEOAgent.

Record meta_tags_t := {
  title : string;
  description : string;
  keywords : string;
  og_title : string;
  og_description : string;
  og_type : string;
  robots : string;
  canonical : string
}.

Record keyword_entry := {
  count : nat;
  density : Q;
  in_title : bool;
  in_headings : bool;
  in_first_paragraph : bool;
  optimal_density : bool
}.

Record placement := {
  score : nat;
  assessment : string
}.

Record keyword_report_t := {
  total_words : nat;
  keyword_analysis : gmap string keyword_entry;
  density_analysis : gmap string string;
  placement_analysis : gmap string placement
}.

Record seo_output := {
  original_content : string;
  optimized_content : string;
  target_keywords : list string;
  seo_analysis : SEOAnalyzerTool.output;
  final_seo_analysis : SEOAnalyzerTool.output;
  meta_tags : meta_tags_t;
  optimizations_made : list string;
  seo_score : Z;
  recommendations : list string;
  keyword_report : keyword_report_t
}.

(** The new first-level heading line for [title], when [keywords] is not
    empty. *)
Definition retitle (keywords : list string) (line title : string) : result string :=
  first ← py_index keywords 0;
  if negb (PyStr.contains (PyStr.lower first) (PyStr.lower title))
  then
    primary_keyword ← py_index keywords 0;
    title ←
      (if PyStr.contains ":" title
       then
         let parts := PyStr.split ":" title in
         part0 ← py_index parts 0;
         if negb (PyStr.contains (PyStr.lower primary_keyword) (PyStr.lower part0))
         then part1 ← py_index parts 1;
              Ok (primary_keyword +:+ ": " +:+ PyStr.strip part1)
         else Ok title
       else Ok (primary_keyword +:+ ": " +:+ title));
    Ok ("# " +:+ title)
  else Ok line.

(** The loop over the lines; it ends at the first line that starts "# ". *)
Fixpoint title_loop (keywords : list string) (lines : list string)
    : result (list string) :=
  match lines with
  | [] => Ok []
  | line :: rest =>
      if PyStr.startswith "# " line
      then
        let title := PyStr.strip (PyStr.drop 2 line) in
        line ← (match keywords with
                | [] => Ok line
                | _ => retitle keywords line title
                end);
        Ok (line :: rest)
      else rest ← title_loop keywords rest; Ok (line :: rest)
  end.

Definition _optimize_title_seo (content : string) (keywords : list string)
    : result string :=
  lines ← title_loop keywords (PyStr.split PyStr.NL content);
  Ok (PyStr.join PyStr.NL lines).

Definition reword_heading (keyword heading_text : string) : string :=
  let h := PyStr.lower heading_text in
  if PyStr.contains "benefits" h || PyStr.contains "advantages" h
  then keyword +:+ " Benefits and Advantages"
  else if PyStr.contains "challenges" h
  then keyword +:+ " Challenges and Solutions"
  else if PyStr.contains "best practices" h
  then "Best Practices for " +:+ keyword
  else if PyStr.contains "future" h
  then "Future of " +:+ keyword
  else heading_text.

Fixpoint headings_loop (keywords : list string) (keyword_index : nat)
    (lines : list string) : result (list string) :=
  match lines with
  | [] => Ok []
  | line :: rest =>
      if PyStr.startswith "##" line && negb (PyStr.startswith "###" line)
      then
        let heading := PyStr.strip line in
        let heading_text := PyStr.strip (PyStr.lstrip_char "#" heading) in
        if keyword_index <? length keywords
        then
          keyword ← py_index keywords keyword_index;
          if negb (PyStr.contains (PyStr.lower keyword) (PyStr.lower heading_text))
          then
            rest ← headings_loop keywords (S keyword_index) rest;
            Ok (("## " +:+ reword_heading keyword heading_text) :: rest)
          else rest ← headings_loop keywords keyword_index rest; Ok (line :: rest)
        else rest ← headings_loop keywords keyword_index rest; Ok (line :: rest)
      else rest ← headings_loop keywords keyword_index rest; Ok (line :: rest)
  end.

Definition _optimize_headings_seo (content : string) (keywords : list string)
    : result string :=
  match keywords with
  | [] => Ok content
  | _ =>
      lines ← headings_loop keywords 0 (PyStr.split PyStr.NL content);
      Ok (PyStr.join PyStr.NL lines)
  end.

Definition generic_terms : list string :=
  ["this technology"; "this approach"; "this method"; "this solution"; "it"].

(** The loop over the sentences of one paragraph, with the running number
    of additions. *)
Fixpoint sentences_loop (keyword : string) (count : nat)
    (sentences : list string) (additions_made : nat) : list string * nat :=
  match sentences with
  | [] => ([], additions_made)
  | sentence :: rest =>
      if (10 <? PyStr.word_count sentence) && (additions_made <? count)
      then
        let '(sentence, additions_made) :=
          match List.find (fun term => PyStr.contains term (PyStr.lower sentence))
                          generic_terms with
          | Some term => (PyStr.replace_first term keyword sentence, S additions_made)
          | None => (sentence, additions_made)
          end in
        if count <=? additions_made
        then (sentence :: rest, additions_made)
        else
          let '(rest, n) := sentences_loop keyword count rest additions_made in
          (sentence :: rest, n)
      else
        let '(rest, n) := sentences_loop keyword count rest additions_made in
        (sentence :: rest, n)
  end.

Fixpoint paragraphs_loop (keyword : string) (count : nat)
    (paragraphs : list string) (additions_made : nat) : list string :=
  match paragraphs with
  | [] => []
  | para :: rest =>
      if count <=? additions_made
      then para :: paragraphs_loop keyword count rest additions_made
      else if PyStr.startswith "#" para || (PyStr.word_count para <? 20)
      then para :: paragraphs_loop keyword count rest additions_made
      else if negb (PyStr.contains (PyStr.lower keyword) (PyStr.lower para))
      then
        let '(sentences, additions_made) :=
          sentences_loop keyword count (PyStr.split "." para) additions_made in
        PyStr.join "." sentences :: paragraphs_loop keyword count rest additions_made
      else para :: paragraphs_loop keyword count rest additions_made
  end.

Definition _add_keyword_naturally (content keyword : string) (count : nat) : string :=
  let paragraphs := PyStr.split (PyStr.NL +:+ PyStr.NL) content in
  PyStr.join (PyStr.NL +:+ PyStr.NL) (paragraphs_loop keyword count paragraphs 0).

Definition _integrate_keywords_naturally (content : string) (keywords : list string)
    : string :=
  match keywords with
  | [] => content
  | _ =>
      fold_left
        (fun optimized_content keyword =>
           let word_count := PyStr.word_count optimized_content in
           let current_count :=
             PyStr.count (PyStr.lower keyword) (PyStr.lower optimized_content) in
           let target_count :=
             Z.to_nat (Z.max 1 (py_int (fmul (float_of (Qnat word_count))
                                             (float_of (15 # 1000))))) in
           if current_count <? target_count
           then _add_keyword_naturally optimized_content keyword
                                       (target_count - current_count)
           else optimized_content)
        keywords content
  end.

(** The loop that regroups the sentences of an over-long line. *)
Fixpoint chunk_loop (sentences : list string) (current_para : list string)
    : list string :=
  match sentences with
  | [] =>
      match current_para with
      | [] => []
      | _ => [PyStr.strip (PyStr.join "." current_para)]
      end
  | sentence :: rest =>
      let current_para := current_para ++ [sentence] in
      if 100 <? PyStr.word_count (PyStr.join " " current_para)
      then (PyStr.strip (PyStr.join "." current_para) +:+ ".") :: chunk_loop rest []
      else chunk_loop rest current_para
  end.

Definition _optimize_content_structure (content : string) : string :=
  let lines := PyStr.split PyStr.NL content in
  let optimized_lines :=
    flat_map
      (fun line =>
         if PyStr.startswith "#" line then [line]
         else if negb (PyStr.is_empty (PyStr.strip line))
                 && negb (PyStr.startswith "#" line)
         then
           if 200 <? PyStr.word_count line
           then chunk_loop (PyStr.split "." line) []
           else [line]
         else [line])
      lines in
  PyStr.join PyStr.NL optimized_lines.

Definition _generate_faq_section (keywords : list string)
    (requirements : Requirements.t) : result string :=
  primary_keyword ←
    (match keywords with
     | [] => Ok (default "" (Requirements.topic requirements))
     | _ => py_index keywords 0
     end);
  let faq_section :=
    "## Frequently Asked Questions about " +:+ primary_keyword
    +:+ PyStr.NL +:+ PyStr.NL in
  let faqs :=
    [ "**What is " +:+ primary_keyword +:+ "?**" +:+ PyStr.NL +:+ primary_keyword
      +:+ " is a comprehensive approach that offers numerous benefits for organizations and individuals looking to improve their outcomes.";
      "**How does " +:+ primary_keyword +:+ " work?**" +:+ PyStr.NL
      +:+ "The implementation of " +:+ primary_keyword
      +:+ " involves several key steps and considerations that must be carefully planned and executed.";
      "**What are the benefits of " +:+ primary_keyword +:+ "?**" +:+ PyStr.NL
      +:+ "The main benefits include improved efficiency, better results, cost-effectiveness, and competitive advantages in the marketplace.";
      "**Is " +:+ primary_keyword +:+ " suitable for beginners?**" +:+ PyStr.NL
      +:+ "Yes, " +:+ primary_keyword
      +:+ " can be adapted for users at all levels, from beginners to advanced practitioners." ] in
  let faq_section :=
    fold_left (fun acc faq => acc +:+ faq +:+ PyStr.NL +:+ PyStr.NL)
              (take 3 faqs) faq_section in
  Ok (PyStr.strip faq_section).

Definition _generate_related_topics_section (keywords : list string) : string :=
  let section :=
    "## Related Topics" +:+ PyStr.NL +:+ PyStr.NL in
  let section :=
    section +:+ "Explore these related subjects to deepen your understanding:"
    +:+ PyStr.NL +:+ PyStr.NL in
  let section :=
    fold_left
      (fun section keyword =>
         section
         +:+ "- " +:+ keyword +:+ " Best Practices" +:+ PyStr.NL
         +:+ "- " +:+ keyword +:+ " Implementation Guide" +:+ PyStr.NL)
      (take 4 keywords) section in
  section +:+ PyStr.NL
  +:+ "These topics provide additional insights and practical guidance for your journey.".

Definition _add_seo_elements (content : string) (keywords : list string)
    (requirements : Requirements.t) : result string :=
  content ←
    (if 2 <=? length keywords
     then faq_section ← _generate_faq_section keywords requirements;
          Ok (content +:+ PyStr.NL +:+ PyStr.NL +:+ faq_section)
     else Ok content);
  if negb (PyStr.contains "related topics" (PyStr.lower content))
  then Ok (content +:+ PyStr.NL +:+ PyStr.NL
           +:+ _generate_related_topics_section keywords)
  else Ok content.

Definition _optimize_content_seo (content : string) (keywords : list string)
    (requirements : Requirements.t) : result string :=
  let optimized_content := content in
  optimized_content ← _optimize_title_seo optimized_content keywords;
  optimized_content ← _optimize_headings_seo optimized_content keywords;
  let optimized_content := _integrate_keywords_naturally optimized_content keywords in
  let optimized_content := _optimize_content_structure optimized_content in
  _add_seo_elements optimized_content keywords requirements.

(** [next((line for line in lines if line.startswith('# ')), '')] *)
Definition first_title_line (content : string) : string :=
  default "" (List.find (PyStr.startswith "# ") (PyStr.split PyStr.NL content)).

Definition _generate_meta_tags (content : string) (keywords : list string)
    (requirements : Requirements.t) : result meta_tags_t :=
  let title_line := first_title_line content in
  let title :=
    if PyStr.is_empty title_line
    then default "Untitled" (Requirements.topic requirements)
    else PyStr.strip (PyStr.drop 2 title_line) in
  title ←
    (if 60 <? String.length title
     then Ok (PyStr.take 57 title +:+ "...")
     else if String.length title <? 30
     then
       primary_keyword ←
         (match keywords with
          | [] => Ok ""
          | _ => py_index keywords 0
          end);
       if negb (PyStr.is_empty primary_keyword)
          && negb (PyStr.contains primary_keyword title)
       then Ok (primary_keyword +:+ " - " +:+ title)
       else Ok title
     else Ok title);
  let paragraphs :=
    List.filter (fun p => negb (PyStr.is_empty (PyStr.strip p))
                     && negb (PyStr.startswith "#" p))
           (PyStr.split (PyStr.NL +:+ PyStr.NL) content) in
  first_para ←
    (match paragraphs with
     | [] => Ok ""
     | _ => py_index paragraphs 0
     end);
  let description := PyStr.strip (PyStr.replace PyStr.NL " " first_para) in
  let description :=
    if 160 <? String.length description
    then PyStr.take 157 description +:+ "..."
    else if String.length description <? 120
    then
      match keywords with
      | [] => description
      | _ => description +:+ " Learn about " +:+ PyStr.join ", " (take 2 keywords)
             +:+ " and more."
      end
    else description in
  let meta_keywords :=
    match keywords with
    | [] => ""
    | _ => PyStr.join ", " (take 5 keywords)
    end in
  Ok {| title := title;
        description := description;
        keywords := meta_keywords;
        og_title := title;
        og_description := description;
        og_type := "article";
        robots := "index, follow";
        canonical :=
          "https://example.com/"
          +:+ PyStr.join "-" (PyStr.words (PyStr.lower title)) |}.

Definition count_headings2 (content : string) : nat :=
  length (List.filter (PyStr.startswith "##") (PyStr.split PyStr.NL content)).

Definition _track_seo_optimizations (original optimized : string)
    (keywords : list string) : list string :=
  let optimizations :=
    flat_map
      (fun keyword =>
         let original_count :=
           PyStr.count (PyStr.lower keyword) (PyStr.lower original) in
         let optimized_count :=
           PyStr.count (PyStr.lower keyword) (PyStr.lower optimized) in
         if original_count <? optimized_count
         then ["Increased '" +:+ keyword +:+ "' mentions from "
               +:+ PyStr.of_nat original_count +:+ " to "
               +:+ PyStr.of_nat optimized_count]
         else [])
      keywords
    ++ (if count_headings2 original <? count_headings2 optimized
        then ["Added SEO-optimized headings"] else [])
    ++ (if PyStr.contains "frequently asked questions" (PyStr.lower optimized)
           && negb (PyStr.contains "frequently asked questions" (PyStr.lower original))
        then ["Added FAQ section for long-tail keyword targeting"] else [])
    ++ (if PyStr.contains "related topics" (PyStr.lower optimized)
           && negb (PyStr.contains "related topics" (PyStr.lower original))
        then ["Added related topics section for internal linking"] else [])
    ++ (if String.eqb (first_title_line original) (first_title_line optimized)
        then [] else ["Optimized title for primary keyword"]) in
  match optimizations with
  | [] => ["Applied general SEO best practices"]
  | _ => optimizations
  end.

Definition b2n (b : bool) : nat := if b then 1 else 0.

(** One round of the loop over the keywords. *)
Definition report_keyword (content content_lower : string)
    (report : keyword_report_t) (keyword : string) : result keyword_report_t :=
  let keyword_lower := PyStr.lower keyword in
  let count := PyStr.count keyword_lower content_lower in
  density ←
    (if 0 <? total_words report
     then q ← py_truediv (Z.of_nat count) (Z.of_nat (total_words report));
          Ok (fmul q 100)
     else Ok 0%Q);
  let in_title := PyStr.contains keyword_lower (PyStr.take 100 content_lower) in
  let in_headings :=
    existsb (fun line => PyStr.contains keyword_lower (PyStr.lower line))
            (List.filter (PyStr.startswith "#") (PyStr.split PyStr.NL content)) in
  let in_first_para := PyStr.contains keyword_lower (PyStr.take 500 content_lower) in
  let entry :=
    {| count := count;
       density := float_round2 density;
       in_title := in_title;
       in_headings := in_headings;
       in_first_paragraph := in_first_para;
       optimal_density := Qle_bool 1 density && Qle_bool density (25 # 10) |} in
  let assessment :=
    if Qlt_bool density (1 # 2) then "Too low - increase usage"
    else if Qlt_bool 3 density then "Too high - reduce usage"
    else "Optimal range" in
  let placement_score := b2n in_title + b2n in_headings + b2n in_first_para in
  Ok {| total_words := total_words report;
        keyword_analysis := <[keyword := entry]> (keyword_analysis report);
        density_analysis := <[keyword := assessment]> (density_analysis report);
        placement_analysis :=
          <[keyword := {| score := placement_score;
                          assessment :=
                            if 2 <=? placement_score then "Excellent"
                            else if placement_score =? 1 then "Good"
                            else "Needs improvement" |}]>
            (placement_analysis report) |}.

Definition _generate_keyword_report (content : string) (keywords : list string)
    : result keyword_report_t :=
  let report :=
    {| total_words := PyStr.word_count content;
       keyword_analysis := ∅;
       density_analysis := ∅;
       placement_analysis := ∅ |} in
  foldM (report_keyword content (PyStr.lower content)) keywords report.

Section WithRegex.
Context `{RegexLib}.

Definition optimize_content (content : string) (requirements : Requirements.t)
    : result seo_output :=
  let target_keywords := default [] (Requirements.seo_keywords requirements) in
  let seo_analysis := SEOAnalyzerTool.run content target_keywords in
  optimized_content ← _optimize_content_seo content target_keywords requirements;
  meta_tags ← _generate_meta_tags optimized_content target_keywords requirements;
  let final_analysis := SEOAnalyzerTool.run optimized_content target_keywords in
  keyword_report ← _generate_keyword_report optimized_content target_keywords;
  Ok {| original_content := content;
        optimized_content := optimized_content;
        target_keywords := target_keywords;
        seo_analysis := seo_analysis;
        final_seo_analysis := final_analysis;
        meta_tags := meta_tags;
        optimizations_made :=
          _track_seo_optimizations content optimized_content target_keywords;
        seo_score := SEOAnalyzerTool.get_seo_score final_analysis;
        recommendations := SEOAnalyzerTool.get_recommendations final_analysis;
        keyword_report := keyword_report |}.

End WithRegex.

End SEOAgent.

(** ** agents/editor.py: the editing summary *)

Module EditorSummary.

Record editing_metrics_t := {
  original_word_count : nat;
  final_word_count : nat;
  original_quality_score : Z;
  final_quality_score : Z;
  readability_improvement : Q;
  issues_resolved : Z
}.

Record editing_summary := {
  editing_metrics : editing_metrics_t;
  key_improvements : list string;
  final_recommendations : list string;
  editor_confidence : Q;
  ready_for_publication : bool
}.

Definition _calculate_editor_confidence (editing_output : EditorAgent.editing_output) : Q :=
  let final_score := EditorAgent.final_quality_score editing_output in
  let confidence := float_of (inject_Z final_score / 100)%Q in
  let improvements := length (EditorAgent.improvements_made editing_output) in
  let confidence :=
    if 3 <=? improvements then fadd confidence (float_of (1 # 10)) else confidence in
  let recommendations := EditorAgent.recommendations editing_output in
  let critical_issues :=
    length (List.filter
              (fun rec => PyStr.contains "significant" (PyStr.lower rec)
                          || PyStr.contains "requires" (PyStr.lower rec))
              recommendations) in
  let confidence :=
    if 0 <? critical_issues then fsub confidence (float_of (2 # 10)) else confidence in
  Qmax 0 (Qmin 1 confidence).

Definition create_editing_summary (editing_output : EditorAgent.editing_output)
    : editing_summary :=
  let original_analysis :=
    ContentValidatorTool.run (EditorAgent.original_content editing_output) in
  let final_analysis :=
    ContentValidatorTool.run (EditorAgent.edited_content editing_output) in
  {| editing_metrics :=
       {| original_word_count := ContentValidatorTool.get_word_count original_analysis;
          final_word_count := ContentValidatorTool.get_word_count final_analysis;
          original_quality_score :=
            ContentValidatorTool.get_quality_score original_analysis;
          final_quality_score := ContentValidatorTool.get_quality_score final_analysis;
          readability_improvement :=
            fsub (ContentValidatorTool.get_readability_score final_analysis)
                 (ContentValidatorTool.get_readability_score original_analysis);
          issues_resolved :=
            (Z.of_nat (length (ContentValidatorTool.get_issues original_analysis))
             - Z.of_nat (length (ContentValidatorTool.get_issues final_analysis)))%Z |};
     key_improvements := EditorAgent.improvements_made editing_output;
     final_recommendations := EditorAgent.recommendations editing_output;
     editor_confidence := _calculate_editor_confidence editing_output;
     ready_for_publication :=
       (80 <=? ContentValidatorTool.get_quality_score final_analysis)%Z |}.

End EditorSummary.

(** ** agents/seo_optimizer.py: the SEO summary *)

Module SEOSummary.

Record assessment_t := {
  score : Q;
  assessment : string
}.

Record seo_summary := {
  seo_score : Z;
  keyword_optimization : assessment_t;
  technical_seo : assessment_t;
  content_optimization : assessment_t;
  recommendations : list string;
  next_steps : list string;
  meta_tags_ready : bool;
  search_engine_ready : bool
}.

Definition banded (score : Q) : string :=
  if Qle_bool 80 score then "Excellent"
  else if Qle_bool 60 score then "Good"
  else "Needs improvement".

Definition points (b : bool) (n : Z) : Z := if b then n else 0%Z.

(** The score of one keyword's entry of the report. *)
Definition keyword_score (analysis : SEOAgent.keyword_entry) : Z :=
  (points (SEOAgent.optimal_density analysis) 40
   + points (SEOAgent.in_title analysis) 20
   + points (SEOAgent.in_headings analysis) 20
   + points (SEOAgent.in_first_paragraph analysis) 20)%Z.

Definition Zsum (l : list Z) : Z := fold_right Z.add 0%Z l.

(** The loop over [keyword_analysis.items()] only adds up one score per
    keyword, so the order of the entries does not matter. *)
Definition _assess_keyword_optimization (keyword_report : SEOAgent.keyword_report_t)
    : result assessment_t :=
  let entries := map_to_list (SEOAgent.keyword_analysis keyword_report) in
  match entries with
  | [] => Ok {| score := 0; assessment := "No keywords analyzed" |}
  | _ =>
      let keyword_scores := map (fun entry => keyword_score entry.2) entries in
      avg_score ←
        (match keyword_scores with
         | [] => Ok 0%Q
         | _ => py_truediv (Zsum keyword_scores) (Z.of_nat (length keyword_scores))
         end);
      Ok {| score := float_round1 avg_score; assessment := banded avg_score |}
  end.

Definition _assess_technical_seo (seo_output : SEOAgent.seo_output) : assessment_t :=
  let meta_tags := SEOAgent.meta_tags seo_output in
  let nonempty s := negb (PyStr.is_empty s) in
  let within lo hi s := (lo <=? String.length s) && (String.length s <=? hi) in
  let score :=
    (points (nonempty (SEOAgent.title meta_tags)
             && within 30%nat 60%nat (SEOAgent.title meta_tags)) 25
     + points (nonempty (SEOAgent.description meta_tags)
               && within 120%nat 160%nat (SEOAgent.description meta_tags)) 25
     + points (nonempty (SEOAgent.keywords meta_tags)) 15
     + points (nonempty (SEOAgent.og_title meta_tags)
               && nonempty (SEOAgent.og_description meta_tags)) 20
     + points (nonempty (SEOAgent.canonical meta_tags)) 15)%Z in
  {| score := inject_Z score; assessment := banded (inject_Z score) |}.

(** Of an analysis that failed only the [error] key exists: every reading
    takes its default. *)
Definition _assess_content_optimization (analysis : SEOAnalyzerTool.output)
    : assessment_t :=
  let score :=
    match analysis with
    | SEOAnalyzerTool.AnalysisFailed _ => 0%Z
    | SEOAnalyzerTool.Analysis a =>
        let structure := SEOAnalyzerTool.content_structure a in
        (points (SEOAnalyzerTool.has_headings structure) 30
         + points (300 <=? SEOAnalyzerTool.word_count structure)%nat 25
         + points (SEOAnalyzerTool.has_lists structure) 15
         + points (0 <? SEOAnalyzerTool.internal_links structure)%nat 15
         + points (3 <=? length (SEOAnalyzerTool.heading_hierarchy structure))%nat 15)%Z
    end in
  {| score := inject_Z score; assessment := banded (inject_Z score) |}.

Definition _generate_seo_next_steps (analysis : SEOAnalyzerTool.output) : list string :=
  let seo_score := SEOAnalyzerTool.get_seo_score analysis in
  let recommendations := SEOAnalyzerTool.get_recommendations analysis in
  let next_steps :=
    if (80 <=? seo_score)%Z
    then [ "Content is SEO-ready for publication";
           "Monitor search rankings after publication";
           "Consider creating related content for topic clusters" ]
    else if (60 <=? seo_score)%Z
    then [ "Address remaining SEO recommendations";
           "Content is nearly ready for publication";
           "Consider additional keyword integration" ]
    else [ "Significant SEO improvements needed";
           "Focus on keyword integration and content structure";
           "Review meta tags and technical elements" ] in
  take 5 (next_steps ++ take 2 recommendations).

(** [bool(meta_tags)] is true of the dictionary [_generate_meta_tags]
    returns, which always has its eight keys. *)
Definition create_seo_summary (seo_output : SEOAgent.seo_output) : result seo_summary :=
  let final_analysis := SEOAgent.final_seo_analysis seo_output in
  let keyword_report := SEOAgent.keyword_report seo_output in
  keyword_optimization ← _assess_keyword_optimization keyword_report;
  Ok {| seo_score := SEOAnalyzerTool.get_seo_score final_analysis;
        keyword_optimization := keyword_optimization;
        technical_seo := _assess_technical_seo seo_output;
        content_optimization := _assess_content_optimization final_analysis;
        recommendations := SEOAnalyzerTool.get_recommendations final_analysis;
        next_steps := _generate_seo_next_steps final_analysis;
        meta_tags_ready := true;
        search_engine_ready := (70 <=? SEOAnalyzerTool.get_seo_score final_analysis)%Z |}.

End SEOSummary.

(** ** agents/coordinator.py: the final report *)

Module FinalReport.

Section Report.

(** The writer's output is kept in the report by reference only. *)
Variable writer_output : Type.

(** [agent_outputs]: each stage's output under its key, when present. *)
Record agent_outputs := {
  research : option ResearchAgent.research_output;
  writing : option writer_output;
  editing : option EditorAgent.editing_output;
  seo : option SEOAgent.seo_output
}.

Record content_metadata_t := {
  topic : option string;
  word_count : nat;
  target_audience : option string;
  content_type : option string;
  creation_date : option string
}.

(** A recommendation is a line of text or one of the validation's
    improvement sentences. *)
Inductive recommendation :=
| Line (s : string)
| Improve (i : CoordinatorAgent.improvement).

Record final_report := {
  content_metadata : content_metadata_t;
  quality_assessment : CoordinatorAgent.validation_results;
  agent_contributions : agent_outputs;
  seo_summary : Z;
  recommendations : list recommendation;
  next_steps : list string
}.

Definition _generate_final_recommendations
    (validation : CoordinatorAgent.validation_results) (outputs : agent_outputs)
    : list recommendation :=
  let recommendations := map Improve (CoordinatorAgent.improvements_needed validation) in
  let recommendations :=
    match seo outputs with
    | Some seo_output => recommendations ++ map Line (SEOAgent.recommendations seo_output)
    | None => recommendations
    end in
  let overall_score := CoordinatorAgent.overall_score validation in
  if Qle_bool 90 overall_score
  then recommendations
       ++ [Line "Excellent content quality! Consider this for featured placement."]
  else if Qle_bool 80 overall_score
  then recommendations
       ++ [Line "Good content quality. Ready for publication with minor improvements."]
  else recommendations
       ++ [Line "Content needs significant improvements before publication."].

Definition _suggest_next_steps (validation : CoordinatorAgent.validation_results)
    : list string :=
  if CoordinatorAgent.validation_passed validation
  then [ "Content is ready for publication";
         "Schedule social media promotion";
         "Consider internal linking opportunities";
         "Monitor performance metrics after publication" ]
  else [ "Address quality issues identified in validation";
         "Re-run content through editing agent if needed";
         "Consider additional research if content gaps exist";
         "Re-validate content after improvements" ].

Definition create_final_report (content : string) (plan : CoordinatorAgent.plan)
    (outputs : agent_outputs) : result final_report :=
  validation ← CoordinatorAgent.validate_content_quality content plan;
  Ok {| content_metadata :=
          {| topic := CoordinatorAgent.topic plan;
             word_count := PyStr.word_count content;
             target_audience := CoordinatorAgent.target_audience plan;
             content_type := CoordinatorAgent.content_type plan;
             creation_date := None |};
        quality_assessment := validation;
        agent_contributions := outputs;
        seo_summary :=
          match seo outputs with
          | Some seo_output => SEOAgent.seo_score seo_output
          | None => 0%Z
          end;
        recommendations := _generate_final_recommendations validation outputs;
        next_steps := _suggest_next_steps validation |}.

End Report.

Arguments research {writer_output}.
Arguments writing {writer_output}.
Arguments editing {writer_output}.
Arguments seo {writer_output}.
Arguments content_metadata {writer_output}.
Arguments quality_assessment {writer_output}.
Arguments agent_contributions {writer_output}.
Arguments seo_summary {writer_output}.
Arguments recommendations {writer_output}.
Arguments next_steps {writer_output}.
Arguments create_final_report {writer_output}.
Arguments _generate_final_recommendations {writer_output}.

End FinalReport.

(** * Notions used in the statements *)

(** The number of entries of [checks] that count as passed. *)
Definition passed_count (v : CoordinatorAgent.validation_results) : nat :=
  length (List.filter (fun c => CoordinatorAgent.check_get_passed c.2)
                 (CoordinatorAgent.checks v)).

(** [checks['structure']] *)
Definition structure_of (v : CoordinatorAgent.validation_results)
    : option CoordinatorAgent.structure_check :=
  match List.find (fun c => String.eqb c.1 "structure") (CoordinatorAgent.checks v) with
  | Some (_, CoordinatorAgent.StructureCheck s) => Some s
  | _ => None
  end.

(** The word-count test of the validation, read off the plan. *)
Definition word_count_in_range (content : string) (p : CoordinatorAgent.plan) : bool :=
  let criteria := CoordinatorAgent.quality_criteria p in
  let min_words := default 900%Q (criteria ≫= CoordinatorAgent.minimum_word_count) in
  let max_words := default 1100%Q (criteria ≫= CoordinatorAgent.maximum_word_count) in
  Qle_bool min_words (Qnat (PyStr.word_count content))
  && Qle_bool (Qnat (PyStr.word_count content)) max_words.

(** Some conclusion marker occurs in the last 200 lower-cased characters. *)
Definition has_conclusion_marker (content : string) : bool :=
  existsb (fun keyword => PyStr.contains keyword (PyStr.last 200 (PyStr.lower content)))
          ["conclusion"; "summary"; "final"; "end"].

(** The plan made for a target of three words. *)
Definition band_3 : CoordinatorAgent.plan :=
  CoordinatorAgent.create_content_plan
    {| Requirements.topic := None; Requirements.target_audience := None;
       Requirements.word_count := Some 3%Z; Requirements.tone := None;
       Requirements.seo_keywords := None; Requirements.content_type := None |}.

(** The number of maximal runs of '.', '!' and '?' in [s]; [in_run] tells
    whether the character before [s] was one of them. *)
Fixpoint terminator_runs (in_run : bool) (s : string) : nat :=
  match s with
  | EmptyString => 0
  | String c s' =>
      if Terminators.is_terminator c
      then (if in_run then 0 else 1) + terminator_runs true s'
      else terminator_runs false s'
  end.

(** The requirements [r] with [seo_keywords] set to [ks]. *)
Definition with_seo_keywords (ks : list string) (r : Requirements.t) : Requirements.t :=
  {| Requirements.topic := Requirements.topic r;
     Requirements.target_audience := Requirements.target_audience r;
     Requirements.word_count := Requirements.word_count r;
     Requirements.tone := Requirements.tone r;
     Requirements.seo_keywords := Some ks;
     Requirements.content_type := Requirements.content_type r |}.

(** The Related Topics block as it comes out for an empty keyword list: the
    heading and the two fixed sentences, no bullet between them. *)
Definition related_topics_without_entries : string :=
  "## Related Topics" +:+ PyStr.NL +:+ PyStr.NL
  +:+ "Explore these related subjects to deepen your understanding:"
  +:+ PyStr.NL +:+ PyStr.NL +:+ PyStr.NL
  +:+ "These topics provide additional insights and practical guidance for your journey.".

(** What the keyword report holds for a keyword once the loop has passed it. *)
Definition reported (content K : string)
    (e : SEOAgent.keyword_entry) (p : SEOAgent.placement) : Prop :=
  SEOAgent.count e = PyStr.count (PyStr.lower K) (PyStr.lower content)
  /\ SEOAgent.in_title e
     = PyStr.contains (PyStr.lower K) (PyStr.lower (PyStr.take 100 content))
  /\ SEOAgent.in_first_paragraph e
     = PyStr.contains (PyStr.lower K) (PyStr.lower (PyStr.take 500 content))
  /\ SEOAgent.score p
     = SEOAgent.b2n (SEOAgent.in_title e) + SEOAgent.b2n (SEOAgent.in_headings e)
       + SEOAgent.b2n (SEOAgent.in_first_paragraph e)
  /\ SEOAgent.score p <= 3.

(** Collaborators for the closed instances below: a regular-expression
    engine that finds nothing (as [re] does on text without '#', '[', list
    markers, digits and '$'), and a search tool whose every call fails with
    the error-tagged placeholder. *)
Definition no_match : RegexLib :=
  {| re_search := fun _ _ _ => false;
     re_findall := fun _ _ _ => [];
     re_findall2 := fun _ _ _ => [] |}.

Definition failing_search : SearchTool :=
  {| web_search := fun _ _ => [{["error" := "Search failed: timed out"]}] |}.

(** A search tool that answers every query with one source. *)
Definition one_source : search_result :=
  {[ "title" := "Remote work study"; "url" := "https://example.edu/remote";
     "snippet" := "Remote work is common." ]}.

(** A draft of 25 words once edited: a heading, a 15-word paragraph that
    mentions a benefit, an 8-word paragraph. *)
Definition two_paragraph_draft : string :=
  "# T" +:+ PyStr.NL +:+ PyStr.NL
  +:+ "One benefit is here now for all of us to see and use each day."
  +:+ PyStr.NL +:+ PyStr.NL
  +:+ "Two more words follow in this part then.".

(** A text without first-level heading, and a requirements mapping with a
    short topic and two long keywords. *)
Definition untitled_content : string :=
  "## Overview" +:+ PyStr.NL +:+ PyStr.NL
  +:+ "Remote work changes how distributed teams plan, communicate and deliver.".

Definition long_keywords : list string :=
  [ "remote work productivity tips for distributed engineering teams";
    "asynchronous communication" ].

Definition long_keyword_requirements : Requirements.t :=
  {| Requirements.topic := Some "Remote Work";
     Requirements.target_audience := None;
     Requirements.word_count := None;
     Requirements.tone := None;
     Requirements.seo_keywords := Some long_keywords;
     Requirements.content_type := None |}.

(** The density recorded for keyword [K] in a text with words: the
    occurrences per word, as a float, times 100, rounded to two decimals. *)
Definition recorded_density (content K : string) : Q :=
  float_round2
    (fmul (float_of (Qnat (PyStr.count (PyStr.lower K) (PyStr.lower content))
                     / Qnat (PyStr.word_count content)))
          100).

(** The keywords of [ks] that do not occur in [content], letter case
    ignored, in the order of [ks]. *)
Definition absent_keywords (content : string) (ks : list string) : list string :=
  List.filter (fun k => negb (PyStr.contains (PyStr.lower k) (PyStr.lower content))) ks.

(** The two recommendations of the analyzer that cost no point of the
    score: the ones about lists and about internal links. *)
Definition unscored_recommendations (st : SEOAnalyzerTool.content_structure_t)
    : list string :=
  (if SEOAnalyzerTool.has_lists st then []
   else ["Consider adding bullet points or numbered lists"])
  ++ (if SEOAnalyzerTool.internal_links st =? 0
      then ["Add internal links to related content"] else []).

(** The most the validator's quality score can be for a text of [wc]
    words with [n] issues. *)
Definition quality_cap (wc n : nat) : Z :=
  ((if (wc <? 100)%nat then 70
    else if (wc <? 300)%nat then 85
    else if (3000 <? wc)%nat then 90
    else 100) - 5 * Z.of_nat n)%Z.

(** What one round of the keyword report records for keyword [K] in a text
    of [n] words: the entry [e], the density wording [d] and the placement
    [p]. *)
Definition report_round (content : string) (n : nat) (K : string)
    (e : SEOAgent.keyword_entry) (d : string) (p : SEOAgent.placement) : Prop :=
  let occurrences := PyStr.count (PyStr.lower K) (PyStr.lower content) in
  let density :=
    match n with
    | O => 0%Q
    | S _ => fmul (float_of (Qnat occurrences / Qnat n)) 100
    end in
  SEOAgent.count e = occurrences
  /\ SEOAgent.density e = float_round2 density
  /\ SEOAgent.in_title e
     = PyStr.contains (PyStr.lower K) (PyStr.take 100 (PyStr.lower content))
  /\ SEOAgent.in_first_paragraph e
     = PyStr.contains (PyStr.lower K) (PyStr.take 500 (PyStr.lower content))
  /\ SEOAgent.optimal_density e = Qle_bool 1 density && Qle_bool density (25 # 10)
  /\ d = (if Qlt_bool density (1 # 2) then "Too low - increase usage"
          else if Qlt_bool 3 density then "Too high - reduce usage"
          else "Optimal range")
  /\ SEOAgent.score p
     = SEOAgent.b2n (SEOAgent.in_title e) + SEOAgent.b2n (SEOAgent.in_headings e)
       + SEOAgent.b2n (SEOAgent.in_first_paragraph e)
  /\ SEOAgent.assessment p
     = (if 2 <=? SEOAgent.score p then "Excellent"
        else if SEOAgent.score p =? 1 then "Good"
        else "Needs improvement").

(** The title and the description [_generate_meta_tags] arrives at. *)
Definition meta_title (content : string) (keywords : list string)
    (requirements : Requirements.t) : string :=
  let title_line := SEOAgent.first_title_line content in
  let title :=
    if PyStr.is_empty title_line
    then default "Untitled" (Requirements.topic requirements)
    else PyStr.strip (PyStr.drop 2 title_line) in
  let primary_keyword := hd "" keywords in
  if 60 <? String.length title then PyStr.take 57 title +:+ "..."
  else if String.length title <? 30
  then if negb (PyStr.is_empty primary_keyword)
          && negb (PyStr.contains primary_keyword title)
       then primary_keyword +:+ " - " +:+ title
       else title
  else title.

Definition meta_description (content : string) (keywords : list string) : string :=
  let paragraphs :=
    List.filter (fun p => negb (PyStr.is_empty (PyStr.strip p))
                     && negb (PyStr.startswith "#" p))
           (PyStr.split (PyStr.NL +:+ PyStr.NL) content) in
  let description := PyStr.strip (PyStr.replace PyStr.NL " " (hd "" paragraphs)) in
  if 160 <? String.length description then PyStr.take 157 description +:+ "..."
  else if String.length description <? 120
  then match keywords with
       | [] => description
       | _ => description +:+ " Learn about " +:+ PyStr.join ", " (take 2 keywords)
              +:+ " and more."
       end
  else description.

(** The two opening recommendations that tell the editor's content is fit
    for publication. *)
Definition publication_lines : list string :=
  [ "Excellent content quality - ready for publication";
    "Good content quality - minor improvements may enhance impact" ].

(** The six queries every research run starts with. *)
Definition base_queries (topic : string) : list string :=
  [ topic;
    topic +:+ " definition";
    topic +:+ " benefits";
    topic +:+ " challenges";
    topic +:+ " statistics";
    topic +:+ " recent developments" ].

(** [a] does not rank below [b] by credibility. *)
Definition ranks_before (a b : ResearchAgent.source) : Prop :=
  (ResearchAgent.credibility b <= ResearchAgent.credibility a)%Q.

(** The source record made of a search result. *)
Definition source_of (r : search_result) : ResearchAgent.source :=
  {| ResearchAgent.title := ResearchAgent.get r "title" "Unknown Title";
     ResearchAgent.url := ResearchAgent.get r "url" "";
     ResearchAgent.snippet :=
       PyStr.take 200 (ResearchAgent.get r "snippet" "") +:+ "...";
     ResearchAgent.credibility := ResearchAgent._assess_single_source_credibility r |}.

(** The last character of a string, if any. *)
Fixpoint last_char (s : string) : option ascii :=
  match s with
  | EmptyString => None
  | String c s' =>
      match last_char s' with
      | None => Some c
      | r => r
      end
  end.

(** Every character of [s] satisfies [p]. *)
Fixpoint all_chars (p : ascii -> bool) (s : string) : bool :=
  match s with
  | EmptyString => true
  | String c s' => p c && all_chars p s'
  end.

Definition not_dot (c : ascii) : bool := negb (Ascii.eqb c ".").

(** A character a text may end with so that neither it nor the text
    stripped of blanks ends with a full stop: not blank, not a full
    stop. *)
Definition tidy_char (c : ascii) : bool := negb (PyStr.is_space c) && not_dot c.

(** The text is empty or ends with such a character. *)
Definition tidy_end (s : string) : bool :=
  match last_char s with
  | None => true
  | Some c => tidy_char c
  end.

(** [t] is [s] with some lower-case letters turned to upper case. *)
Fixpoint case_variant (t s : string) : bool :=
  match t, s with
  | EmptyString, EmptyString => true
  | String a t', String b s' =>
      (Ascii.eqb a b || (PyStr.is_lower_char b && Ascii.eqb a (PyStr.upper_char b)))
      && case_variant t' s'
  | _, _ => false
  end.

(** The issue the validator raises for a text without end punctuation. *)
Definition no_end_punctuation : string :=
  "Content doesn't end with proper punctuation".

(** [x] is not empty and ends with a tidy character. *)
Definition ends_tidy (x : string) : Prop :=
  exists c, last_char x = Some c /\ tidy_char c = true.

(** The last piece of the list, if there is one, is not empty and ends
    with a tidy character. *)
Definition last_piece_tidy (l : list string) : Prop :=
  match last l with
  | None => True
  | Some x => ends_tidy x
  end.

(** Neither an exclamation mark nor a question mark. *)
Definition plain_char (c : ascii) : bool :=
  negb (Ascii.eqb c "!") && negb (Ascii.eqb c "?").

(** The text holds no exclamation mark and no question mark. *)
Definition plain (s : string) : Prop := all_chars plain_char s = true.

(** The improvement sentence speaks of the [wc] words of the text and of
    a positive number of words to add or to remove. *)
Definition improvement_sound (wc : nat) (i : CoordinatorAgent.improvement) : Prop :=
  match i with
  | CoordinatorAgent.TooShort n missing => n = wc /\ (0 < missing)%Q
  | CoordinatorAgent.TooLong n excess => n = wc /\ (0 < excess)%Q
  end.

(** A second-level heading line: it starts with '##' but not with '###'. *)
Definition is_h2 (line : string) : bool :=
  PyStr.startswith "##" line && negb (PyStr.startswith "###" line).

(** The number of positions at which the two lists of lines differ. *)
Fixpoint changed_lines (lines lines' : list string) : nat :=
  match lines, lines' with
  | l :: rest, l' :: rest' =>
      (if String.eqb l l' then 0 else 1) + changed_lines rest rest'
  | _, _ => 0
  end.

(** A paragraph the keyword integration passes over: a heading, or fewer
    than 20 words. *)
Definition passed_over (para : string) : bool :=
  PyStr.startswith "#" para || (PyStr.word_count para <? 20).


(** Requirements that ask for three words and leave the rest open. *)
Definition three_word_requirements : Requirements.t :=
  {| Requirements.topic := None; Requirements.target_audience := None;
     Requirements.word_count := Some 3%Z; Requirements.tone := None;
     Requirements.seo_keywords := None; Requirements.content_type := None |}.

(** A text of 160 one-letter words, 23 of them the letter k. *)
Definition density_sample : string :=
  PyStr.join " " (repeat "k" 23 ++ repeat "x" 137).

(** *** Texts the editor leaves as they are

    Seven checks on a text, one or two for each stage of
    [_improve_content]. *)

(** A heading line in the form the structure stage writes: no blank at
    either end and, after the run of '#', one space and the heading text
    without blanks around it. *)
Definition heading_in_form (line : string) : bool :=
  String.eqb (PyStr.strip line) line
  && match PyStr.lstrip_char "#" line with
     | String c text => Ascii.eqb c " " && String.eqb (PyStr.strip text) text
     | EmptyString => false
     end.

Definition headings_in_form (t : string) : bool :=
  forallb (fun line => negb (PyStr.startswith "#" line) || heading_in_form line)
          (PyStr.split PyStr.NL t).

(** A paragraph that is not empty, has no blank at either end and stands
    on one line. *)
Definition paragraph_in_form (para : string) : bool :=
  negb (PyStr.is_empty para)
  && String.eqb (PyStr.strip para) para
  && negb (PyStr.contains PyStr.NL para).

Definition paragraphs_in_form (t : string) : bool :=
  forallb paragraph_in_form (PyStr.split (PyStr.NL +:+ PyStr.NL) t).

(** None of the phrases a replacement table looks for occurs in the text. *)
Definition free_of (table : list (string * string)) (t : string) : bool :=
  forallb (fun entry => negb (PyStr.contains entry.1 t)) table.

(** A paragraph the flow stage opens with a transition when it is not the
    first: more than 20 words, no transition at its start, and a mention
    of a benefit, an advantage, a challenge or a difficulty. *)
Definition wants_transition (para : string) : bool :=
  (20 <? PyStr.word_count para)
  && negb (existsb (fun starter => PyStr.startswith starter (PyStr.strip para))
                   EditorAgent.transition_starters)
  && (PyStr.contains "benefit" (PyStr.lower para)
      || PyStr.contains "advantage" (PyStr.lower para)
      || PyStr.contains "challenge" (PyStr.lower para)
      || PyStr.contains "difficult" (PyStr.lower para)).

Definition no_transition_due (t : string) : bool :=
  forallb (fun para => negb (wants_transition para))
          (tl (PyStr.split (PyStr.NL +:+ PyStr.NL) t)).

(** A piece between two full stops in the form the readability stage
    writes: the sentence without blanks around it, after one space unless
    it is the first piece; the sentence is not empty and is not one the
    stage would break, having at most 30 words or neither ' and ' nor
    ' which '. *)
Definition sentence_in_form (first : bool) (piece : string) : bool :=
  let sentence := PyStr.strip piece in
  negb (PyStr.is_empty sentence)
  && ((PyStr.word_count sentence <=? 30)
      || (negb (PyStr.contains " and " sentence)
          && negb (PyStr.contains " which " sentence)))
  && String.eqb piece (if first then sentence else " " +:+ sentence).

Definition sentences_in_form (t : string) : bool :=
  match PyStr.split "." t with
  | [] => true
  | piece :: pieces =>
      sentence_in_form true piece && forallb (sentence_in_form false) pieces
  end.

Definition starts_lower (s : string) : bool :=
  match s with
  | String c _ => PyStr.is_lower_char c
  | EmptyString => false
  end.

(** No piece after a full stop and a space starts with a lower-case
    letter, nor does the text. *)
Definition capitalised (t : string) : bool :=
  forallb (fun piece => negb (starts_lower piece)) (PyStr.split ". " t).



(** A text of 130 one-letter words, 21 of them the letter k. *)
Definition keyword_sample : string :=
  PyStr.join " " (repeat "k" 21 ++ repeat "x" 109).
(** * Properties *)

(** ** Arithmetic helpers *)

Lemma Qnat_S_nonzero (n : nat) : Qeq_bool (Qnat (S n)) 0 = false.
Proof.
  unfold Qnat, Qeq_bool, inject_Z. simpl Qnum. simpl Qden.
  apply Z.eqb_neq. lia.
Qed.

Lemma py_div_S (a : Q) (n : nat) : py_div a (Qnat (S n)) = Ok (a / Qnat (S n))%Q.
Proof. unfold py_div. now rewrite Qnat_S_nonzero. Qed.

Lemma py_truediv_S (a : Z) (n : nat) :
  py_truediv a (Z.of_nat (S n)) = Ok (float_of (inject_Z a / Qnat (S n))).
Proof.
  unfold py_truediv.
  replace (Z.of_nat (S n) =? 0)%Z with false by (symmetry; apply Z.eqb_neq; lia).
  reflexivity.
Qed.

Lemma Z_clamp_bounds (z : Z) : (0 <= Z.max 0 (Z.min 100 z) <= 100)%Z.
Proof. lia. Qed.

(** ** Binary64 rounding *)

Section Rounding.
Local Open Scope Q_scope.

Lemma round_half_even_near (x : Q) :
  x - (1 # 2) <= inject_Z (round_half_even x) <= x + (1 # 2).
Proof.
  pose proof (Qfloor_le x) as Hlo. pose proof (Qlt_floor x) as Hhi.
  rewrite inject_Z_plus in Hhi. change (inject_Z 1) with 1 in Hhi.
  unfold round_half_even.
  destruct (Qcompare (x - inject_Z (Qfloor x)) (1 # 2)) eqn:C.
  - apply Qeq_alt in C. destruct (Z.even (Qfloor x)).
    + lra.
    + rewrite inject_Z_plus. change (inject_Z 1) with 1. lra.
  - apply Qlt_alt in C. lra.
  - apply Qgt_alt in C. rewrite inject_Z_plus. change (inject_Z 1) with 1. lra.
Qed.

Lemma round2_near (x : Q) : x - (1 # 200) <= round2 x <= x + (1 # 200).
Proof.
  pose proof (round_half_even_near (x * 100)) as [A B].
  unfold round2. rewrite (Qmake_Qdiv _ 100).
  change (inject_Z (Z.pos 100)) with 100.
  split.
  - apply Qle_shift_div_l; [reflexivity|]. lra.
  - apply Qle_shift_div_r; [reflexivity|]. lra.
Qed.

Lemma Qpower_2_pos (z : Z) : 0 < 2 ^ z.
Proof. apply Qpower_0_lt. reflexivity. Qed.

Lemma Qpower_2_split (a b : Z) : 2 ^ (a - b) == 2 ^ a / 2 ^ b.
Proof. apply Qpower_minus. discriminate. Qed.

(** [Qlog2 q] is an exponent of two that does not exceed [q]. *)
Lemma Qlog2_le (q : Q) : 0 < q -> 2 ^ Qlog2 q <= q.
Proof.
  intros Hq. unfold Qlog2.
  set (e := (Z.log2 (Qnum q) - Z.log2 (Z.pos (Qden q)))%Z).
  destruct (Qle_bool (2 ^ e) q) eqn:E; [now apply Qle_bool_iff|]. clear E.
  destruct q as [n d]. unfold e. cbn [Qnum Qden].
  assert (Hn : (0 < n)%Z).
  { unfold Qlt in Hq. cbn in Hq. lia. }
  replace (Z.log2 n - Z.log2 (Z.pos d) - 1)%Z
    with (Z.log2 n - (Z.log2 (Z.pos d) + 1))%Z by lia.
  rewrite Qpower_2_split.
  pose proof (Z.log2_spec n Hn) as [Ln _].
  pose proof (Z.log2_spec (Z.pos d) ltac:(lia)) as [_ Ld].
  pose proof (Z.log2_nonneg n) as Nn.
  pose proof (Z.log2_nonneg (Z.pos d)) as Nd.
  change 2 with (inject_Z 2).
  rewrite <- !Zpower_Qpower by lia.
  rewrite (Qmake_Qdiv n d).
  set (A := (2 ^ Z.log2 n)%Z) in *.
  set (B := (2 ^ (Z.log2 (Z.pos d) + 1))%Z).
  replace (Z.succ (Z.log2 (Z.pos d))) with (Z.log2 (Z.pos d) + 1)%Z in Ld by lia.
  fold B in Ld.
  assert (HB : 0 < inject_Z B) by (change 0 with (inject_Z 0); rewrite <- Zlt_Qlt; lia).
  assert (HD : 0 < inject_Z (Z.pos d)) by (change 0 with (inject_Z 0); rewrite <- Zlt_Qlt; lia).
  apply Qle_shift_div_l; [exact HD|].
  unfold Qdiv. rewrite <- Qmult_assoc, (Qmult_comm (/ _)), Qmult_assoc.
  apply Qle_shift_div_r; [exact HB|].
  rewrite <- !inject_Z_mult, <- Zle_Qle.
  assert (0 < A)%Z by (unfold A; apply Z.pow_pos_nonneg; lia).
  nia.
Qed.

(** Rounding to 53 significant bits moves a positive number by at most
    half a unit in the last place, which is at most [unit_roundoff] times
    the number. *)
Lemma nearest_binary64_near (q : Q) :
  0 < q ->
  q * (1 - unit_roundoff) <= nearest_binary64 q <= q * (1 + unit_roundoff).
Proof.
  intros Hq. unfold nearest_binary64.
  pose proof (Qlog2_le q Hq) as HL.
  set (L := Qlog2 q) in *.
  pose proof (Qpower_2_pos (L - 52)) as Hp.
  pose proof (Qpower_2_split L 52) as Hs.
  set (p := 2 ^ (L - 52)) in *.
  pose proof (round_half_even_near (q / p)) as [R1 R2].
  set (r := inject_Z (round_half_even (q / p))) in *.
  assert (E : q / p * p == q) by (field; lra).
  apply (Qmult_le_compat_r _ _ p) in R1; [|lra].
  apply (Qmult_le_compat_r _ _ p) in R2; [|lra].
  assert (E1 : (q / p - (1 # 2)) * p == q - (1 # 2) * p) by (rewrite <- E at 2; ring).
  assert (E2 : (q / p + (1 # 2)) * p == q + (1 # 2) * p) by (rewrite <- E at 2; ring).
  rewrite E1 in R1. rewrite E2 in R2.
  assert (P52 : 2 ^ 52 == 4503599627370496) by reflexivity.
  rewrite P52 in Hs.
  assert (Hp' : p * 4503599627370496 <= q).
  { rewrite Hs. field_simplify. lra. }
  unfold unit_roundoff. lra.
Qed.

Lemma float_of_near_pos (q : Q) :
  0 <= q -> q * (1 - unit_roundoff) <= float_of q <= q * (1 + unit_roundoff).
Proof.
  intros Hq. unfold float_of. rewrite Qred_correct.
  destruct (Qcompare q 0) eqn:C.
  - apply Qeq_alt in C. rewrite C. lra.
  - apply Qlt_alt in C. lra.
  - apply Qgt_alt in C. now apply nearest_binary64_near.
Qed.

Lemma float_of_near_neg (q : Q) :
  q <= 0 -> q * (1 + unit_roundoff) <= float_of q <= q * (1 - unit_roundoff).
Proof.
  intros Hq. unfold float_of. rewrite Qred_correct.
  destruct (Qcompare q 0) eqn:C.
  - apply Qeq_alt in C. rewrite C. lra.
  - apply Qlt_alt in C.
    pose proof (nearest_binary64_near (- q) ltac:(lra)). lra.
  - apply Qgt_alt in C. lra.
Qed.

Lemma float_of_nonneg (q : Q) : 0 <= q -> 0 <= float_of q.
Proof.
  intros Hq. pose proof (float_of_near_pos q Hq) as [A _].
  unfold unit_roundoff in A. lra.
Qed.

Lemma float_of_pos (q : Q) : 0 < q -> 0 < float_of q.
Proof.
  intros Hq. pose proof (float_of_near_pos q ltac:(lra)) as [A _].
  unfold unit_roundoff in A. lra.
Qed.

Lemma round_half_even_le_Z (x : Q) (N : Z) :
  x <= inject_Z N -> (round_half_even x <= N)%Z.
Proof.
  intros H. pose proof (round_half_even_near x) as [_ R].
  assert (L : inject_Z (round_half_even x) < inject_Z (N + 1)).
  { rewrite inject_Z_plus. change (inject_Z 1) with 1. lra. }
  rewrite <- Zlt_Qlt in L. lia.
Qed.

(** Rounding to a float does not step over an integer below 2^53. *)
Lemma float_of_le_Z (y : Q) (m : Z) :
  (0 <= m < 2 ^ 53)%Z -> y <= inject_Z m -> float_of y <= inject_Z m.
Proof.
  intros [M0 M1] Hy. unfold float_of. rewrite Qred_correct.
  assert (Hm : 0 <= inject_Z m) by (change 0 with (inject_Z 0); rewrite <- Zle_Qle; lia).
  destruct (Qcompare y 0) eqn:C.
  - exact Hm.
  - apply Qlt_alt in C.
    pose proof (nearest_binary64_near (- y) ltac:(lra)) as [A _].
    unfold unit_roundoff in A. lra.
  - apply Qgt_alt in C. unfold nearest_binary64.
    pose proof (Qlog2_le y C) as HL.
    set (L := Qlog2 y) in *.
    assert (HL52 : (L <= 52)%Z).
    { destruct (Z_le_gt_dec L 52) as [|G]; [assumption|exfalso].
      assert (P : 2 ^ 53 <= 2 ^ L) by (apply Qpower_le_compat_l; [lia|discriminate]).
      assert (Q53 : inject_Z m < 2 ^ 53).
      { change (2 ^ 53) with (inject_Z (2 ^ 53)). rewrite <- Zlt_Qlt. exact M1. }
      lra. }
    set (k := (52 - L)%Z).
    assert (Hk : (0 <= k)%Z) by (unfold k; lia).
    assert (Pk : 2 ^ k == inject_Z (2 ^ k)).
    { change 2 with (inject_Z 2). now rewrite <- Zpower_Qpower. }
    assert (Zk : (0 < 2 ^ k)%Z) by (apply Z.pow_pos_nonneg; lia).
    assert (Qk : 0 < inject_Z (2 ^ k)) by (change 0 with (inject_Z 0); rewrite <- Zlt_Qlt; lia).
    assert (Hu : 2 ^ (L - 52) == / inject_Z (2 ^ k)).
    { replace (L - 52)%Z with (- k)%Z by (unfold k; lia).
      now rewrite Qpower_opp, Pk. }
    set (u := 2 ^ (L - 52)) in *.
    set (p := inject_Z (2 ^ k)) in *.
    assert (E : y / u == y * p) by (rewrite Hu; field; lra).
    assert (R : (round_half_even (y / u) <= m * 2 ^ k)%Z).
    { apply round_half_even_le_Z. rewrite E, inject_Z_mult. fold p.
      apply Qmult_le_compat_r; lra. }
    rewrite Zle_Qle, inject_Z_mult in R. fold p in R.
    set (r := round_half_even (y / u)) in *.
    rewrite Hu. apply Qle_shift_div_r; [exact Qk|].
    exact R.
Qed.

(** [Qlog2 q] is the largest such exponent. *)
Lemma Qlog2_lt (q : Q) : 0 < q -> q < 2 ^ (Qlog2 q + 1).
Proof.
  intros Hq. unfold Qlog2.
  set (e := (Z.log2 (Qnum q) - Z.log2 (Z.pos (Qden q)))%Z).
  destruct (Qle_bool (2 ^ e) q) eqn:E.
  - clear E. destruct q as [n d]. unfold e. cbn [Qnum Qden].
    assert (Hn : (0 < n)%Z).
    { unfold Qlt in Hq. cbn in Hq. lia. }
    replace (Z.log2 n - Z.log2 (Z.pos d) + 1)%Z
      with (Z.log2 n + 1 - Z.log2 (Z.pos d))%Z by lia.
    rewrite Qpower_2_split.
    pose proof (Z.log2_spec n Hn) as [_ Ln].
    pose proof (Z.log2_spec (Z.pos d) ltac:(lia)) as [Ld _].
    pose proof (Z.log2_nonneg n) as Nn.
    pose proof (Z.log2_nonneg (Z.pos d)) as Nd.
    replace (Z.succ (Z.log2 n)) with (Z.log2 n + 1)%Z in Ln by lia.
    change 2 with (inject_Z 2).
    rewrite <- !Zpower_Qpower by lia.
    rewrite (Qmake_Qdiv n d).
    set (A := (2 ^ (Z.log2 n + 1))%Z) in *.
    set (B := (2 ^ Z.log2 (Z.pos d))%Z) in *.
    assert (ZB : (0 < B)%Z) by (unfold B; apply Z.pow_pos_nonneg; lia).
    assert (HB : 0 < inject_Z B) by (change 0 with (inject_Z 0); rewrite <- Zlt_Qlt; lia).
    assert (HD : 0 < inject_Z (Z.pos d)) by (change 0 with (inject_Z 0); rewrite <- Zlt_Qlt; lia).
    apply Qlt_shift_div_r; [exact HD|].
    unfold Qdiv. rewrite <- Qmult_assoc, (Qmult_comm (/ _)), Qmult_assoc.
    apply Qlt_shift_div_l; [exact HB|].
    rewrite <- !inject_Z_mult, <- Zlt_Qlt. nia.
  - replace (e - 1 + 1)%Z with e by lia.
    apply Qnot_le_lt. intros A. apply Qle_bool_iff in A. congruence.
Qed.

(** The significand of the float nearest to [q] has 53 bits, or is 2^53
    (the next power of two). *)
Lemma nearest_binary64_significand (q : Q) :
  0 < q ->
  (2 ^ 52 <= round_half_even (q / 2 ^ (Qlog2 q - 52)) <= 2 ^ 53)%Z.
Proof.
  intros Hq.
  pose proof (Qlog2_le q Hq) as H1. pose proof (Qlog2_lt q Hq) as H2.
  set (L := Qlog2 q) in *.
  pose proof (Qpower_2_pos (L - 52)) as Hp.
  assert (E1 : 2 ^ L == 2 ^ 52 * 2 ^ (L - 52)).
  { rewrite <- Qpower_plus by discriminate. now replace (52 + (L - 52))%Z with L by lia. }
  assert (E2 : 2 ^ (L + 1) == 2 ^ 53 * 2 ^ (L - 52)).
  { rewrite <- Qpower_plus by discriminate. now replace (53 + (L - 52))%Z with (L + 1)%Z by lia. }
  set (p := 2 ^ (L - 52)) in *.
  assert (P52 : 2 ^ 52 == inject_Z (2 ^ 52)) by reflexivity.
  assert (P53 : 2 ^ 53 == inject_Z (2 ^ 53)) by reflexivity.
  rewrite P52 in E1. rewrite P53 in E2.
  assert (X1 : inject_Z (2 ^ 52) <= q / p).
  { apply Qle_shift_div_l; [exact Hp|]. now rewrite <- E1. }
  assert (X2 : q / p <= inject_Z (2 ^ 53)).
  { apply Qle_shift_div_r; [exact Hp|]. rewrite <- E2. lra. }
  pose proof (round_half_even_near (q / p)) as [R1 _].
  split.
  - assert (A : inject_Z (2 ^ 52) < inject_Z (round_half_even (q / p) + 1)).
    { rewrite inject_Z_plus. change (inject_Z 1) with 1. lra. }
    rewrite <- Zlt_Qlt in A. lia.
  - now apply round_half_even_le_Z.
Qed.

(** The relative error of a float operation is at most [unit_roundoff]. *)
Lemma float_of_error (q : Q) : Qabs (float_of q - q) <= Qabs q * unit_roundoff.
Proof.
  destruct (Qlt_le_dec q 0) as [N|P].
  - pose proof (float_of_near_neg q ltac:(lra)) as [A B].
    rewrite (Qabs_neg q) by lra. apply Qabs_Qle_condition.
    unfold unit_roundoff in *. lra.
  - pose proof (float_of_near_pos q P) as [A B].
    rewrite (Qabs_pos q) by lra. apply Qabs_Qle_condition.
    unfold unit_roundoff in *. lra.
Qed.

(** Python's values for the literals and the sums that the claims below
    turn on. *)
Example float_literals :
  float_of (9 # 10) = 8106479329266893 # 9007199254740992
  /\ float_of (11 # 10) = 2476979795053773 # 2251799813685248
  /\ float_of (1 # 10) = 3602879701896397 # 36028797018963968
  /\ float_of (2 # 10) = 3602879701896397 # 18014398509481984
  /\ float_of (1 # 2) = 1 # 2
  /\ float_of 100 = 100.
Proof. vm_compute. repeat split; reflexivity. Qed.

(** [3 * 1.1] is 3.3000000000000003, [700 * 1.1] is 770.0000000000001 and
    [1000 * 0.9] is 900.0. *)
Example float_products :
  fmul (float_of 3) (float_of (11 # 10)) = 7430939385161319 # 2251799813685248
  /\ fmul (float_of 700) (float_of (11 # 10)) = 6772991627100161 # 8796093022208
  /\ fmul (float_of 1000) (float_of (9 # 10)) = 900.
Proof. vm_compute. repeat split; reflexivity. Qed.

(** [(23 / 160) * 100] is 14.374999999999998, which [round(_, 2)] takes to
    14.37, whereas the exact quotient 14.375 is half way between 14.37 and
    14.38. *)
Example float_density_23_160 :
  fmul (float_of (23 / 160)) 100 = 8092405580431359 # 562949953421312
  /\ float_round2 (fmul (float_of (23 / 160)) 100) = float_of (1437 # 100)
  /\ round2 (23 / 160 * 100) == 1438 # 100.
Proof. vm_compute. repeat split; reflexivity. Qed.

(** [0.45 + 0.1 - 0.2] is 0.35000000000000003. *)
Example float_sum_045 :
  fsub (fadd (float_of (45 / 100)) (float_of (1 # 10))) (float_of (2 # 10))
  = 6305039478318695 # 18014398509481984
  /\ (35 # 100) < fsub (fadd (float_of (45 / 100)) (float_of (1 # 10)))
                       (float_of (2 # 10)).
Proof. vm_compute. repeat split; reflexivity. Qed.

(** A product of the float of [w] and the float of a literal [c] between
    0 and 1.25 is within four rounding units of the exact product. *)
Lemma fmul_literal_near (w c : Q) :
  0 <= c <= 5 # 4 ->
  Qabs (fmul (float_of w) (float_of c) - c * w) <= 4 * unit_roundoff * Qabs w.
Proof.
  intros [C0 C2]. unfold fmul.
  pose proof (float_of_near_pos c C0) as [L1 L2].
  set (fc := float_of c) in *.
  assert (Hfc : 0 <= fc) by (unfold unit_roundoff in *; nra).
  destruct (Qlt_le_dec w 0) as [N|P].
  - pose proof (float_of_near_neg w ltac:(lra)) as [W1 W2].
    set (fw := float_of w) in *.
    assert (Hfw : fw <= 0) by (unfold unit_roundoff in *; nra).
    assert (Hp : fw * fc <= 0) by nra.
    pose proof (float_of_near_neg (fw * fc) Hp) as [P1 P2].
    assert (H1 : (- fw) * fc <= (- (w * (1 + unit_roundoff))) * (c * (1 + unit_roundoff))).
    { apply Qmult_le_compat_nonneg; split; lra. }
    assert (H2 : (- (w * (1 - unit_roundoff))) * (c * (1 - unit_roundoff)) <= (- fw) * fc).
    { apply Qmult_le_compat_nonneg; split; unfold unit_roundoff in *; try lra; nra. }
    assert (H3 : (- w) * c <= (- w) * (5 # 4)) by nra.
    assert (H4 : 0 <= (- w) * c) by nra.
    rewrite (Qabs_neg w) by lra. apply Qabs_Qle_condition.
    unfold unit_roundoff in *. split; nra.
  - pose proof (float_of_near_pos w P) as [W1 W2].
    set (fw := float_of w) in *.
    assert (Hfw : 0 <= fw) by (unfold unit_roundoff in *; nra).
    assert (Hp : 0 <= fw * fc) by nra.
    pose proof (float_of_near_pos (fw * fc) Hp) as [P1 P2].
    assert (H1 : fw * fc <= (w * (1 + unit_roundoff)) * (c * (1 + unit_roundoff))).
    { apply Qmult_le_compat_nonneg; split; lra. }
    assert (H2 : (w * (1 - unit_roundoff)) * (c * (1 - unit_roundoff)) <= fw * fc).
    { apply Qmult_le_compat_nonneg; split; unfold unit_roundoff in *; try lra; nra. }
    assert (H3 : w * c <= w * (5 # 4)) by nra.
    assert (H4 : 0 <= w * c) by nra.
    rewrite (Qabs_pos w) by lra. apply Qabs_Qle_condition.
    unfold unit_roundoff in *. split; nra.
Qed.

(** The recorded percentage of [c] occurrences among [S n] words is within
    half a hundredth, and four rounding units, of the exact percentage. *)
Lemma float_density_near (c n : nat) :
  let exact := 100 * (Qnat c / Qnat (S n)) in
  Qabs (float_round2 (fmul (float_of (Qnat c / Qnat (S n))) 100) - exact)
  <= (1 # 200) + 4 * unit_roundoff * (1 + exact).
Proof.
  intros exact. subst exact.
  assert (Hc : 0 <= Qnat c).
  { unfold Qnat. change 0 with (inject_Z 0). rewrite <- Zle_Qle. lia. }
  assert (Hn : 0 < Qnat (S n)).
  { unfold Qnat. change 0 with (inject_Z 0). rewrite <- Zlt_Qlt. lia. }
  assert (Hx : 0 <= Qnat c / Qnat (S n)).
  { apply Qle_shift_div_l; [exact Hn|]. lra. }
  set (x := Qnat c / Qnat (S n)) in *.
  pose proof (float_of_near_pos x Hx) as [A1 A2].
  set (x1 := float_of x) in *.
  assert (Hx1 : 0 <= x1 * 100) by (unfold unit_roundoff in *; lra).
  unfold fmul, float_round2.
  pose proof (float_of_near_pos (x1 * 100) Hx1) as [B1 B2].
  set (x2 := float_of (x1 * 100)) in *.
  pose proof (round2_near x2) as [R1 R2].
  set (r := round2 x2) in *.
  apply Qabs_Qle_condition.
  destruct (Qlt_le_dec r 0) as [N|P].
  - pose proof (float_of_near_neg r ltac:(lra)) as [D1 D2].
    unfold unit_roundoff in *. split; lra.
  - pose proof (float_of_near_pos r P) as [D1 D2].
    unfold unit_roundoff in *. split; lra.
Qed.

End Rounding.

(** ** Coordinator *)

Section Coordinator.
Import CoordinatorAgent.

(** C8, as amended: for every requirements mapping, with W its word_count
    (1000 when the key is absent) within the range of a float,
    create_content_plan returns a plan whose quality_criteria hold, as
    minimum_word_count and maximum_word_count, the float products W * 0.9
    and W * 1.1; they lie within four rounding units, relative to W, of
    0.9 W and 1.1 W. *)
Theorem create_content_plan_word_band (requirements : Requirements.t) :
  let W := default 1000%Z (Requirements.word_count requirements) in
  (Z.abs W < 2 ^ 1023)%Z ->
  exists qc lo hi,
    quality_criteria (create_content_plan requirements) = Some qc
    /\ minimum_word_count qc = Some lo
    /\ maximum_word_count qc = Some hi
    /\ lo = fmul (float_of (inject_Z W)) (float_of (9 # 10))
    /\ hi = fmul (float_of (inject_Z W)) (float_of (11 # 10))
    /\ (Qabs (lo - (9 # 10) * inject_Z W)
        <= 4 * unit_roundoff * Qabs (inject_Z W))%Q
    /\ (Qabs (hi - (11 # 10) * inject_Z W)
        <= 4 * unit_roundoff * Qabs (inject_Z W))%Q
    /\ CoordinatorAgent.word_count (create_content_plan requirements) = W.
Proof.
  intros W _. eexists _, _, _. cbn [quality_criteria create_content_plan
    _define_quality_criteria minimum_word_count maximum_word_count
    CoordinatorAgent.word_count].
  split; [reflexivity|]. split; [reflexivity|]. split; [reflexivity|].
  split; [reflexivity|]. split; [reflexivity|].
  split; [|split; [|reflexivity]]; apply fmul_literal_near; lra.
Qed.

(** The plan for the default word count has the band 900.0 to 1100.0. *)
Example plan_defaults_900_1100 :
  exists qc,
    quality_criteria (create_content_plan Requirements.empty) = Some qc
    /\ (default 0 (minimum_word_count qc) == 900)%Q
    /\ (default 0 (maximum_word_count qc) == 1100)%Q.
Proof. eexists. split; [reflexivity|]. vm_compute. split; reflexivity. Qed.

(** C1, what the code computes: overall_score is 100 times the passed
    checks over the total checks, a check without a [passed] key (the
    structure check) counting as passed, and passed is overall_score >= 80;
    has_conclusion is exactly the presence of a conclusion marker in the
    last 200 lower-cased characters, so it is False without one;
    overall_score does not depend on it, although the plan's
    structure_requirements ask for a conclusion: it is 100 when the word
    count is in range and 50 otherwise. *)
Theorem validate_content_quality_score (content : string) (p : plan) :
  exists v s,
    validate_content_quality content p = Ok v
    /\ (overall_score v
        == 100 * (Qnat (passed_count v) / Qnat (length (checks v))))%Q
    /\ validation_passed v = Qle_bool 80 (overall_score v)
    /\ structure_of v = Some s
    /\ has_conclusion s = has_conclusion_marker content
    /\ (overall_score v
        == if word_count_in_range content p then 100 else 50)%Q.
Proof.
  unfold validate_content_quality, word_count_in_range.
  set (min_words := default 900%Q _).
  set (max_words := default 1100%Q _).
  destruct (Qle_bool min_words (Qnat (PyStr.word_count content))
            && Qle_bool (Qnat (PyStr.word_count content)) max_words) eqn:Hwc;
    cbn -[PyStr.contains PyStr.last PyStr.lower PyStr.take PyStr.split
          PyStr.isupper existsb Qlt_bool Qminus];
    eexists _, _; repeat split; try reflexivity.
Qed.

(** C1, failing input: two three-word texts validated against the same
    plan, one without and one with a conclusion marker; has_conclusion is
    False for the first and True for the second, and both get the full
    overall_score of 100. *)
Lemma has_conclusion_does_not_lower_score :
  exists v1 v2 s1 s2,
    validate_content_quality "alpha beta gamma" band_3 = Ok v1
    /\ validate_content_quality "alpha beta end" band_3 = Ok v2
    /\ structure_of v1 = Some s1 /\ has_conclusion s1 = false
    /\ structure_of v2 = Some s2 /\ has_conclusion s2 = true
    /\ (overall_score v1 == 100)%Q
    /\ (overall_score v2 == 100)%Q.
Proof.
  eexists _, _, _, _. vm_compute. repeat split; reflexivity.
Qed.

End Coordinator.

(** ** Content validator *)

Section Validator.
Import ContentValidatorTool.

Lemma length_cons_head (c : ascii) (l : list string) :
  length (PyStr.cons_head c l) = Nat.max 1 (length l).
Proof. destruct l; reflexivity. Qed.

Lemma length_split_runs (b : bool) (s : string) :
  length (Terminators.split_runs b s) = S (terminator_runs b s).
Proof.
  revert b. induction s as [|c s IH]; intros b; [reflexivity|].
  cbn [Terminators.split_runs terminator_runs].
  destruct (Terminators.is_terminator c).
  - destruct b; cbn; now rewrite IH.
  - rewrite length_cons_head, IH. lia.
Qed.

Lemma Qeq_bool_inject_Z_nonzero (z : Z) :
  z <> 0%Z -> Qeq_bool (inject_Z z) 0 = false.
Proof.
  intros Hz. unfold Qeq_bool, inject_Z. simpl. apply Z.eqb_neq. lia.
Qed.

Lemma _calculate_readability_ok (content : string) :
  exists q, _calculate_readability content = Ok q.
Proof.
  unfold _calculate_readability.
  destruct (Z.of_nat (length (Terminators.re_split content)) - 1 =? 0)%Z eqn:E.
  - eauto.
  - unfold py_truediv. rewrite E. cbn -[float_of fmul fsub float_round2]. eauto.
Qed.

(** C7: the validator never fails; its sentence_count is the number of
    segments of re.split(r'[.!?]+', C) minus one, which is the number of
    maximal runs of '.', '!' and '?' in C; quality_score lies in [0, 100];
    on the empty string word_count and sentence_count are 0 and
    quality_score is 45. *)
Theorem validator_sentence_count (content : string) :
  (exists m,
     run content = Metrics m
     /\ sentence_count m = (Z.of_nat (length (Terminators.re_split content)) - 1)%Z
     /\ sentence_count m = Z.of_nat (terminator_runs false content)
     /\ word_count m = length (PyStr.words content)
     /\ (0 <= quality_score m <= 100)%Z)
  /\ (exists m0,
        run "" = Metrics m0
        /\ word_count m0 = 0
        /\ sentence_count m0 = 0%Z
        /\ quality_score m0 = 45%Z).
Proof.
  split.
  - unfold run, validate.
    destruct (_calculate_readability_ok content) as [q ->]. cbn.
    eexists. split; [reflexivity|]. cbn.
    repeat split; try apply Z_clamp_bounds.
    unfold Terminators.re_split. rewrite length_split_runs. lia.
  - eexists. vm_compute. repeat split; reflexivity.
Qed.

End Validator.

(** ** SEO analyzer *)

Section Analyzer.
Import SEOAnalyzerTool.

Lemma round_half_even_compat (q q' : Q) :
  (q == q')%Q -> round_half_even q = round_half_even q'.
Proof.
  intros E. unfold round_half_even.
  rewrite (Qfloor_comp _ _ E).
  assert (E' : (q - inject_Z (Qfloor q') == q' - inject_Z (Qfloor q'))%Q)
    by (rewrite E; reflexivity).
  now rewrite (Qcompare_comp _ _ E' _ _ (Qeq_refl (1 # 2))).
Qed.

Lemma round2_compat (q q' : Q) : (q == q')%Q -> round2 q = round2 q'.
Proof.
  intros E. unfold round2. f_equal. apply round_half_even_compat.
  rewrite E. reflexivity.
Qed.

Lemma analyze_keyword_words (content : string) (ka : keyword_analysis_t) (k : string) :
  0 < PyStr.word_count content ->
  exists ka',
    analyze_keyword content (PyStr.lower content) ka k = Ok ka'
    /\ keyword_density ka' = <[k := recorded_density content k]> (keyword_density ka).
Proof.
  intros Hwc. unfold analyze_keyword, recorded_density.
  destruct (PyStr.word_count content) as [|n] eqn:E; [lia|].
  replace (0 <? S n) with true by (symmetry; apply Nat.ltb_lt; lia).
  rewrite py_truediv_S. cbn. eexists. split; reflexivity.
Qed.

Lemma analyze_fold_words (content : string) (ks : list string) :
  0 < PyStr.word_count content ->
  forall ka, exists ka',
    foldM (analyze_keyword content (PyStr.lower content)) ks ka = Ok ka'
    /\ forall K,
         keyword_density ka' !! K
         = if decide (K ∈ ks) then Some (recorded_density content K)
           else keyword_density ka !! K.
Proof.
  intros Hwc. induction ks as [|k ks IH]; intros ka.
  - exists ka. split; [reflexivity|]. intros K.
    destruct (decide (K ∈ [])) as [Hin|_]; [|reflexivity].
    now apply elem_of_nil in Hin.
  - destruct (analyze_keyword_words content ka k Hwc) as (ka1 & E1 & D1).
    destruct (IH ka1) as (ka' & E' & D').
    exists ka'. split.
    + cbn [foldM]. rewrite E1. exact E'.
    + intros K. rewrite D'.
      destruct (decide (K ∈ ks)) as [Hin|Hnin].
      * rewrite decide_True; [reflexivity|]. now apply list_elem_of_further.
      * rewrite D1. destruct (decide (K = k)) as [->|Hne].
        -- rewrite lookup_insert_eq.
           rewrite decide_True; [reflexivity|]. apply list_elem_of_here.
        -- rewrite lookup_insert_ne by congruence.
           rewrite decide_False; [reflexivity|].
           intros Hin. apply elem_of_cons in Hin as [?|?]; congruence.
Qed.

Lemma analyze_keyword_no_words (content : string) (ka : keyword_analysis_t) (k : string) :
  PyStr.word_count content = 0 ->
  exists ka',
    analyze_keyword content (PyStr.lower content) ka k = Ok ka'
    /\ keyword_density ka' = keyword_density ka.
Proof.
  intros Hwc. unfold analyze_keyword. rewrite Hwc. cbn.
  eexists. split; reflexivity.
Qed.

Lemma analyze_fold_no_words (content : string) (ks : list string) :
  PyStr.word_count content = 0 ->
  forall ka, exists ka',
    foldM (analyze_keyword content (PyStr.lower content)) ks ka = Ok ka'
    /\ keyword_density ka' = keyword_density ka.
Proof.
  intros Hwc. induction ks as [|k ks' IH]; intros ka.
  - exists ka. split; reflexivity.
  - destruct (analyze_keyword_no_words content ka k Hwc) as (ka1 & E1 & D1).
    destruct (IH ka1) as (ka' & E' & D').
    exists ka'. split; [cbn [foldM]; rewrite E1; exact E' | congruence].
Qed.

(** With no word in the text, no density is recorded at all. *)
Lemma analyze_keywords_no_words (content : string) (ks : list string) :
  PyStr.word_count content = 0 ->
  exists ka, _analyze_keywords content ks = Ok ka /\ keyword_density ka = ∅.
Proof.
  intros Hwc. unfold _analyze_keywords.
  destruct (analyze_fold_no_words content ks Hwc
              {| target_keywords := ks; keyword_density := ∅;
                 keyword_positions := ∅; missing_keywords := [] |})
    as (ka & E & D).
  exists ka. split; [exact E | exact D].
Qed.

Lemma analyze_keywords_total (content : string) (ks : list string) :
  exists ka, _analyze_keywords content ks = Ok ka.
Proof.
  destruct (PyStr.word_count content) as [|n] eqn:E.
  - destruct (analyze_keywords_no_words content ks E) as (ka & H & _). eauto.
  - destruct (analyze_fold_words content ks ltac:(lia)
                {| target_keywords := ks; keyword_density := ∅;
                   keyword_positions := ∅; missing_keywords := [] |})
      as (ka & H & _).
    exists ka. exact H.
Qed.

Lemma re_split_nonempty (s : string) :
  exists x l, Terminators.re_split s = x :: l.
Proof.
  pose proof (length_split_runs false s) as L. unfold Terminators.re_split.
  destruct (Terminators.split_runs false s); [discriminate|eauto].
Qed.

Lemma _generate_meta_suggestions_ok (content : string) :
  exists m, _generate_meta_suggestions content = Ok m.
Proof.
  unfold _generate_meta_suggestions.
  destruct (re_split_nonempty content) as (x & l & ->). cbn. eauto.
Qed.

Context `{RegexLib}.

Lemma _analyze_structure_ok (content : string) :
  exists st, _analyze_structure content = Ok st.
Proof.
  unfold _analyze_structure.
  destruct (ContentValidatorTool.nonblank_paragraphs content) as [|p ps]; cbn [length].
  - cbn. eauto.
  - rewrite py_truediv_S. cbn -[float_of float_round1]. eauto.
Qed.

(** The analyzer never takes its [except] branch. *)
Lemma analyzer_run_total (content : string) (ks : list string) :
  exists a ka,
    run content ks = Analysis a
    /\ _analyze_keywords content ks = Ok ka
    /\ keyword_analysis a = ka.
Proof.
  unfold run, analyze.
  destruct (analyze_keywords_total content ks) as [ka ->].
  destruct (_analyze_structure_ok content) as [st ->].
  destruct (_generate_meta_suggestions_ok content) as [m ->].
  cbn. eauto.
Qed.

(** C2, as amended: for a content C with at least one word and a keyword K
    of the analysed list, keyword_density[K] is defined; it is the float
    computed as round((occurrences / word_count) * 100, 2), and lies
    within 0.005, and four rounding units, of 100 x (case-insensitive
    occurrences of K in C) / word_count(C). *)
Theorem keyword_density_rounded (content : string) (ks : list string) (K : string) :
  let occurrences := PyStr.count (PyStr.lower K) (PyStr.lower content) in
  let exact := (100 * (Qnat occurrences / Qnat (PyStr.word_count content)))%Q in
  K ∈ ks ->
  0 < PyStr.word_count content ->
  exists a d,
    run content ks = Analysis a
    /\ keyword_density (keyword_analysis a) !! K = Some d
    /\ d = float_round2
             (fmul (float_of (Qnat occurrences / Qnat (PyStr.word_count content)))
                   100)
    /\ (Qabs (d - exact) <= (1 # 200) + 4 * unit_roundoff * (1 + exact))%Q.
Proof.
  intros occurrences exact HK Hwc.
  destruct (analyzer_run_total content ks) as (a & ka & Hrun & Hka & <-).
  exists a, (recorded_density content K). split; [exact Hrun|].
  unfold _analyze_keywords in Hka.
  destruct (analyze_fold_words content ks Hwc
              {| target_keywords := ks; keyword_density := ∅;
                 keyword_positions := ∅; missing_keywords := [] |})
    as (ka' & Hka' & D).
  rewrite Hka in Hka'. injection Hka' as <-.
  rewrite D, decide_True by exact HK.
  split; [reflexivity|]. split; [reflexivity|].
  subst exact occurrences. unfold recorded_density.
  destruct (PyStr.word_count content) as [|n]; [lia|].
  apply float_density_near.
Qed.

End Analyzer.

(** C2, counterexample: in "a b c" the keyword "a" occurs once among three
    words and the recorded density is the float 33.33, not 100/3; in the
    160 words of [density_sample] the keyword "k" occurs 23 times and the
    recorded density is the float 14.37, although 100 x 23 / 160 is 14.375,
    nearer to 14.38 under the same rounding; for the empty text no density
    is recorded under the keyword. *)
Lemma keyword_density_not_exact :
  (exists ka d,
     SEOAnalyzerTool._analyze_keywords "a b c" ["a"] = Ok ka
     /\ PyStr.count (PyStr.lower "a") (PyStr.lower "a b c") = 1
     /\ PyStr.word_count "a b c" = 3
     /\ SEOAnalyzerTool.keyword_density ka !! "a" = Some d
     /\ d = float_of (3333 # 100)
     /\ ~ (d == 100 * (1 / 3))%Q)
  /\ (exists ka d,
        SEOAnalyzerTool._analyze_keywords density_sample ["k"] = Ok ka
        /\ PyStr.count (PyStr.lower "k") (PyStr.lower density_sample) = 23
        /\ PyStr.word_count density_sample = 160
        /\ SEOAnalyzerTool.keyword_density ka !! "k" = Some d
        /\ d = float_of (1437 # 100)
        /\ (round2 (100 * (23 / 160)) == 1438 # 100)%Q)
  /\ (exists ka,
        SEOAnalyzerTool._analyze_keywords "" ["a"] = Ok ka
        /\ PyStr.word_count "" = 0
        /\ SEOAnalyzerTool.keyword_density ka !! "a" = None).
Proof.
  split; [|split].
  - eexists _, _. split; [vm_compute; reflexivity|].
    split; [reflexivity|]. split; [reflexivity|].
    split; [vm_compute; reflexivity|].
    split; [vm_compute; reflexivity|]. intros E. vm_compute in E. discriminate.
  - eexists _, _. split; [vm_compute; reflexivity|].
    split; [vm_compute; reflexivity|]. split; [vm_compute; reflexivity|].
    split; [vm_compute; reflexivity|].
    split; [vm_compute; reflexivity|]. reflexivity.
  - eexists. split; [vm_compute; reflexivity|].
    split; [reflexivity|]. vm_compute. reflexivity.
Qed.

(** ** Keyword report *)

Section KeywordReport.
Import SEOAgent.

Lemma lower_take (n : nat) (s : string) :
  PyStr.lower (PyStr.take n s) = PyStr.take n (PyStr.lower s).
Proof.
  revert n. induction s as [|c s IH]; intros [|n]; cbn; try reflexivity.
  now rewrite IH.
Qed.

Lemma b2n_sum_le_3 (a b c : bool) : b2n a + b2n b + b2n c <= 3.
Proof. destruct a, b, c; cbn; lia. Qed.

Lemma report_keyword_step (content : string) (report : keyword_report_t) (k : string) :
  exists report' e p,
    report_keyword content (PyStr.lower content) report k = Ok report'
    /\ total_words report' = total_words report
    /\ keyword_analysis report' = <[k := e]> (keyword_analysis report)
    /\ placement_analysis report' = <[k := p]> (placement_analysis report)
    /\ reported content k e p.
Proof.
  unfold report_keyword.
  destruct (total_words report) as [|n] eqn:E.
  - cbn -[b2n]. eexists _, _, _. split; [reflexivity|]. cbn -[b2n].
    repeat split; try (rewrite lower_take; reflexivity). apply b2n_sum_le_3.
  - replace (0 <? S n) with true by reflexivity.
    rewrite py_truediv_S. cbn -[b2n]. eexists _, _, _. split; [reflexivity|]. cbn -[b2n].
    repeat split; try (rewrite lower_take; reflexivity). apply b2n_sum_le_3.
Qed.

Lemma report_fold (content : string) (ks : list string) :
  forall report, exists report',
    foldM (report_keyword content (PyStr.lower content)) ks report = Ok report'
    /\ forall K,
         if decide (K ∈ ks)
         then exists e p,
                keyword_analysis report' !! K = Some e
                /\ placement_analysis report' !! K = Some p
                /\ reported content K e p
         else keyword_analysis report' !! K = keyword_analysis report !! K
              /\ placement_analysis report' !! K = placement_analysis report !! K.
Proof.
  induction ks as [|k ks IH]; intros report.
  - exists report. split; [reflexivity|]. intros K.
    rewrite decide_False by apply not_elem_of_nil. split; reflexivity.
  - destruct (report_keyword_step content report k)
      as (r1 & e1 & p1 & E1 & _ & KA1 & PA1 & R1).
    destruct (IH r1) as (r' & E' & D').
    exists r'. split; [cbn [foldM]; rewrite E1; exact E'|].
    intros K. specialize (D' K).
    destruct (decide (K ∈ ks)) as [Hin|Hnin].
    + rewrite decide_True by now apply list_elem_of_further. exact D'.
    + destruct D' as [DK DP]. rewrite KA1 in DK. rewrite PA1 in DP.
      destruct (decide (K = k)) as [->|Hne].
      * rewrite decide_True by apply list_elem_of_here.
        rewrite lookup_insert_eq in DK. rewrite lookup_insert_eq in DP. eauto.
      * rewrite decide_False
          by (intros Hin; apply elem_of_cons in Hin as [?|?]; congruence).
        rewrite lookup_insert_ne in DK by congruence.
        rewrite lookup_insert_ne in DP by congruence. split; assumption.
Qed.

(** C9: for every content and every keyword K of the list, the report is
    produced and its placement fields are prefix checks on the whole text:
    in_title says that K occurs, case-insensitively, in the first 100
    characters, in_first_paragraph that it occurs in the first 500, and the
    placement score is the number of true values among in_title,
    in_headings and in_first_paragraph, hence at most 3. *)
Theorem keyword_report_placement (content : string) (ks : list string) (K : string) :
  K ∈ ks ->
  exists report e p,
    _generate_keyword_report content ks = Ok report
    /\ keyword_analysis report !! K = Some e
    /\ placement_analysis report !! K = Some p
    /\ in_title e
       = PyStr.contains (PyStr.lower K) (PyStr.lower (PyStr.take 100 content))
    /\ in_first_paragraph e
       = PyStr.contains (PyStr.lower K) (PyStr.lower (PyStr.take 500 content))
    /\ score p = b2n (in_title e) + b2n (in_headings e) + b2n (in_first_paragraph e)
    /\ score p <= 3.
Proof.
  intros HK. unfold _generate_keyword_report.
  destruct (report_fold content ks
              {| total_words := PyStr.word_count content;
                 keyword_analysis := ∅;
                 density_analysis := ∅;
                 placement_analysis := ∅ |}) as (r & E & D).
  specialize (D K). rewrite decide_True in D by exact HK.
  destruct D as (e & p & He & Hp & _ & Ht & Hf & Hs & Hle).
  exists r, e, p. repeat split; assumption.
Qed.

End KeywordReport.

(** ** Source credibility *)

Section Credibility.
Import ResearchAgent.

Lemma single_source_credibility_bounds (source : search_result) :
  (1 # 2 <= _assess_single_source_credibility source
   /\ _assess_single_source_credibility source <= 1)%Q.
Proof.
  unfold _assess_single_source_credibility.
  destruct (existsb _ high_credibility_domains);
    [|destruct (existsb _ medium_credibility_domains)];
    destruct (existsb _ quality_indicators);
    vm_compute; split; discriminate.
Qed.

Lemma fold_Qplus_lower (l : list Q) (a : Q) :
  Forall (fun q => 1 # 2 <= q)%Q l ->
  (a + Qnat (length l) * (1 # 2) <= fold_left Qplus l a)%Q.
Proof.
  intros HF. revert a. induction HF as [|q l Hq HF IH]; intros a.
  - cbn [fold_left length]. change (Qnat 0) with 0%Q. lra.
  - cbn [fold_left length]. specialize (IH (a + q)%Q).
    assert (E : (Qnat (S (length l)) == Qnat (length l) + 1)%Q).
    { unfold Qnat. rewrite Nat2Z.inj_succ, <- Z.add_1_r, inject_Z_plus. reflexivity. }
    rewrite E. lra.
Qed.

Lemma round_half_even_ge_floor (q : Q) : (Qfloor q <= round_half_even q)%Z.
Proof.
  unfold round_half_even.
  destruct (q - inject_Z (Qfloor q) ?= 1 # 2)%Q; try lia.
  destruct (Z.even (Qfloor q)); lia.
Qed.

Lemma round2_at_least_half (q : Q) : (1 # 2 <= q)%Q -> (1 # 2 <= round2 q)%Q.
Proof.
  intros Hq. unfold round2.
  assert (H50 : (50 <= Qfloor (q * 100))%Z).
  { change 50%Z with (Qfloor (inject_Z 50)) at 1.
    - apply Qfloor_resp_le. change (inject_Z 50) with 50%Q. lra. }
  pose proof (round_half_even_ge_floor (q * 100)) as Hr.
  unfold Qle. cbn. lia.
Qed.

Lemma Forall_insert_desc {A} (P : A -> Prop) (lt : A -> A -> bool) (x : A) (l : list A) :
  P x -> Forall P l -> Forall P (insert_desc lt x l).
Proof.
  intros Hx. induction 1 as [|y l Hy Hl IH]; cbn [insert_desc].
  - now constructor.
  - destruct (lt y x); repeat constructor; assumption.
Qed.

(** Sorting keeps every element within a bound that all of them meet. *)
Lemma Forall_sort_desc {A} (P : A -> Prop) (lt : A -> A -> bool) (l : list A) :
  Forall P l -> Forall P (sort_desc lt l).
Proof.
  unfold sort_desc. intros Hl.
  assert (Hacc : Forall P (@nil A)) by constructor.
  revert Hacc. generalize (@nil A) as acc.
  induction Hl as [|x l Hx Hl IH]; intros acc Hacc; cbn [fold_left]; [exact Hacc|].
  apply IH. now apply Forall_insert_desc.
Qed.

(** C10: every per-source credibility score lies in [0.5, 1.0], those
    stored in source_references included; with at least one valid source
    the assessment is produced and its overall_score is at least 0.5. *)
Theorem credibility_at_least_half
    (search_results : list search_result) (source : search_result) :
  valid_results search_results <> [] ->
  (1 # 2 <= _assess_single_source_credibility source)%Q
  /\ (_assess_single_source_credibility source <= 1)%Q
  /\ Forall (fun s => (1 # 2 <= credibility s)%Q /\ (credibility s <= 1)%Q)
            (_compile_sources search_results)
  /\ exists a,
       _assess_source_credibility search_results = Ok a
       /\ (1 # 2 <= overall_score a)%Q
       /\ total_sources a = Some (length (valid_results search_results)).
Proof.
  intros Hvalid.
  destruct (single_source_credibility_bounds source) as [Hlo Hhi].
  split; [exact Hlo|]. split; [exact Hhi|]. split.
  { unfold _compile_sources. apply Forall_sort_desc.
    apply Forall_forall. intros s Hs.
    apply list_elem_of_fmap in Hs as (r & -> & _). cbn [credibility].
    apply single_source_credibility_bounds. }
  unfold _assess_source_credibility.
  destruct (valid_results search_results) as [|r rs] eqn:E; [congruence|].
  set (scores := map _assess_single_source_credibility (r :: rs)).
  assert (HF : Forall (fun q => 1 # 2 <= q)%Q scores).
  { apply Forall_forall. intros q Hq. apply list_elem_of_fmap in Hq as (x & -> & _).
    apply single_source_credibility_bounds. }
  assert (Hlen : length scores = S (length rs)) by (unfold scores; cbn; now rewrite length_map).
  destruct scores as [|s0 scores'] eqn:Es; [discriminate|].
  rewrite <- Es in *. rewrite Hlen, py_div_S. cbn.
  eexists. split; [reflexivity|]. cbn. split; [|reflexivity].
  apply round2_at_least_half.
  pose proof (fold_Qplus_lower scores 0 HF) as Hsum. rewrite Hlen in Hsum.
  apply Qle_shift_div_l.
  - unfold Qnat, Qlt. cbn. lia.
  - unfold scores in Hsum. cbn [map fold_left] in Hsum. lra.
Qed.

End Credibility.

(** ** Research without valid sources *)

Section Research.
Import ResearchAgent.

Lemma valid_results_all_errors (l : list search_result) :
  Forall (fun r => is_Some (r !! "error")) l -> valid_results l = [].
Proof.
  unfold valid_results. induction 1 as [|r l Hr _ IH]; [reflexivity|].
  cbn [List.filter]. rewrite IH.
  destruct Hr as [e He]. rewrite He.
  rewrite bool_decide_eq_false_2 by discriminate. reflexivity.
Qed.

(** Error-tagged records never reach a derived list: what the stage keeps
    carries no [error] key. *)
Lemma valid_results_no_error (l : list search_result) :
  Forall (fun r => r !! "error" = None) (valid_results l).
Proof.
  unfold valid_results. apply Forall_forall. intros r Hr.
  apply list_elem_of_In, filter_In in Hr as [_ Hr].
  now apply bool_decide_eq_true in Hr.
Qed.

Context `{RegexLib} `{SearchTool}.

(** C6: when every result the search tool returns for the generated queries
    carries the error key, conduct_research still returns: the summary is
    the "Limited research available" sentence, key_facts, statistics,
    expert_quotes and source_references are empty, and the credibility
    assessment has overall_score 0. *)
Theorem conduct_research_all_errors (topic : string) (requirements : Requirements.t) :
  (forall query,
     query ∈ _generate_research_queries topic requirements ->
     Forall (fun r => is_Some (r !! "error")) (web_search query 5)) ->
  exists out,
    conduct_research topic requirements = Ok out
    /\ research_summary out
       = "Limited research available on " +:+ topic
         +:+ ". Recommend using authoritative sources."
    /\ PyStr.startswith "Limited research available" (research_summary out) = true
    /\ key_facts out = []
    /\ statistics out = []
    /\ expert_quotes out = []
    /\ source_references out = []
    /\ overall_score (credibility_assessment out) = 0%Q
    /\ assessment (credibility_assessment out) = "No valid sources found".
Proof.
  intros Herr.
  assert (Hvalid :
    valid_results
      (flat_map (fun query => web_search query 5)
                (_generate_research_queries topic requirements)) = []).
  { apply valid_results_all_errors. apply Forall_flat_map.
    apply Forall_forall. intros q Hq. apply Herr.
    first [exact Hq | now apply list_elem_of_In]. }
  unfold conduct_research, _assess_source_credibility, _create_research_summary,
    _extract_key_facts, _extract_statistics, _extract_quotes, _compile_sources.
  rewrite Hvalid. cbn.
  eexists. split; [reflexivity|]. cbn. repeat split; reflexivity.
Qed.

End Research.

(** C6, instance: a search tool that fails on every query. *)
Lemma conduct_research_all_errors_witness :
  exists out,
    @ResearchAgent.conduct_research no_match failing_search
      "Remote Work" Requirements.empty = Ok out
    /\ ResearchAgent.research_summary out
       = "Limited research available on Remote Work. Recommend using authoritative sources."
    /\ PyStr.startswith "Limited research available"
         (ResearchAgent.research_summary out) = true
    /\ ResearchAgent.key_facts out = []
    /\ ResearchAgent.statistics out = []
    /\ ResearchAgent.expert_quotes out = []
    /\ ResearchAgent.source_references out = []
    /\ ResearchAgent.overall_score (ResearchAgent.credibility_assessment out) = 0%Q
    /\ ResearchAgent.assessment (ResearchAgent.credibility_assessment out)
       = "No valid sources found".
Proof.
  apply (@conduct_research_all_errors no_match failing_search
           "Remote Work" Requirements.empty).
  intros query _. constructor; [|constructor].
  exists "Search failed: timed out". reflexivity.
Defined.

(** C10, instance: one valid source. *)
Lemma credibility_at_least_half_witness :
  (1 # 2 <= ResearchAgent._assess_single_source_credibility one_source)%Q
  /\ (ResearchAgent._assess_single_source_credibility one_source <= 1)%Q
  /\ Forall (fun s => (1 # 2 <= ResearchAgent.credibility s)%Q
                      /\ (ResearchAgent.credibility s <= 1)%Q)
            (ResearchAgent._compile_sources [one_source])
  /\ exists a,
       ResearchAgent._assess_source_credibility [one_source] = Ok a
       /\ (1 # 2 <= ResearchAgent.overall_score a)%Q
       /\ ResearchAgent.total_sources a
          = Some (length (ResearchAgent.valid_results [one_source])).
Proof.
  apply (credibility_at_least_half [one_source] one_source).
  vm_compute. discriminate.
Defined.

(** C9, instance: the keyword "ai" in a two-line text. *)
Lemma keyword_report_placement_witness :
  exists report e p,
    SEOAgent._generate_keyword_report "# AI basics" ["ai"] = Ok report
    /\ SEOAgent.keyword_analysis report !! "ai" = Some e
    /\ SEOAgent.placement_analysis report !! "ai" = Some p
    /\ SEOAgent.in_title e
       = PyStr.contains (PyStr.lower "ai") (PyStr.lower (PyStr.take 100 "# AI basics"))
    /\ SEOAgent.in_first_paragraph e
       = PyStr.contains (PyStr.lower "ai") (PyStr.lower (PyStr.take 500 "# AI basics"))
    /\ SEOAgent.score p
       = SEOAgent.b2n (SEOAgent.in_title e) + SEOAgent.b2n (SEOAgent.in_headings e)
         + SEOAgent.b2n (SEOAgent.in_first_paragraph e)
    /\ SEOAgent.score p <= 3.
Proof.
  apply (keyword_report_placement "# AI basics" ["ai"] "ai").
  apply list_elem_of_here.
Defined.

(** C2, instance: the keyword "a" in "a b c". *)
Lemma keyword_density_rounded_witness :
  exists a d,
    @SEOAnalyzerTool.run no_match "a b c" ["a"] = SEOAnalyzerTool.Analysis a
    /\ SEOAnalyzerTool.keyword_density (SEOAnalyzerTool.keyword_analysis a) !! "a"
       = Some d
    /\ d = float_round2
             (fmul (float_of (Qnat (PyStr.count (PyStr.lower "a") (PyStr.lower "a b c"))
                              / Qnat (PyStr.word_count "a b c")))
                   100)
    /\ (Qabs (d - 100 * (Qnat (PyStr.count (PyStr.lower "a") (PyStr.lower "a b c"))
                         / Qnat (PyStr.word_count "a b c")))
        <= (1 # 200)
           + 4 * unit_roundoff
             * (1 + 100 * (Qnat (PyStr.count (PyStr.lower "a") (PyStr.lower "a b c"))
                           / Qnat (PyStr.word_count "a b c"))))%Q.
Proof.
  apply (@keyword_density_rounded no_match "a b c" ["a"] "a").
  - apply list_elem_of_here.
  - vm_compute. lia.
Defined.

(** C8, instance: the plan for a word count of 3. *)
Lemma create_content_plan_word_band_witness :
  exists qc lo hi,
    CoordinatorAgent.quality_criteria
      (CoordinatorAgent.create_content_plan three_word_requirements) = Some qc
    /\ CoordinatorAgent.minimum_word_count qc = Some lo
    /\ CoordinatorAgent.maximum_word_count qc = Some hi
    /\ lo = fmul (float_of (inject_Z 3)) (float_of (9 # 10))
    /\ hi = fmul (float_of (inject_Z 3)) (float_of (11 # 10))
    /\ (Qabs (lo - (9 # 10) * inject_Z 3) <= 4 * unit_roundoff * Qabs (inject_Z 3))%Q
    /\ (Qabs (hi - (11 # 10) * inject_Z 3) <= 4 * unit_roundoff * Qabs (inject_Z 3))%Q
    /\ CoordinatorAgent.word_count
         (CoordinatorAgent.create_content_plan three_word_requirements) = 3%Z.
Proof.
  apply (create_content_plan_word_band three_word_requirements).
  reflexivity.
Defined.

(** C8, counterexample: for a word count of 3 the plan's
    maximum_word_count is the float 3.3000000000000003: it is above
    1.1 x 3, and it is not the float 3.3 that is nearest to 1.1 x 3; the
    minimum_word_count is the float 2.7. *)
Lemma word_band_not_exact :
  exists qc lo hi,
    CoordinatorAgent.quality_criteria band_3 = Some qc
    /\ CoordinatorAgent.word_count band_3 = 3%Z
    /\ CoordinatorAgent.minimum_word_count qc = Some lo
    /\ CoordinatorAgent.maximum_word_count qc = Some hi
    /\ hi = 7430939385161319 # 2251799813685248
    /\ ((11 # 10) * 3 < hi)%Q
    /\ (float_of ((11 # 10) * 3) < hi)%Q
    /\ lo = float_of ((9 # 10) * 3).
Proof.
  eexists _, _, _. vm_compute. repeat split; reflexivity.
Qed.

(** ** SEO stage *)

Section SEOStage.
Import SEOAgent.

Lemma prefix_empty (s : string) : String.prefix "" s = true.
Proof. destruct s; reflexivity. Qed.

Lemma split_go_nonempty (sep : string) (k : nat) (s : string) :
  PyStr.split_go sep k s <> [].
Proof.
  revert k. induction s as [|c s IH]; intros k; cbn [PyStr.split_go]; [discriminate|].
  destruct k; [|apply IH].
  destruct (String.prefix sep (String c s)); [discriminate|].
  specialize (IH 0). destruct (PyStr.split_go sep 0 s); [congruence|discriminate].
Qed.

Lemma join_cons_head (sep : string) (c : ascii) (l : list string) :
  l <> [] -> PyStr.join sep (PyStr.cons_head c l) = String c (PyStr.join sep l).
Proof.
  destruct l as [|x [|y l]]; intros Hl; [congruence|reflexivity|reflexivity].
Qed.

Lemma join_cons_empty (sep : string) (l : list string) :
  l <> [] -> PyStr.join sep ("" :: l) = sep +:+ PyStr.join sep l.
Proof. destruct l; intros Hl; [congruence|reflexivity]. Qed.

(** Splitting at a one-character separator and joining again gives the
    text back. *)
Lemma join_split_char (c : ascii) (s : string) :
  PyStr.join (String c "") (PyStr.split (String c "") s) = s.
Proof.
  unfold PyStr.split. induction s as [|d s IH]; [reflexivity|].
  cbn [PyStr.split_go String.prefix String.length Nat.sub].
  destruct (ascii_dec c d) as [->|Hne].
  - rewrite prefix_empty, join_cons_empty by apply split_go_nonempty.
    cbn. now rewrite IH.
  - rewrite join_cons_head by apply split_go_nonempty. now rewrite IH.
Qed.

Lemma title_loop_no_keywords (lines : list string) :
  title_loop [] lines = Ok lines.
Proof.
  induction lines as [|line rest IH]; [reflexivity|].
  cbn [title_loop]. destruct (PyStr.startswith "# " line); [reflexivity|].
  now rewrite IH.
Qed.

Lemma _optimize_title_seo_no_keywords (content : string) :
  _optimize_title_seo content [] = Ok content.
Proof.
  unfold _optimize_title_seo. rewrite title_loop_no_keywords. cbn.
  f_equal. apply join_split_char.
Qed.

Lemma _generate_meta_tags_no_keywords (content : string) (requirements : Requirements.t) :
  exists tags, _generate_meta_tags content [] requirements = Ok tags.
Proof.
  unfold _generate_meta_tags.
  set (title := if PyStr.is_empty (first_title_line content) then _ else _).
  destruct (60 <? String.length title); [|destruct (String.length title <? 30)];
    cbn [mbind result_bind PyStr.is_empty negb andb];
    (destruct (List.filter _ (PyStr.split (PyStr.NL +:+ PyStr.NL) content));
     cbn; eauto).
Qed.

Lemma _optimize_content_seo_no_keywords (content : string) (requirements : Requirements.t) :
  _optimize_content_seo content [] requirements
  = Ok (let restructured := _optimize_content_structure content in
        if PyStr.contains "related topics" (PyStr.lower restructured)
        then restructured
        else restructured +:+ PyStr.NL +:+ PyStr.NL +:+ related_topics_without_entries).
Proof.
  unfold _optimize_content_seo. rewrite _optimize_title_seo_no_keywords.
  cbn [mbind result_bind _optimize_headings_seo _integrate_keywords_naturally].
  unfold _add_seo_elements. cbn [length Nat.leb mbind result_bind].
  destruct (PyStr.contains "related topics"
              (PyStr.lower (_optimize_content_structure content))); reflexivity.
Qed.

Context `{RegexLib}.

(** C4, as amended: with seo_keywords = [] optimize_content returns without
    raising; no FAQ section is added; the optimized content is the
    restructured text, followed by the Related Topics block (heading and
    fixed sentences, no bullet) unless the text already contains
    "related topics" in any letter case. *)
Theorem optimize_content_without_keywords (content : string) (r : Requirements.t) :
  let requirements := with_seo_keywords [] r in
  let restructured := _optimize_content_structure content in
  exists out,
    optimize_content content requirements = Ok out
    /\ target_keywords out = []
    /\ optimized_content out
       = (if PyStr.contains "related topics" (PyStr.lower restructured)
          then restructured
          else restructured +:+ PyStr.NL +:+ PyStr.NL +:+ related_topics_without_entries)
    /\ related_topics_without_entries = _generate_related_topics_section []
    /\ PyStr.contains "Frequently Asked Questions" related_topics_without_entries = false.
Proof.
  intros requirements restructured. subst requirements restructured.
  unfold optimize_content.
  cbn [with_seo_keywords Requirements.seo_keywords default from_option id].
  rewrite _optimize_content_seo_no_keywords.
  cbn [mbind result_bind].
  match goal with
  | |- context [_generate_meta_tags ?c [] ?q] =>
      destruct (_generate_meta_tags_no_keywords c q) as [tags ->]
  end.
  cbn [mbind result_bind _generate_keyword_report foldM].
  eexists. split; [reflexivity|]. cbn [target_keywords optimized_content].
  repeat split; reflexivity.
Qed.

End SEOStage.

(** C4, counterexample: "Hello world." optimized with an empty keyword list
    comes back with the Related Topics section appended, although the text
    had none. *)
Lemma related_topics_added_without_keywords :
  exists optimized,
    SEOAgent._optimize_content_seo "Hello world."
      (default [] (Requirements.seo_keywords (with_seo_keywords [] Requirements.empty)))
      (with_seo_keywords [] Requirements.empty) = Ok optimized
    /\ PyStr.contains "Related Topics" "Hello world." = false
    /\ PyStr.contains "related topics" (PyStr.lower "Hello world.") = false
    /\ PyStr.contains "## Related Topics" optimized = true
    /\ optimized
       = "Hello world." +:+ PyStr.NL +:+ PyStr.NL +:+ related_topics_without_entries.
Proof.
  eexists. split; [vm_compute; reflexivity|]. repeat split; reflexivity.
Qed.

(** C3, failing input: a text without first-level heading, the topic
    "Remote Work" and two long keywords.  The title is the topic prefixed
    with the primary keyword, 77 characters; the description is the first
    paragraph followed by the keyword sentence, 186 characters. *)
Theorem meta_tags_exceed_limits :
  exists optimized tags,
    SEOAgent._optimize_content_seo untitled_content long_keywords
      long_keyword_requirements = Ok optimized
    /\ SEOAgent._generate_meta_tags optimized long_keywords
         long_keyword_requirements = Ok tags
    /\ SEOAgent.title tags
       = "remote work productivity tips for distributed engineering teams - Remote Work"
    /\ String.length (SEOAgent.title tags) = 77
    /\ SEOAgent.description tags
       = "Remote work changes how distributed teams plan, communicate and deliver. Learn about remote work productivity tips for distributed engineering teams, asynchronous communication and more."
    /\ String.length (SEOAgent.description tags) = 186.
Proof.
  eexists _, _. split; [vm_compute; reflexivity|].
  split; [vm_compute; reflexivity|]. repeat split; reflexivity.
Qed.

(** ** Editing twice *)

Section Editing.
Import EditorAgent.


End Editing.


(** ** Facts about the string operations *)

Section StringFacts.

Lemma append_cons (c : ascii) (a b : string) :
  String c a +:+ b = String c (a +:+ b).
Proof. reflexivity. Qed.

Lemma length_append (a b : string) :
  String.length (a +:+ b) = String.length a + String.length b.
Proof.
  induction a as [|c a IH]; [reflexivity|].
  rewrite append_cons. cbn [String.length]. now rewrite IH.
Qed.

Lemma append_assoc (a b c : string) : (a +:+ b) +:+ c = a +:+ (b +:+ c).
Proof.
  induction a as [|x a IH]; [reflexivity|].
  rewrite !append_cons. now rewrite IH.
Qed.

Lemma append_empty_r (a : string) : a +:+ "" = a.
Proof.
  induction a as [|x a IH]; [reflexivity|].
  rewrite append_cons. now rewrite IH.
Qed.

Lemma drop_empty (k : nat) : PyStr.drop k "" = "".
Proof. destruct k; reflexivity. Qed.

Lemma str_length_drop_le (k : nat) (s : string) :
  String.length (PyStr.drop k s) <= String.length s.
Proof.
  revert k. induction s as [|c s IH]; intros [|k]; cbn; try lia.
  specialize (IH k). lia.
Qed.

Lemma str_length_take (n : nat) (s : string) :
  String.length (PyStr.take n s) = Nat.min n (String.length s).
Proof.
  revert n. induction s as [|c s IH]; intros [|n]; cbn; try reflexivity.
  now rewrite IH.
Qed.

Lemma prefix_app_drop (p s : string) :
  String.prefix p s = true -> s = p +:+ PyStr.drop (String.length p) s.
Proof.
  revert s. induction p as [|a p IH]; intros s Hp.
  - now destruct s.
  - destruct s as [|b s]; cbn in Hp; [discriminate|].
    destruct (ascii_dec a b) as [->|]; [|discriminate].
    cbn [String.length PyStr.drop]. rewrite append_cons. f_equal. now apply IH.
Qed.

Lemma prefix_app (p a b : string) :
  String.prefix p a = true -> String.prefix p (a +:+ b) = true.
Proof.
  revert a. induction p as [|x p IH]; intros a Hp.
  - apply prefix_empty.
  - destruct a as [|y a]; cbn in Hp; [discriminate|].
    rewrite append_cons. cbn [String.prefix].
    destruct (ascii_dec x y); [now apply IH|discriminate].
Qed.

Lemma contains_app_l (n a b : string) :
  PyStr.contains n a = true -> PyStr.contains n (a +:+ b) = true.
Proof.
  induction a as [|c a IH]; intros H.
  - cbn in H. rewrite orb_false_r in H.
    destruct n; [|discriminate]. destruct b; reflexivity.
  - cbn [PyStr.contains] in H. apply orb_true_iff in H as [H|H].
    + change (String c a +:+ b) with (String c (a +:+ b)).
      cbn [PyStr.contains]. apply orb_true_iff. left.
      rewrite <- append_cons. now apply prefix_app.
    + change (String c a +:+ b) with (String c (a +:+ b)).
      cbn [PyStr.contains]. apply orb_true_iff. right. now apply IH.
Qed.

Lemma contains_app_r (n a b : string) :
  PyStr.contains n b = true -> PyStr.contains n (a +:+ b) = true.
Proof.
  intros H. induction a as [|c a IH]; [exact H|].
  change (String c a +:+ b) with (String c (a +:+ b)).
  cbn [PyStr.contains]. apply orb_true_iff. now right.
Qed.

Lemma contains_prefix (n s : string) :
  String.prefix n s = true -> PyStr.contains n s = true.
Proof. intros H. destruct s; cbn [PyStr.contains]; rewrite H; reflexivity. Qed.

Lemma lower_app (a b : string) :
  PyStr.lower (a +:+ b) = PyStr.lower a +:+ PyStr.lower b.
Proof. induction a as [|c a IH]; simpl; [reflexivity|now rewrite IH]. Qed.

Lemma prefix_take_mono (n s : string) (a b : nat) :
  a <= b ->
  String.prefix n (PyStr.take a s) = true -> String.prefix n (PyStr.take b s) = true.
Proof.
  revert s a b. induction n as [|x n IH]; intros s a b Hab H.
  - apply prefix_empty.
  - destruct s as [|c s]; [destruct a; discriminate|].
    destruct a as [|a]; [discriminate|].
    destruct b as [|b]; [lia|].
    cbn in *. destruct (ascii_dec x c); [|discriminate].
    apply (IH s a b); [lia|exact H].
Qed.

(** A needle found in a shorter prefix of the text is found in a longer one. *)
Lemma contains_take_mono (n s : string) (a b : nat) :
  a <= b ->
  PyStr.contains n (PyStr.take a s) = true -> PyStr.contains n (PyStr.take b s) = true.
Proof.
  revert a b. induction s as [|c s IH]; intros a b Hab H.
  - destruct a, b; exact H.
  - destruct a as [|a].
    + cbn in H. rewrite orb_false_r in H. apply contains_prefix.
      destruct n; [apply prefix_empty|discriminate].
    + destruct b as [|b]; [lia|].
      cbn [PyStr.take PyStr.contains] in *.
      apply orb_true_iff in H as [H|H]; apply orb_true_iff.
      * left. apply (prefix_take_mono n (String c s) (S a) (S b)); [lia|exact H].
      * right. apply (IH a b); [lia|exact H].
Qed.

Lemma split_go_skip (sep : string) (k : nat) (s : string) :
  PyStr.split_go sep k s = PyStr.split_go sep 0 (PyStr.drop k s).
Proof.
  revert k. induction s as [|c s IH]; intros [|k]; try reflexivity.
  cbn [PyStr.split_go PyStr.drop]. apply IH.
Qed.

(** [sep.join(s.split(sep)) == s] for every non-empty separator. *)
Lemma join_split (sep s : string) :
  sep <> "" -> PyStr.join sep (PyStr.split sep s) = s.
Proof.
  intros Hsep. unfold PyStr.split.
  remember (String.length s) as n eqn:Hn.
  revert s Hn. induction n as [n IH] using lt_wf_ind. intros s Hn.
  destruct s as [|c s]; [reflexivity|].
  cbn [PyStr.split_go].
  destruct (String.prefix sep (String c s)) eqn:E.
  - rewrite join_cons_empty by apply split_go_nonempty.
    rewrite split_go_skip.
    pose proof (prefix_app_drop _ _ E) as Hs.
    destruct sep as [|a sep]; [congruence|].
    cbn [String.length Nat.sub PyStr.drop] in *. rewrite Nat.sub_0_r.
    rewrite (IH (String.length (PyStr.drop (String.length sep) s)))
      with (s := PyStr.drop (String.length sep) s); [|subst n; cbn|reflexivity].
    + now rewrite <- Hs.
    + pose proof (str_length_drop_le (String.length sep) s). lia.
  - rewrite join_cons_head by apply split_go_nonempty.
    f_equal. apply (IH (String.length s)); [subst n; cbn; lia|reflexivity].
Qed.

Lemma replace_go_skip (old new : string) (k : nat) (s : string) :
  PyStr.replace_go old new k s = PyStr.replace_go old new 0 (PyStr.drop k s).
Proof.
  revert k. induction s as [|c s IH]; intros [|k]; try reflexivity.
  cbn [PyStr.replace_go PyStr.drop]. apply IH.
Qed.

(** Replacing a phrase the text does not contain changes nothing. *)
Lemma replace_absent (old new s : string) :
  PyStr.contains old s = false -> PyStr.replace old new s = s.
Proof.
  unfold PyStr.replace. induction s as [|c s IH]; intros H; [reflexivity|].
  cbn [PyStr.contains] in H. apply orb_false_iff in H as [Hp Hc].
  cbn [PyStr.replace_go]. rewrite Hp. f_equal. now apply IH.
Qed.

Lemma count_go_zero_iff (a : ascii) (needle s : string) :
  PyStr.count_go (String a needle) 0 s = 0 <->
  PyStr.contains (String a needle) s = false.
Proof.
  induction s as [|c s IH].
  - cbn. split; reflexivity.
  - cbn [PyStr.count_go PyStr.contains].
    destruct (String.prefix (String a needle) (String c s)).
    + cbn. split; discriminate.
    + cbn [orb]. exact IH.
Qed.

(** [s.count(needle) == 0] exactly when [needle not in s]. *)
Lemma count_zero_iff (needle s : string) :
  PyStr.count needle s = 0 <-> PyStr.contains needle s = false.
Proof.
  destruct needle as [|a needle].
  - cbn [PyStr.count]. split; [discriminate|].
    intros H. rewrite contains_prefix in H by apply prefix_empty. discriminate.
  - apply count_go_zero_iff.
Qed.

End StringFacts.

(** ** SEO analyzer: missing keywords, score and suggestions *)

Section AnalyzerReport.
Import SEOAnalyzerTool.

Lemma length_lstrip_by_le (p : ascii -> bool) (s : string) :
  String.length (PyStr.lstrip_by p s) <= String.length s.
Proof.
  induction s as [|c s IH]; cbn; [lia|].
  destruct (p c); cbn; lia.
Qed.

Lemma length_rstrip_by_le (p : ascii -> bool) (s : string) :
  String.length (PyStr.rstrip_by p s) <= String.length s.
Proof.
  induction s as [|c s IH]; cbn; [lia|].
  destruct (PyStr.rstrip_by p s); [destruct (p c)|]; cbn in *; lia.
Qed.

Lemma length_strip_le (s : string) :
  String.length (PyStr.strip s) <= String.length s.
Proof.
  unfold PyStr.strip.
  pose proof (length_rstrip_by_le PyStr.is_space (PyStr.lstrip_by PyStr.is_space s)).
  pose proof (length_lstrip_by_le PyStr.is_space s). lia.
Qed.

(** Replacing one character by one character keeps the length. *)
Lemma length_replace_char (a b : ascii) (s : string) :
  String.length (PyStr.replace (String a "") (String b "") s) = String.length s.
Proof.
  unfold PyStr.replace. induction s as [|c s IH]; [reflexivity|].
  cbn [PyStr.replace_go].
  change (String.length (String a "") - 1) with 0.
  destruct (String.prefix (String a "") (String c s)).
  - rewrite length_append. cbn [String.length Nat.add]. now rewrite IH.
  - cbn [String.length]. now rewrite IH.
Qed.

Lemma analyze_keyword_missing (content : string) (ka : keyword_analysis_t) (k : string) :
  exists ka',
    analyze_keyword content (PyStr.lower content) ka k = Ok ka'
    /\ missing_keywords ka' = missing_keywords ka ++ absent_keywords content [k]
    /\ target_keywords ka' = target_keywords ka.
Proof.
  unfold analyze_keyword, absent_keywords. cbn [List.filter].
  assert (E : (PyStr.count (PyStr.lower k) (PyStr.lower content) =? 0)
              = negb (PyStr.contains (PyStr.lower k) (PyStr.lower content))).
  { destruct (PyStr.contains (PyStr.lower k) (PyStr.lower content)) eqn:C; cbn.
    - apply Nat.eqb_neq. intros Z. apply count_zero_iff in Z. congruence.
    - apply Nat.eqb_eq. now apply count_zero_iff. }
  rewrite E.
  destruct (PyStr.word_count content) as [|n].
  - cbn. eexists. split; [reflexivity|]. cbn.
    destruct (negb _); [split; reflexivity|].
    now rewrite app_nil_r.
  - replace (0 <? S n) with true by (symmetry; apply Nat.ltb_lt; lia).
    rewrite py_truediv_S. cbn -[float_of fmul float_round2].
    eexists. split; [reflexivity|]. cbn -[float_of fmul float_round2].
    destruct (negb _); [split; reflexivity|].
    now rewrite app_nil_r.
Qed.

Lemma analyze_fold_missing (content : string) (ks : list string) :
  forall ka, exists ka',
    foldM (analyze_keyword content (PyStr.lower content)) ks ka = Ok ka'
    /\ missing_keywords ka' = missing_keywords ka ++ absent_keywords content ks
    /\ target_keywords ka' = target_keywords ka.
Proof.
  induction ks as [|k ks IH]; intros ka.
  - exists ka. cbn. now rewrite app_nil_r.
  - destruct (analyze_keyword_missing content ka k) as (ka1 & E1 & M1 & T1).
    destruct (IH ka1) as (ka' & E' & M' & T').
    exists ka'. split; [cbn [foldM]; rewrite E1; exact E'|].
    split; [|congruence].
    rewrite M', M1, <- app_assoc. f_equal.
    unfold absent_keywords. cbn [List.filter].
    destruct (negb _); reflexivity.
Qed.

Context `{RegexLib}.

(** What an analysis that came back holds, read off [run]. *)
Lemma analyzer_run_inv (content : string) (ks : list string) (a : analysis) :
  run content ks = Analysis a ->
  _analyze_keywords content ks = Ok (keyword_analysis a)
  /\ _analyze_structure content = Ok (content_structure a)
  /\ _generate_meta_suggestions content = Ok (meta_suggestions a)
  /\ seo_score a = _calculate_seo_score (keyword_analysis a) (content_structure a)
  /\ recommendations a
     = _generate_recommendations (keyword_analysis a) (content_structure a).
Proof.
  unfold run, analyze.
  destruct (_analyze_keywords content ks) as [ka|]; [|discriminate].
  destruct (_analyze_structure content) as [st|]; [|discriminate].
  destruct (_generate_meta_suggestions content) as [m|]; [|discriminate].
  cbn. intros [= <-]. cbn. repeat split; reflexivity.
Qed.

Lemma analyzer_run_missing (content : string) (ks : list string) :
  exists a,
    run content ks = Analysis a
    /\ target_keywords (keyword_analysis a) = ks
    /\ missing_keywords (keyword_analysis a) = absent_keywords content ks.
Proof.
  destruct (analyzer_run_total content ks) as (a & ka & Hrun & Hka & <-).
  exists a. split; [exact Hrun|].
  unfold _analyze_keywords in Hka.
  destruct (analyze_fold_missing content ks
              {| target_keywords := ks; keyword_density := ∅;
                 keyword_positions := ∅; missing_keywords := [] |})
    as (ka' & Hka' & M & T).
  rewrite Hka in Hka'. injection Hka' as <-.
  split; [exact T | exact M].
Qed.

(** X1: the analyzer never returns its error dictionary, and the
    missing_keywords it reports are exactly the target keywords that do
    not occur in the content, letter case ignored, in the order given. *)
Theorem analyzer_missing_keywords (content : string) (ks : list string) :
  exists a,
    run content ks = Analysis a
    /\ target_keywords (keyword_analysis a) = ks
    /\ missing_keywords (keyword_analysis a) = absent_keywords content ks.
Proof. exact (analyzer_run_missing content ks). Qed.

(** X2: the analyzer's seo_score lies between 0 and 100 and every missing
    keyword costs ten points: the score is at most 100 - 10 x (number of
    target keywords absent from the content), or 0 when that is
    negative. *)
Theorem analyzer_score_missing_penalty (content : string) (ks : list string) :
  exists a,
    run content ks = Analysis a
    /\ (0 <= seo_score a <= 100)%Z
    /\ (seo_score a
        <= Z.max 0 (100 - 10 * Z.of_nat (length (absent_keywords content ks))))%Z.
Proof.
  destruct (analyzer_run_missing content ks) as (a & Hrun & _ & M).
  exists a. split; [exact Hrun|].
  destruct (analyzer_run_inv _ _ _ Hrun) as (_ & _ & _ & -> & _).
  rewrite <- M. unfold _calculate_seo_score.
  destruct (missing_keywords (keyword_analysis a)) as [|k l];
    destruct (has_headings _), (_ <? 300), (Qlt_bool 150 _);
    cbn [length]; lia.
Qed.

(** X3: the seo_score is 100 exactly when the recommendations are at most
    the two that carry no penalty (add lists, add internal links): each of
    the four penalised findings puts its own line into the
    recommendations. *)
Theorem analyzer_full_score_iff (content : string) (ks : list string) :
  exists a,
    run content ks = Analysis a
    /\ (seo_score a = 100%Z
        <-> recommendations a = unscored_recommendations (content_structure a)).
Proof.
  destruct (analyzer_run_total content ks) as (a & ka & Hrun & _ & _).
  exists a. split; [exact Hrun|].
  destruct (analyzer_run_inv _ _ _ Hrun) as (_ & _ & _ & -> & ->).
  unfold _calculate_seo_score, _generate_recommendations, unscored_recommendations.
  destruct (missing_keywords (keyword_analysis a)) as [|k l];
    destruct (has_headings _), (_ <? 300), (Qlt_bool 150 _),
             (has_lists _), (_ =? 0);
    cbn [length app]; unfold append;
    (split; [first [lia | reflexivity] | first [reflexivity | discriminate]]).
Qed.

Lemma _generate_meta_suggestions_eq (content : string) :
  _generate_meta_suggestions content
  = Ok {| title :=
            (let first_sentence := PyStr.strip (hd "" (Terminators.re_split content)) in
             if 60 <? String.length first_sentence
             then PyStr.take 60 first_sentence +:+ "..."
             else first_sentence);
          description :=
            PyStr.strip
              (PyStr.replace PyStr.NL " "
                 (if 155 <? String.length content
                  then PyStr.take 155 content +:+ "..."
                  else content)) |}.
Proof.
  unfold _generate_meta_suggestions.
  destruct (re_split_nonempty content) as (x & l & ->). reflexivity.
Qed.

(** X4: the meta suggestions keep to fixed lengths: the suggested title
    has at most 63 characters (60 and an ellipsis) and the suggested
    description at most 158 (155 and an ellipsis). *)
Theorem meta_suggestions_lengths (content : string) (ks : list string) :
  exists a,
    run content ks = Analysis a
    /\ String.length (title (meta_suggestions a)) <= 63
    /\ String.length (description (meta_suggestions a)) <= 158.
Proof.
  destruct (analyzer_run_total content ks) as (a & ka & Hrun & _ & _).
  exists a. split; [exact Hrun|].
  destruct (analyzer_run_inv _ _ _ Hrun) as (_ & _ & Hm & _ & _).
  rewrite _generate_meta_suggestions_eq in Hm.
  set (m := meta_suggestions a) in *.
  assert (Em : forall x, Ok x = Ok m -> m = x) by (now intros x [= ->]).
  apply Em in Hm. rewrite Hm. unfold title, description. split.
  - cbv zeta.
    destruct (60 <? String.length (PyStr.strip (hd "" (Terminators.re_split content))))
      eqn:L.
    + rewrite length_append, str_length_take. cbn [String.length]. lia.
    + apply Nat.ltb_ge in L. lia.
  - etransitivity; [apply length_strip_le|].
    change PyStr.NL with (String (PyStr.chr 10) "").
    change " " with (String " "%char "").
    rewrite length_replace_char.
    destruct (155 <? String.length content) eqn:L.
    + rewrite length_append, str_length_take. cbn [String.length]. lia.
    + apply Nat.ltb_ge in L. lia.
Qed.

End AnalyzerReport.

(** ** Content validator: ranges of the scores *)

Section ValidatorScores.
Import ContentValidatorTool.

Lemma round_half_even_le_int (q : Q) (N : Z) :
  (q <= inject_Z N)%Q -> (round_half_even q <= N)%Z.
Proof.
  intros Hq.
  assert (Hf : (Qfloor q <= N)%Z).
  { rewrite <- (Qfloor_Z N). now apply Qfloor_resp_le. }
  pose proof (Qfloor_le q) as Hfl.
  unfold round_half_even.
  destruct (Z.eq_dec (Qfloor q) N) as [E|NE].
  - assert (Hlt : (q - inject_Z (Qfloor q) < 1 # 2)%Q) by (rewrite E; lra).
    assert (Hc : (q - inject_Z (Qfloor q) ?= 1 # 2)%Q = Lt)
      by (rewrite <- Qlt_alt; exact Hlt).
    rewrite Hc. lia.
  - destruct (q - inject_Z (Qfloor q) ?= 1 # 2)%Q; [|lia|lia].
    destruct (Z.even (Qfloor q)); lia.
Qed.

Lemma round_half_even_nonneg (q : Q) : (0 <= q)%Q -> (0 <= round_half_even q)%Z.
Proof.
  intros Hq. pose proof (round_half_even_ge_floor q).
  assert (0 <= Qfloor q)%Z; [|lia].
  change 0%Z with (Qfloor 0). now apply Qfloor_resp_le.
Qed.

(** Rounding to two decimals keeps a number within integer bounds. *)
Lemma round2_bounds (q : Q) (N : Z) :
  (0 <= q <= inject_Z N)%Q -> (0 <= round2 q <= inject_Z N)%Q.
Proof.
  intros [H0 HN]. unfold round2.
  assert (Hlo : (0 <= round_half_even (q * 100))%Z)
    by (apply round_half_even_nonneg; lra).
  assert (Hhi : (round_half_even (q * 100) <= N * 100)%Z).
  { apply round_half_even_le_int. rewrite inject_Z_mult.
    change (inject_Z 100) with 100%Q. nra. }
  unfold Qle. cbn. lia.
Qed.

Lemma Qmax_bounds (a q : Q) : (0 <= a)%Q -> (q <= a)%Q -> (0 <= Qmax 0 q <= a)%Q.
Proof.
  intros Ha Hq. unfold Qmax. destruct (Qle_bool q 0) eqn:E.
  - split; [lra|exact Ha].
  - split; [|exact Hq].
    destruct (Qlt_le_dec q 0) as [Hlt|Hge]; [|exact Hge].
    assert (Qle_bool q 0 = true) by (apply Qle_bool_iff; lra). congruence.
Qed.

Lemma _calculate_readability_range (content : string) :
  exists q, _calculate_readability content = Ok q /\ (0 <= q <= 100)%Q.
Proof.
  unfold _calculate_readability.
  destruct (re_split_nonempty content) as (x & l & ->). cbn [length].
  rewrite Nat2Z.inj_succ.
  replace (Z.succ (Z.of_nat (length l)) - 1)%Z with (Z.of_nat (length l)) by lia.
  destruct (length l) as [|n].
  - cbn. exists 0%Q. split; [reflexivity|lra].
  - replace (Z.of_nat (S n) =? 0)%Z with false by (symmetry; apply Z.eqb_neq; lia).
    rewrite py_truediv_S. cbn [mbind result_bind].
    eexists. split; [reflexivity|].
    assert (Hq : (0 <= inject_Z (Z.of_nat (PyStr.word_count content)) / Qnat (S n))%Q).
    { apply Qle_shift_div_l.
      - unfold Qnat, Qlt. cbn. lia.
      - unfold Qnat, Qle. cbn. lia. }
    pose proof (float_of_nonneg _ Hq) as Ha.
    set (avg := float_of _) in *.
    assert (Hx : (0 <= fmul avg 2)%Q) by (apply float_of_nonneg; lra).
    assert (Hs : (fsub 100 (fmul avg 2) <= 100)%Q).
    { change 100%Q with (inject_Z 100) at 2. apply float_of_le_Z; [lia|].
      change (inject_Z 100) with 100%Q. lra. }
    pose proof (Qmax_bounds 100 _ ltac:(lra) Hs) as Hm.
    set (r := Qmax 0 _) in *.
    pose proof (round2_bounds r 100 Hm) as [R0 R1].
    unfold float_round2. split; [now apply float_of_nonneg|].
    change 100%Q with (inject_Z 100). apply float_of_le_Z; [lia|exact R1].
Qed.

(** X5: the validator's readability_score always lies between 0 and 100,
    whatever the text. *)
Theorem validator_readability_range (content : string) :
  exists m,
    run content = Metrics m
    /\ (0 <= readability_score m <= 100)%Q.
Proof.
  unfold run, validate.
  destruct (_calculate_readability_range content) as (q & -> & Hq).
  cbn. eexists. split; [reflexivity|exact Hq].
Qed.

(** X6: the length of the text and the number of issues cap the quality
    score: at most 70 under 100 words, 85 under 300 words, 90 over 3000
    words, less five points per issue found (never below 0). *)
Theorem validator_quality_cap (content : string) :
  exists m,
    run content = Metrics m
    /\ word_count m = PyStr.word_count content
    /\ issues m = _identify_issues content
    /\ (quality_score m
        <= Z.max 0 (quality_cap (word_count m) (length (issues m))))%Z.
Proof.
  unfold run, validate.
  destruct (_calculate_readability_range content) as (q & -> & Hq).
  cbn. eexists. split; [reflexivity|]. cbn [word_count issues quality_score].
  split; [reflexivity|]. split; [reflexivity|].
  unfold _calculate_quality_score, quality_cap.
  destruct (Qlt_bool q 30), (Qlt_bool q 50),
           (PyStr.word_count content <? 100), (PyStr.word_count content <? 300),
           (3000 <? PyStr.word_count content); lia.
Qed.

End ValidatorScores.

(** ** Keyword report: placement and density wording *)

Section KeywordReportRounds.
Import SEOAgent.

Lemma report_keyword_round (content : string) (report : keyword_report_t) (k : string) :
  exists report' e d p,
    report_keyword content (PyStr.lower content) report k = Ok report'
    /\ total_words report' = total_words report
    /\ keyword_analysis report' = <[k := e]> (keyword_analysis report)
    /\ density_analysis report' = <[k := d]> (density_analysis report)
    /\ placement_analysis report' = <[k := p]> (placement_analysis report)
    /\ report_round content (total_words report) k e d p.
Proof.
  unfold report_keyword, report_round.
  destruct (total_words report) as [|n] eqn:E.
  - cbn -[b2n Qlt_bool Qle_bool PyStr.take float_round2]. eexists _, _, _, _.
    split; [reflexivity|]. cbn -[b2n Qlt_bool Qle_bool PyStr.take float_round2].
    repeat split; reflexivity.
  - replace (0 <? S n) with true by reflexivity.
    rewrite py_truediv_S.
    cbn -[b2n Qlt_bool Qle_bool PyStr.take Qnat Qdiv float_of fmul float_round2].
    eexists _, _, _, _.
    split; [reflexivity|].
    cbn -[b2n Qlt_bool Qle_bool PyStr.take Qnat Qdiv float_of fmul float_round2].
    repeat split; reflexivity.
Qed.

Lemma report_fold_rounds (content : string) (n : nat) (ks : list string) :
  forall report,
    total_words report = n ->
    exists report',
      foldM (report_keyword content (PyStr.lower content)) ks report = Ok report'
      /\ total_words report' = n
      /\ forall K, K ∈ ks ->
           exists e d p,
             keyword_analysis report' !! K = Some e
             /\ density_analysis report' !! K = Some d
             /\ placement_analysis report' !! K = Some p
             /\ report_round content n K e d p.
Proof.
  induction ks as [|k ks IH] using rev_ind; intros report Hn.
  - exists report. split; [reflexivity|]. split; [exact Hn|].
    intros K HK. now apply elem_of_nil in HK.
  - destruct (IH report Hn) as (r1 & E1 & N1 & D1).
    destruct (report_keyword_round content r1 k)
      as (r' & e & d & p & E' & N' & KA & DA & PA & R).
    exists r'. split.
    + clear -E1 E'. revert report E1.
      induction ks as [|x ks IHks]; intros report E1; cbn [foldM app] in *.
      * injection E1 as ->. now rewrite E'.
      * destruct (report_keyword content (PyStr.lower content) report x) as [r0|];
          cbn [mbind result_bind] in *; [now apply IHks|discriminate].
    + split; [congruence|]. intros K HK.
      destruct (decide (K = k)) as [->|Hne].
      * exists e, d, p. rewrite KA, DA, PA, !lookup_insert_eq.
        rewrite N1 in R. repeat split; try reflexivity; apply R.
      * rewrite KA, DA, PA, !lookup_insert_ne by congruence.
        apply D1. apply elem_of_app in HK as [HK|HK]; [exact HK|].
        apply list_elem_of_singleton in HK. congruence.
Qed.

Lemma _generate_keyword_report_rounds (content : string) (ks : list string) :
  exists report,
    _generate_keyword_report content ks = Ok report
    /\ total_words report = PyStr.word_count content
    /\ forall K, K ∈ ks ->
         exists e d p,
           keyword_analysis report !! K = Some e
           /\ density_analysis report !! K = Some d
           /\ placement_analysis report !! K = Some p
           /\ report_round content (PyStr.word_count content) K e d p.
Proof.
  unfold _generate_keyword_report. now apply report_fold_rounds.
Qed.

(** X7: a keyword found in the first 100 characters is found in the first
    500 as well, so a keyword with in_title has in_first_paragraph too, a
    placement score of at least 2 and the assessment 'Excellent'; a
    placement score of 1 never comes from the title. *)
Theorem keyword_in_title_placement (content : string) (ks : list string) (K : string) :
  K ∈ ks ->
  exists report e p,
    _generate_keyword_report content ks = Ok report
    /\ keyword_analysis report !! K = Some e
    /\ placement_analysis report !! K = Some p
    /\ (in_title e = true ->
        in_first_paragraph e = true /\ 2 <= score p /\ assessment p = "Excellent")
    /\ (score p = 1 -> in_title e = false).
Proof.
  intros HK.
  destruct (_generate_keyword_report_rounds content ks) as (r & E & _ & D).
  destruct (D K HK) as (e & d & p & He & _ & Hp & R).
  destruct R as (_ & _ & Ht & Hf & _ & _ & Hs & Ha).
  exists r, e, p. split; [exact E|]. split; [exact He|]. split; [exact Hp|].
  assert (Himp : in_title e = true -> in_first_paragraph e = true).
  { rewrite Ht, Hf. apply contains_take_mono. lia. }
  split.
  - intros T. specialize (Himp T). rewrite Ha, Hs, T, Himp.
    destruct (in_headings e); cbn; repeat split; lia.
  - intros S1. destruct (in_title e) eqn:T; [|reflexivity].
    specialize (Himp eq_refl). rewrite Hs, Himp in S1.
    destruct (in_headings e); cbn in S1; lia.
Qed.

(** X8: the density wording agrees with the optimal_density flag: a
    keyword whose density is flagged optimal (between 1 and 2.5 per cent)
    is worded 'Optimal range', and one worded 'Too low' or 'Too high' is
    never flagged; in a text without words every keyword has density 0 and
    is worded 'Too low - increase usage'. *)
Theorem keyword_density_wording (content : string) (ks : list string) (K : string) :
  K ∈ ks ->
  exists report e d,
    _generate_keyword_report content ks = Ok report
    /\ keyword_analysis report !! K = Some e
    /\ density_analysis report !! K = Some d
    /\ (optimal_density e = true -> d = "Optimal range")
    /\ (d <> "Optimal range" -> optimal_density e = false)
    /\ (PyStr.word_count content = 0 ->
        (density e == 0)%Q /\ d = "Too low - increase usage").
Proof.
  intros HK.
  destruct (_generate_keyword_report_rounds content ks) as (r & E & _ & D).
  destruct (D K HK) as (e & d & p & He & Hd & _ & R).
  destruct R as (_ & Hden & _ & _ & Ho & Hw & _ & _).
  exists r, e, d. split; [exact E|]. split; [exact He|]. split; [exact Hd|].
  assert (Himp : optimal_density e = true -> d = "Optimal range").
  { rewrite Ho, Hw. clear.
    generalize (match PyStr.word_count content with
                | 0 => 0%Q
                | S _ => fmul (float_of
                                 (Qnat (PyStr.count (PyStr.lower K) (PyStr.lower content))
                                  / Qnat (PyStr.word_count content))) 100
                end).
    intros dens O. apply andb_true_iff in O as [O1 O2].
    apply Qle_bool_iff in O1, O2. unfold Qlt_bool.
    replace (Qle_bool (1 # 2) dens) with true
      by (symmetry; apply Qle_bool_iff; lra).
    cbn [negb].
    destruct (Qle_bool dens 3) eqn:O3; [reflexivity|].
    assert (Qle_bool dens 3 = true) by (apply Qle_bool_iff; lra).
    congruence. }
  split; [exact Himp|]. split.
  - intros Hne. destruct (optimal_density e); [|reflexivity].
    now specialize (Himp eq_refl).
  - intros W. rewrite W in Hden, Hw. split; [now rewrite Hden|exact Hw].
Qed.

End KeywordReportRounds.

Lemma keyword_in_title_placement_witness :
  exists report e p,
    SEOAgent._generate_keyword_report "# AI basics" ["ai"] = Ok report
    /\ SEOAgent.keyword_analysis report !! "ai" = Some e
    /\ SEOAgent.placement_analysis report !! "ai" = Some p
    /\ (SEOAgent.in_title e = true ->
        SEOAgent.in_first_paragraph e = true /\ 2 <= SEOAgent.score p
        /\ SEOAgent.assessment p = "Excellent")
    /\ (SEOAgent.score p = 1 -> SEOAgent.in_title e = false).
Proof.
  apply (keyword_in_title_placement "# AI basics" ["ai"] "ai").
  apply list_elem_of_here.
Defined.

Lemma keyword_density_wording_witness :
  exists report e d,
    SEOAgent._generate_keyword_report "ai tools for all" ["ai"] = Ok report
    /\ SEOAgent.keyword_analysis report !! "ai" = Some e
    /\ SEOAgent.density_analysis report !! "ai" = Some d
    /\ (SEOAgent.optimal_density e = true -> d = "Optimal range")
    /\ (d <> "Optimal range" -> SEOAgent.optimal_density e = false)
    /\ (PyStr.word_count "ai tools for all" = 0 ->
        (SEOAgent.density e == 0)%Q /\ d = "Too low - increase usage").
Proof.
  apply (keyword_density_wording "ai tools for all" ["ai"] "ai").
  apply list_elem_of_here.
Defined.

(** ** SEO stage: the optimizer on arbitrary keywords *)

Section SEOStageAll.
Import SEOAgent.

Lemma length_cons_head_ge (c : ascii) (l : list string) :
  length l <= length (PyStr.cons_head c l).
Proof. destruct l; cbn; lia. Qed.

(** A separator that occurs in the text splits it into at least two parts. *)
Lemma split_contains_two (sep s : string) :
  sep <> "" -> PyStr.contains sep s = true -> 2 <= length (PyStr.split sep s).
Proof.
  intros Hsep. unfold PyStr.split. induction s as [|c s IH]; intros Hc.
  - cbn in Hc. destruct sep; [congruence|discriminate].
  - cbn [PyStr.split_go]. cbn [PyStr.contains] in Hc.
    destruct (String.prefix sep (String c s)) eqn:P.
    + cbn [length].
      pose proof (split_go_nonempty sep (String.length sep - 1) s) as Hne.
      destruct (PyStr.split_go sep (String.length sep - 1) s); [congruence|cbn; lia].
    + cbn [orb] in Hc. specialize (IH Hc).
      pose proof (length_cons_head_ge c (PyStr.split_go sep 0 s)). lia.
Qed.

Lemma py_index_lt {A} (l : list A) (i : nat) :
  i < length l -> exists x, py_index l i = Ok x /\ l !! i = Some x.
Proof.
  intros Hi. unfold py_index.
  destruct (lookup_lt_is_Some_2 l i Hi) as [x ->]. eauto.
Qed.

Lemma retitle_ok (k : string) (ks : list string) (line title : string) :
  exists l, retitle (k :: ks) line title = Ok l.
Proof.
  unfold retitle. cbn [py_index lookup list_lookup mbind result_bind].
  destruct (negb (PyStr.contains (PyStr.lower k) (PyStr.lower title))); [|eauto].
  destruct (PyStr.contains ":" title) eqn:C; [|cbn; eauto].
  pose proof (split_contains_two ":" title ltac:(discriminate) C) as L.
  destruct (PyStr.split ":" title) as [|p0 [|p1 ps]]; cbn in L; try lia.
  cbn [py_index lookup list_lookup mbind result_bind].
  destruct (negb _); cbn; eauto.
Qed.

Lemma title_loop_ok (ks lines : list string) :
  exists l, title_loop ks lines = Ok l /\ length l = length lines.
Proof.
  induction lines as [|line rest (l & IH & L)]; [now exists []|].
  cbn [title_loop]. destruct (PyStr.startswith "# " line).
  - destruct ks as [|k ks]; [cbn; eauto|].
    destruct (retitle_ok k ks line (PyStr.strip (PyStr.drop 2 line))) as [l' ->].
    cbn. eauto.
  - rewrite IH. cbn. eexists. split; [reflexivity|]. cbn. now rewrite L.
Qed.

Lemma headings_loop_ok (ks lines : list string) :
  forall i, exists l, headings_loop ks i lines = Ok l /\ length l = length lines.
Proof.
  induction lines as [|line rest IH]; intros i; [now exists []|].
  cbn [headings_loop].
  destruct (IH i) as (l0 & E0 & L0). destruct (IH (S i)) as (l1 & E1 & L1).
  assert (Hkeep : exists l,
             (rest ← headings_loop ks i rest; Ok (line :: rest)) = Ok l
             /\ length l = length (line :: rest)).
  { rewrite E0. cbn. eexists. split; [reflexivity|]. cbn. now rewrite L0. }
  destruct (_ && _); [|exact Hkeep].
  destruct (i <? length ks) eqn:Hi; [|exact Hkeep].
  apply Nat.ltb_lt in Hi. destruct (py_index_lt ks i Hi) as (k & -> & _).
  cbn [mbind result_bind].
  destruct (negb _); [|exact Hkeep].
  rewrite E1. cbn. eexists. split; [reflexivity|]. cbn. now rewrite L1.
Qed.

Lemma _optimize_title_seo_ok (content : string) (ks : list string) :
  exists s, _optimize_title_seo content ks = Ok s.
Proof.
  unfold _optimize_title_seo.
  destruct (title_loop_ok ks (PyStr.split PyStr.NL content)) as (l & -> & _).
  cbn. eauto.
Qed.

Lemma _optimize_headings_seo_ok (content : string) (ks : list string) :
  exists s, _optimize_headings_seo content ks = Ok s.
Proof.
  unfold _optimize_headings_seo. destruct ks as [|k ks]; [eauto|].
  destruct (headings_loop_ok (k :: ks) (PyStr.split PyStr.NL content) 0)
    as (l & -> & _).
  cbn. eauto.
Qed.

Lemma _generate_faq_section_ok (ks : list string) (requirements : Requirements.t) :
  exists s, _generate_faq_section ks requirements = Ok s.
Proof.
  unfold _generate_faq_section. destruct ks as [|k ks]; cbn; eauto.
Qed.

Lemma fold_left_append_prefix {A} (f : A -> string) (l : list A) (init : string) :
  exists t, fold_left (fun acc x => acc +:+ f x) l init = init +:+ t.
Proof.
  revert init. induction l as [|x l IH]; intros init; cbn [fold_left].
  - exists "". now rewrite append_empty_r.
  - destruct (IH (init +:+ f x)) as [t ->]. exists (f x +:+ t).
    apply append_assoc.
Qed.

(** The Related Topics block carries its heading whatever the keywords. *)
Lemma related_topics_section_heading (ks : list string) :
  PyStr.contains "related topics"
    (PyStr.lower (_generate_related_topics_section ks)) = true.
Proof.
  unfold _generate_related_topics_section.
  destruct (fold_left_append_prefix
              (fun keyword =>
                 "- " +:+ keyword +:+ " Best Practices" +:+ PyStr.NL
                 +:+ "- " +:+ keyword +:+ " Implementation Guide" +:+ PyStr.NL)
              (take 4 ks)
              (("## Related Topics" +:+ PyStr.NL +:+ PyStr.NL)
               +:+ "Explore these related subjects to deepen your understanding:"
               +:+ PyStr.NL +:+ PyStr.NL)) as [t Ht].
  match goal with
  | |- context [fold_left ?f ?l ?i] =>
      replace (fold_left f l i)
        with ((("## Related Topics" +:+ PyStr.NL +:+ PyStr.NL)
               +:+ "Explore these related subjects to deepen your understanding:"
               +:+ PyStr.NL +:+ PyStr.NL) +:+ t)
  end.
  rewrite !lower_app. do 3 apply contains_app_l. reflexivity.
Qed.

Lemma _add_seo_elements_ok (content : string) (ks : list string)
    (requirements : Requirements.t) :
  exists s,
    _add_seo_elements content ks requirements = Ok s
    /\ PyStr.contains "related topics" (PyStr.lower s) = true.
Proof.
  unfold _add_seo_elements.
  assert (Hfaq : exists c,
             (if 2 <=? length ks
              then faq_section ← _generate_faq_section ks requirements;
                   Ok (content +:+ PyStr.NL +:+ PyStr.NL +:+ faq_section)
              else Ok content) = Ok c).
  { destruct (2 <=? length ks); [|eauto].
    destruct (_generate_faq_section_ok ks requirements) as [f ->]. cbn. eauto. }
  destruct Hfaq as [c ->]. cbn [mbind result_bind].
  destruct (PyStr.contains "related topics" (PyStr.lower c)) eqn:C; cbn [negb].
  - eauto.
  - eexists. split; [reflexivity|].
    rewrite !lower_app. do 3 apply contains_app_r.
    apply related_topics_section_heading.
Qed.

Lemma _optimize_content_seo_ok (content : string) (ks : list string)
    (requirements : Requirements.t) :
  exists s,
    _optimize_content_seo content ks requirements = Ok s
    /\ PyStr.contains "related topics" (PyStr.lower s) = true.
Proof.
  unfold _optimize_content_seo.
  destruct (_optimize_title_seo_ok content ks) as [s1 ->]. cbn [mbind result_bind].
  destruct (_optimize_headings_seo_ok s1 ks) as [s2 ->]. cbn [mbind result_bind].
  apply _add_seo_elements_ok.
Qed.

End SEOStageAll.

Section MetaTags.
Import SEOAgent.

Lemma _generate_meta_tags_eq (content : string) (ks : list string)
    (requirements : Requirements.t) :
  exists tags,
    _generate_meta_tags content ks requirements = Ok tags
    /\ title tags = meta_title content ks requirements
    /\ description tags = meta_description content ks
    /\ og_title tags = title tags
    /\ og_description tags = description tags
    /\ keywords tags = match ks with [] => "" | _ => PyStr.join ", " (take 5 ks) end
    /\ canonical tags
       = "https://example.com/"
         +:+ PyStr.join "-" (PyStr.words (PyStr.lower (title tags))).
Proof.
  unfold _generate_meta_tags, meta_title, meta_description.
  set (title0 := if PyStr.is_empty (first_title_line content) then _ else _).
  set (paragraphs := List.filter _ (PyStr.split (PyStr.NL +:+ PyStr.NL) content)).
  assert (Hpk : (match ks with [] => Ok "" | _ => py_index ks 0 end)
                = Ok (hd "" ks)) by (destruct ks; reflexivity).
  assert (Hfp : (match paragraphs with [] => Ok "" | _ => py_index paragraphs 0 end)
                = Ok (hd "" paragraphs)) by (destruct paragraphs; reflexivity).
  rewrite Hpk, Hfp.
  destruct (60 <? String.length title0); [|destruct (String.length title0 <? 30)];
    cbn [mbind result_bind];
    try destruct (negb (PyStr.is_empty (hd "" ks))
                  && negb (PyStr.contains (hd "" ks) title0));
    (eexists; split; [reflexivity|]; repeat split; reflexivity).
Qed.

(** X9: the meta tags are always produced, og:title and og:description
    repeat title and description, and the lengths are bounded by the
    keywords: the title has at most 60 characters unless the primary
    keyword has more than 28, and then at most 32 more than it; the
    description has at most 160 characters unless the first two keywords,
    joined, have more than 18, and then at most 142 more than them. *)
Theorem meta_tags_length_bounds (content : string) (ks : list string)
    (requirements : Requirements.t) :
  exists tags,
    _generate_meta_tags content ks requirements = Ok tags
    /\ og_title tags = title tags
    /\ og_description tags = description tags
    /\ String.length (title tags) <= Nat.max 60 (String.length (hd "" ks) + 32)
    /\ String.length (description tags)
       <= Nat.max 160 (String.length (PyStr.join ", " (take 2 ks)) + 142).
Proof.
  destruct (_generate_meta_tags_eq content ks requirements)
    as (tags & E & Ht & Hd & Hot & Hod & _ & _).
  exists tags. split; [exact E|]. split; [exact Hot|]. split; [exact Hod|].
  rewrite Ht, Hd. unfold meta_title, meta_description. cbv zeta. split.
  - match goal with |- context [60 <? String.length ?t] => set (title0 := t) end.
    destruct (60 <? String.length title0) eqn:L60.
    + rewrite length_append, str_length_take. cbn [String.length]. lia.
    + apply Nat.ltb_ge in L60.
      destruct (String.length title0 <? 30) eqn:L30; [|lia].
      apply Nat.ltb_lt in L30.
      destruct (_ && _); [|lia].
      rewrite !length_append. cbn [String.length]. lia.
  - match goal with |- context [160 <? String.length ?t] => set (d0 := t) end.
    destruct (160 <? String.length d0) eqn:L160.
    + rewrite length_append, str_length_take. cbn [String.length]. lia.
    + apply Nat.ltb_ge in L160.
      destruct (String.length d0 <? 120) eqn:L120; [|lia].
      apply Nat.ltb_lt in L120.
      destruct ks as [|k ks']; [lia|].
      rewrite !length_append. cbn [String.length]. lia.
Qed.

End MetaTags.

Section OptimizeContent.
Import SEOAgent.

Lemma is_space_lower_char (c : ascii) :
  PyStr.is_space (PyStr.lower_char c) = PyStr.is_space c.
Proof. destruct c as [[] [] [] [] [] [] [] []]; reflexivity. Qed.

Lemma word_count_cons_head (c : ascii) (l : list string) :
  0 < length (PyStr.cons_head c l).
Proof. destruct l; cbn; lia. Qed.

(** A text with a character that is not blank has a word. *)
Lemma word_count_pos (s : string) :
  PyStr.existsb_char (fun c => negb (PyStr.is_space c)) s = true ->
  0 < PyStr.word_count s.
Proof.
  unfold PyStr.word_count. induction s as [|c s IH]; [discriminate|].
  cbn [PyStr.existsb_char PyStr.words].
  destruct (PyStr.is_space c); cbn [negb orb].
  - exact IH.
  - intros _. destruct (PyStr.starts_blank s); [cbn; lia|].
    apply word_count_cons_head.
Qed.

Lemma existsb_char_lower (s : string) :
  PyStr.existsb_char (fun c => negb (PyStr.is_space c)) (PyStr.lower s)
  = PyStr.existsb_char (fun c => negb (PyStr.is_space c)) s.
Proof.
  induction s as [|c s IH]; [reflexivity|].
  cbn [PyStr.lower PyStr.existsb_char]. now rewrite is_space_lower_char, IH.
Qed.

Lemma contains_nonblank (a : ascii) (n s : string) :
  PyStr.is_space a = false ->
  PyStr.contains (String a n) s = true ->
  PyStr.existsb_char (fun c => negb (PyStr.is_space c)) s = true.
Proof.
  intros Ha. induction s as [|c s IH]; [discriminate|].
  cbn [PyStr.contains PyStr.existsb_char String.prefix].
  intros H. apply orb_true_iff in H as [H|H].
  - destruct (ascii_dec a c) as [<-|]; [|discriminate]. now rewrite Ha.
  - rewrite (IH H). apply orb_true_r.
Qed.

Context `{RegexLib}.

(** What [optimize_content] returns, stage by stage. *)
Lemma optimize_content_stages (content : string) (requirements : Requirements.t) :
  let ks := default [] (Requirements.seo_keywords requirements) in
  exists out optimized,
    optimize_content content requirements = Ok out
    /\ _optimize_content_seo content ks requirements = Ok optimized
    /\ original_content out = content
    /\ optimized_content out = optimized
    /\ target_keywords out = ks
    /\ _generate_meta_tags optimized ks requirements = Ok (meta_tags out)
    /\ _generate_keyword_report optimized ks = Ok (keyword_report out)
    /\ seo_analysis out = SEOAnalyzerTool.run content ks
    /\ final_seo_analysis out = SEOAnalyzerTool.run optimized ks
    /\ optimizations_made out = _track_seo_optimizations content optimized ks
    /\ seo_score out = SEOAnalyzerTool.get_seo_score (SEOAnalyzerTool.run optimized ks)
    /\ recommendations out
       = SEOAnalyzerTool.get_recommendations (SEOAnalyzerTool.run optimized ks).
Proof.
  intros ks. unfold optimize_content. fold ks.
  destruct (_optimize_content_seo_ok content ks requirements) as (opt & E & _).
  rewrite E. cbn [mbind result_bind].
  destruct (_generate_meta_tags_eq opt ks requirements) as (tags & Et & _).
  rewrite Et. cbn [mbind result_bind].
  destruct (_generate_keyword_report_rounds opt ks) as (report & Er & _).
  rewrite Er. cbn [mbind result_bind].
  eexists _, opt. split; [reflexivity|].
  cbn [original_content optimized_content target_keywords meta_tags keyword_report
       seo_analysis final_seo_analysis optimizations_made seo_score recommendations].
  repeat split; assumption.
Qed.

Lemma optimize_content_words (content : string) (requirements : Requirements.t) :
  exists out a,
    optimize_content content requirements = Ok out
    /\ target_keywords out = default [] (Requirements.seo_keywords requirements)
    /\ PyStr.contains "related topics" (PyStr.lower (optimized_content out)) = true
    /\ 0 < PyStr.word_count (optimized_content out)
    /\ final_seo_analysis out = SEOAnalyzerTool.Analysis a
    /\ seo_score out = SEOAnalyzerTool.seo_score a
    /\ (0 <= seo_score out <= 100)%Z.
Proof.
  destruct (optimize_content_stages content requirements)
    as (out & opt & E & Eo & _ & Hopt & Hks & _ & _ & _ & Hfin & _ & Hscore & _).
  destruct (_optimize_content_seo_ok content
              (default [] (Requirements.seo_keywords requirements)) requirements)
    as (opt' & Eo' & Hrel).
  rewrite Eo in Eo'. injection Eo' as <-.
  destruct (analyzer_run_total opt (default [] (Requirements.seo_keywords requirements)))
    as (a & ka & Hrun & _ & _).
  exists out, a. split; [exact E|]. split; [exact Hks|].
  rewrite Hopt. split; [exact Hrel|]. split.
  - apply word_count_pos. rewrite <- existsb_char_lower.
    now apply (contains_nonblank "r" "elated topics").
  - rewrite Hfin, Hscore, Hrun. cbn [SEOAnalyzerTool.get_seo_score].
    split; [reflexivity|]. split; [reflexivity|].
    destruct (analyzer_run_inv _ _ _ Hrun) as (_ & _ & _ & -> & _).
    apply Z_clamp_bounds.
Qed.

(** X10: optimize_content returns for every content, every requirements
    mapping and every keyword list, without a division or indexing error;
    the optimized content always contains 'related topics' (letter case
    ignored), so it is never without words; its final analysis is never
    the error dictionary, and the seo_score lies between 0 and 100. *)
Theorem optimize_content_returns (content : string) (requirements : Requirements.t) :
  exists out a,
    optimize_content content requirements = Ok out
    /\ target_keywords out = default [] (Requirements.seo_keywords requirements)
    /\ PyStr.contains "related topics" (PyStr.lower (optimized_content out)) = true
    /\ 0 < PyStr.word_count (optimized_content out)
    /\ final_seo_analysis out = SEOAnalyzerTool.Analysis a
    /\ seo_score out = SEOAnalyzerTool.seo_score a
    /\ (0 <= seo_score out <= 100)%Z.
Proof. exact (optimize_content_words content requirements). Qed.

(** X11: in the output of optimize_content the two keyword statistics
    agree: for every target keyword, the density the final analysis
    records is the density of the keyword report, which is the float
    round((occurrences / words) * 100, 2) for the case-insensitive
    occurrences and the words of the optimized content. *)
Theorem optimize_content_densities_agree
    (content : string) (requirements : Requirements.t) (K : string) :
  K ∈ default [] (Requirements.seo_keywords requirements) ->
  exists out a e,
    optimize_content content requirements = Ok out
    /\ final_seo_analysis out = SEOAnalyzerTool.Analysis a
    /\ keyword_analysis (keyword_report out) !! K = Some e
    /\ SEOAnalyzerTool.keyword_density (SEOAnalyzerTool.keyword_analysis a) !! K
       = Some (density e)
    /\ density e = recorded_density (optimized_content out) K.
Proof.
  intros HK.
  destruct (optimize_content_words content requirements)
    as (out & a & E & Hks & _ & Hwc & Hfin & _ & _).
  destruct (optimize_content_stages content requirements)
    as (out' & opt & E' & _ & _ & Hopt & _ & _ & Hrep & _ & Hfin' & _).
  rewrite E in E'. injection E' as <-.
  rewrite Hopt in Hwc.
  destruct (_generate_keyword_report_rounds opt
              (default [] (Requirements.seo_keywords requirements)))
    as (report & Er & _ & D).
  rewrite Hrep in Er. injection Er as <-.
  destruct (D K HK) as (e & d & p & He & _ & _ & R).
  destruct R as (_ & Hden & _).
  exists out, a, e. split; [exact E|]. split; [exact Hfin|]. split; [exact He|].
  assert (Hrec : density e = recorded_density opt K).
  { rewrite Hden. unfold recorded_density.
    destruct (PyStr.word_count opt); [lia|reflexivity]. }
  rewrite Hopt. split; [|exact Hrec].
  rewrite Hfin' in Hfin.
  destruct (analyzer_run_inv _ _ _ Hfin) as (Hka & _).
  unfold SEOAnalyzerTool._analyze_keywords in Hka.
  destruct (analyze_fold_words opt
              (default [] (Requirements.seo_keywords requirements)) Hwc
              {| SEOAnalyzerTool.target_keywords :=
                   default [] (Requirements.seo_keywords requirements);
                 SEOAnalyzerTool.keyword_density := ∅;
                 SEOAnalyzerTool.keyword_positions := ∅;
                 SEOAnalyzerTool.missing_keywords := [] |})
    as (ka' & Hka' & Dd).
  rewrite Hka in Hka'. injection Hka' as <-.
  rewrite Dd, decide_True by exact HK. now rewrite Hrec.
Qed.

End OptimizeContent.

Lemma optimize_content_densities_agree_witness :
  exists out a e,
    @SEOAgent.optimize_content no_match "Hello world."
      (with_seo_keywords ["hello"] Requirements.empty) = Ok out
    /\ SEOAgent.final_seo_analysis out = SEOAnalyzerTool.Analysis a
    /\ SEOAgent.keyword_analysis (SEOAgent.keyword_report out) !! "hello" = Some e
    /\ SEOAnalyzerTool.keyword_density (SEOAnalyzerTool.keyword_analysis a) !! "hello"
       = Some (SEOAgent.density e)
    /\ SEOAgent.density e = recorded_density (SEOAgent.optimized_content out) "hello".
Proof.
  apply (@optimize_content_densities_agree no_match "Hello world."
           (with_seo_keywords ["hello"] Requirements.empty) "hello").
  apply list_elem_of_here.
Defined.

(** For 21 words k and 109 words x with the keyword k, the optimized
    content has 160 words and 23 occurrences, and both statistics hold the
    float 14.37. *)
Example optimize_content_density_sample :
  exists out a e,
    @SEOAgent.optimize_content no_match keyword_sample
      (with_seo_keywords ["k"] Requirements.empty) = Ok out
    /\ PyStr.word_count (SEOAgent.optimized_content out) = 160
    /\ PyStr.count "k" (PyStr.lower (SEOAgent.optimized_content out)) = 23
    /\ SEOAgent.final_seo_analysis out = SEOAnalyzerTool.Analysis a
    /\ SEOAnalyzerTool.keyword_density (SEOAnalyzerTool.keyword_analysis a) !! "k"
       = Some (float_of (1437 # 100))
    /\ SEOAgent.keyword_analysis (SEOAgent.keyword_report out) !! "k" = Some e
    /\ SEOAgent.density e = float_of (1437 # 100).
Proof.
  eexists _, _, _. split; [vm_compute; reflexivity|].
  repeat split; vm_compute; reflexivity.
Qed.

Section OptimizationLog.
Import SEOAgent.

Lemma track_related_topics (original optimized : string) (ks : list string) :
  PyStr.contains "related topics" (PyStr.lower optimized) = true ->
  _track_seo_optimizations original optimized ks <> []
  /\ (In "Added related topics section for internal linking"
         (_track_seo_optimizations original optimized ks)
      <-> PyStr.contains "related topics" (PyStr.lower original) = false).
Proof.
  intros Hopt. unfold _track_seo_optimizations. rewrite Hopt. cbn [andb].
  set (line := "Added related topics section for internal linking").
  set (F := flat_map _ ks).
  set (A := if count_headings2 original <? count_headings2 optimized
            then ["Added SEO-optimized headings"] else []).
  set (B := if PyStr.contains "frequently asked questions" (PyStr.lower optimized)
               && negb (PyStr.contains "frequently asked questions"
                          (PyStr.lower original))
            then ["Added FAQ section for long-tail keyword targeting"] else []).
  set (D := if String.eqb (first_title_line original) (first_title_line optimized)
            then [] else ["Optimized title for primary keyword"]).
  assert (HF : ~ In line F).
  { subst F. rewrite in_flat_map. intros (k & _ & Hin).
    destruct (PyStr.count _ _ <? PyStr.count _ _); [|exact Hin].
    destruct Hin as [Heq|[]]. unfold append in Heq. discriminate. }
  assert (HA : ~ In line A).
  { subst A. destruct (count_headings2 original <? count_headings2 optimized);
      [intros [Heq|[]]; discriminate|intros []]. }
  assert (HB : ~ In line B).
  { subst B. destruct (_ && _); [intros [Heq|[]]; discriminate|intros []]. }
  assert (HD : ~ In line D).
  { subst D. destruct (String.eqb _ _); [intros []|intros [Heq|[]]; discriminate]. }
  destruct (PyStr.contains "related topics" (PyStr.lower original)); cbn [negb].
  - split.
    + destruct (F ++ A ++ B ++ [] ++ D); discriminate.
    + split; [|discriminate]. intros Hin.
      assert (Hin' : In line (F ++ A ++ B ++ [] ++ D)).
      { destruct (F ++ A ++ B ++ [] ++ D); [|exact Hin].
        destruct Hin as [Heq|[]]. discriminate. }
      rewrite !in_app_iff in Hin'. cbn in Hin'. tauto.
  - assert (Hin : In line (F ++ A ++ B ++ [line] ++ D)).
    { rewrite !in_app_iff. cbn. tauto. }
    destruct (F ++ A ++ B ++ [line] ++ D) as [|x l]; [destruct Hin|].
    split; [discriminate|]. split; [reflexivity|]. intros _. exact Hin.
Qed.

Context `{RegexLib}.

(** X12: the list of optimizations made is never empty, and it names the
    related-topics section exactly when the original content had none:
    'Added related topics section for internal linking' is listed if and
    only if 'related topics' does not occur in the original, letter case
    ignored. *)
Theorem optimizations_name_related_topics
    (content : string) (requirements : Requirements.t) :
  exists out,
    optimize_content content requirements = Ok out
    /\ optimizations_made out <> []
    /\ (In "Added related topics section for internal linking" (optimizations_made out)
        <-> PyStr.contains "related topics" (PyStr.lower content) = false).
Proof.
  destruct (optimize_content_stages content requirements)
    as (out & opt & E & Eo & _ & _ & _ & _ & _ & _ & _ & Hmade & _).
  destruct (_optimize_content_seo_ok content
              (default [] (Requirements.seo_keywords requirements)) requirements)
    as (opt' & Eo' & Hrel).
  rewrite Eo in Eo'. injection Eo' as <-.
  exists out. split; [exact E|]. rewrite Hmade.
  now apply track_related_topics.
Qed.

End OptimizationLog.

(** ** The coordinator's final report *)

Section FinalReportVerdict.
Import CoordinatorAgent FinalReport.

(** The validation, spelled out: only the word-count check decides. *)
Lemma validate_content_quality_verdict (content : string) (p : plan) :
  exists v,
    validate_content_quality content p = Ok v
    /\ validation_passed v = word_count_in_range content p
    /\ overall_score v = (if word_count_in_range content p then 100 else 50)%Q
    /\ (improvements_needed v = [] <-> word_count_in_range content p = true)
    /\ length (improvements_needed v) <= 1.
Proof.
  unfold validate_content_quality, word_count_in_range.
  set (min_words := default 900%Q _).
  set (max_words := default 1100%Q _).
  destruct (Qle_bool min_words (Qnat (PyStr.word_count content))
            && Qle_bool (Qnat (PyStr.word_count content)) max_words) eqn:Hwc;
    cbn -[PyStr.contains PyStr.last PyStr.lower PyStr.take PyStr.split
          PyStr.isupper existsb Qlt_bool Qminus fsub];
    eexists; (split; [reflexivity|]);
    cbn [validation_passed overall_score improvements_needed].
  - repeat split; cbn; lia.
  - split; [reflexivity|]. split; [reflexivity|].
    destruct (Qlt_bool _ _); cbn -[fsub]; (split; [split; discriminate|lia]).
Qed.

Variable writer_output : Type.

(** X13: the final report is always produced and its verdict follows the
    word-count check alone: the last recommendation is the 'Excellent
    content quality' line when the word count is within the plan's range
    and the 'needs significant improvements' line otherwise (the 'Good
    content quality' line is never the verdict), and the next steps start
    with publication or with the quality issues accordingly. *)
Theorem final_report_verdict (content : string) (p : plan)
    (outputs : agent_outputs writer_output) :
  exists report,
    create_final_report content p outputs = Ok report
    /\ validation_passed (quality_assessment report) = word_count_in_range content p
    /\ List.last (recommendations report) (Line "")
       = Line (if word_count_in_range content p
               then "Excellent content quality! Consider this for featured placement."
               else "Content needs significant improvements before publication.")
    /\ hd "" (next_steps report)
       = (if word_count_in_range content p
          then "Content is ready for publication"
          else "Address quality issues identified in validation")
    /\ length (next_steps report) = 4.
Proof.
  unfold create_final_report.
  destruct (validate_content_quality_verdict content p) as (v & -> & Hp & Hs & _).
  cbn [mbind result_bind]. eexists. split; [reflexivity|].
  cbn [quality_assessment recommendations next_steps].
  split; [exact Hp|].
  unfold _generate_final_recommendations, _suggest_next_steps.
  rewrite Hs, Hp.
  destruct (word_count_in_range content p).
  - replace (Qle_bool 90 100) with true by reflexivity.
    rewrite last_last. repeat split; reflexivity.
  - replace (Qle_bool 90 50) with false by reflexivity.
    replace (Qle_bool 80 50) with false by reflexivity.
    rewrite last_last. repeat split; reflexivity.
Qed.

(** X14: when the agent outputs hold no SEO output, the report's
    seo_summary is 0 and its recommendations are the verdict alone when
    the word count is within the plan's range, and the one improvement
    sentence (too short or too long) followed by the verdict otherwise. *)
Theorem final_report_without_seo (content : string) (p : plan)
    (outputs : agent_outputs writer_output) :
  seo outputs = None ->
  exists report,
    create_final_report content p outputs = Ok report
    /\ seo_summary report = 0%Z
    /\ recommendations report
       = map Improve (improvements_needed (quality_assessment report))
         ++ [List.last (recommendations report) (Line "")]
    /\ length (recommendations report)
       = (if word_count_in_range content p then 1 else 2).
Proof.
  intros Hseo. unfold create_final_report.
  destruct (validate_content_quality_verdict content p)
    as (v & -> & Hp & Hs & Hi & Hl).
  cbn [mbind result_bind]. eexists. split; [reflexivity|].
  cbn [seo_summary recommendations quality_assessment]. rewrite Hseo.
  split; [reflexivity|].
  unfold _generate_final_recommendations. rewrite Hseo.
  assert (Hlen : length (improvements_needed v)
                 = if word_count_in_range content p then 0 else 1).
  { destruct (word_count_in_range content p).
    - now rewrite (proj2 Hi eq_refl).
    - destruct (improvements_needed v) as [|i l] eqn:E.
      + destruct Hi as [Hi _]. now specialize (Hi eq_refl).
      + cbn in Hl |- *. lia. }
  destruct (Qle_bool 90 _); [|destruct (Qle_bool 80 _)];
    rewrite last_last, length_app, length_map, Hlen;
    (split; [reflexivity|]);
    destruct (word_count_in_range content p); reflexivity.
Qed.

End FinalReportVerdict.

Lemma final_report_without_seo_witness :
  exists report,
    FinalReport.create_final_report (writer_output := unit) "alpha beta gamma" band_3
      {| FinalReport.research := None; FinalReport.writing := None;
         FinalReport.editing := None; FinalReport.seo := None |} = Ok report
    /\ FinalReport.seo_summary report = 0%Z
    /\ FinalReport.recommendations report
       = map FinalReport.Improve
             (CoordinatorAgent.improvements_needed (FinalReport.quality_assessment report))
         ++ [List.last (FinalReport.recommendations report) (FinalReport.Line "")]
    /\ length (FinalReport.recommendations report)
       = (if word_count_in_range "alpha beta gamma" band_3 then 1 else 2).
Proof.
  apply (final_report_without_seo unit "alpha beta gamma" band_3
           {| FinalReport.research := None; FinalReport.writing := None;
              FinalReport.editing := None; FinalReport.seo := None |}).
  reflexivity.
Defined.

(** ** The SEO summary *)

Section SEOSummaryScores.
Import SEOSummary.

Lemma round_to_1_bounds (q : Q) (N : Z) :
  (0 <= q <= inject_Z N)%Q -> (0 <= round_to 1 q <= inject_Z N)%Q.
Proof.
  intros [H0 HN]. unfold round_to.
  change (inject_Z (10 ^ Z.of_nat 1)) with 10%Q.
  change (Pos.pow 10 (Pos.of_nat 1)) with 10%positive.
  assert (Hlo : (0 <= round_half_even (q * 10))%Z)
    by (apply round_half_even_nonneg; lra).
  assert (Hhi : (round_half_even (q * 10) <= N * 10)%Z).
  { apply round_half_even_le_int. rewrite inject_Z_mult.
    change (inject_Z 10) with 10%Q. nra. }
  unfold Qle. cbn. lia.
Qed.

Lemma keyword_score_bounds (e : SEOAgent.keyword_entry) :
  (0 <= keyword_score e <= 100)%Z.
Proof.
  unfold keyword_score, points.
  destruct (SEOAgent.optimal_density e), (SEOAgent.in_title e),
           (SEOAgent.in_headings e), (SEOAgent.in_first_paragraph e); lia.
Qed.

Lemma Zsum_bounds (l : list Z) :
  Forall (fun z => 0 <= z <= 100)%Z l ->
  (0 <= Zsum l <= 100 * Z.of_nat (length l))%Z.
Proof.
  induction 1 as [|z l Hz Hl IH]; cbn [Zsum fold_right length]; [lia|].
  unfold Zsum in IH. lia.
Qed.

Lemma _assess_keyword_optimization_ok (report : SEOAgent.keyword_report_t) :
  exists a,
    _assess_keyword_optimization report = Ok a
    /\ (0 <= score a <= 100)%Q
    /\ (assessment a = "No keywords analyzed"
        <-> SEOAgent.keyword_analysis report = ∅).
Proof.
  unfold _assess_keyword_optimization.
  destruct (map_to_list (SEOAgent.keyword_analysis report)) as [|x l] eqn:E.
  - eexists. split; [reflexivity|]. cbn [score assessment]. split; [lra|].
    split; [intros _; now apply map_to_list_empty_iff|reflexivity].
  - set (scores := map (fun entry => keyword_score entry.2) (x :: l)).
    assert (Hb : Forall (fun z => 0 <= z <= 100)%Z scores).
    { subst scores. apply Forall_map, Forall_forall. intros y _.
      apply keyword_score_bounds. }
    apply Zsum_bounds in Hb.
    assert (Hlen : length scores = S (length l)) by (subst scores; cbn; now rewrite length_map).
    destruct scores as [|s0 ss] eqn:Es; [discriminate|].
    rewrite <- Es in *. rewrite Hlen in *. rewrite py_truediv_S.
    cbn [mbind result_bind]. eexists. split; [reflexivity|].
    cbn [score assessment]. split.
    + assert (Hpos : (0 < Qnat (S (length l)))%Q)
        by (unfold Qnat, Qlt; cbn; lia).
      assert (Havg : (0 <= inject_Z (Zsum scores) / Qnat (S (length l))
                      <= inject_Z 100)%Q).
      { split.
        - apply Qle_shift_div_l; [exact Hpos|].
          rewrite Qmult_0_l. change 0%Q with (inject_Z 0).
          rewrite <- Zle_Qle. lia.
        - apply Qle_shift_div_r; [exact Hpos|].
          unfold Qnat. rewrite <- inject_Z_mult. rewrite <- Zle_Qle. lia. }
      destruct Havg as [A0 A1].
      pose proof (float_of_nonneg _ A0) as F0.
      pose proof (float_of_le_Z _ 100 ltac:(lia) A1) as F1.
      set (avg := float_of _) in *.
      pose proof (round_to_1_bounds avg 100 (conj F0 F1)) as [R0 R1].
      unfold float_round1. split; [now apply float_of_nonneg|].
      change 100%Q with (inject_Z 100). apply float_of_le_Z; [lia|exact R1].
    + split.
      * unfold banded. destruct (Qle_bool 80 _); [discriminate|].
        destruct (Qle_bool 60 _); discriminate.
      * intros Hempty. apply map_to_list_empty_iff in Hempty. congruence.
Qed.

Lemma technical_score_bounds (out : SEOAgent.seo_output) :
  (0 <= score (_assess_technical_seo out) <= 100)%Q.
Proof.
  unfold _assess_technical_seo. cbn [score]. unfold points.
  repeat match goal with |- context [if ?b then _ else _] => destruct b end;
    split; vm_compute; discriminate.
Qed.

Lemma content_score_bounds (analysis : SEOAnalyzerTool.output) :
  (0 <= score (_assess_content_optimization analysis) <= 100)%Q.
Proof.
  unfold _assess_content_optimization. cbn [score]. unfold points.
  destruct analysis as [a|e]; [|split; vm_compute; discriminate].
  repeat match goal with |- context [if ?b then _ else _] => destruct b end;
    split; vm_compute; discriminate.
Qed.

Lemma length_next_steps (analysis : SEOAnalyzerTool.output) :
  3 <= length (_generate_seo_next_steps analysis) <= 5.
Proof.
  unfold _generate_seo_next_steps.
  destruct (80 <=? _)%Z; [|destruct (60 <=? _)%Z];
    rewrite length_take, length_app, length_take; cbn [length]; lia.
Qed.

(** X15: the SEO summary is produced for every SEO output, and each of
    its three sub-scores (keyword optimization, technical SEO, content
    optimization) lies between 0 and 100; the keyword assessment is 'No
    keywords analyzed' exactly when the keyword report has no entry; the
    next steps have three to five entries. *)
Theorem seo_summary_scores (out : SEOAgent.seo_output) :
  exists s,
    create_seo_summary out = Ok s
    /\ (0 <= score (keyword_optimization s) <= 100)%Q
    /\ (0 <= score (technical_seo s) <= 100)%Q
    /\ (0 <= score (content_optimization s) <= 100)%Q
    /\ (assessment (keyword_optimization s) = "No keywords analyzed"
        <-> SEOAgent.keyword_analysis (SEOAgent.keyword_report out) = ∅)
    /\ 3 <= length (next_steps s) <= 5.
Proof.
  unfold create_seo_summary.
  destruct (_assess_keyword_optimization_ok (SEOAgent.keyword_report out))
    as (a & -> & Hb & He).
  cbn [mbind result_bind]. eexists. split; [reflexivity|].
  cbn [keyword_optimization technical_seo content_optimization next_steps].
  split; [exact Hb|]. split; [apply technical_score_bounds|].
  split; [apply content_score_bounds|]. split; [exact He|].
  apply length_next_steps.
Qed.

Context `{RegexLib}.

(** X16: on what optimize_content returns, the technical SEO assessment
    is 'Excellent' exactly when the meta title has 30 to 60 characters and
    the meta description 120 to 160: the Open Graph tags repeat them and
    the canonical URL is never empty, so the technical score is at least
    15 and the two lengths decide whether it reaches 80. *)
Theorem technical_seo_excellent_iff (content : string) (requirements : Requirements.t) :
  exists out,
    SEOAgent.optimize_content content requirements = Ok out
    /\ (15 <= score (_assess_technical_seo out))%Q
    /\ (assessment (_assess_technical_seo out) = "Excellent"
        <-> (30 <= String.length (SEOAgent.title (SEOAgent.meta_tags out)) <= 60
             /\ 120 <= String.length (SEOAgent.description (SEOAgent.meta_tags out))
                <= 160)).
Proof.
  destruct (optimize_content_stages content requirements)
    as (out & opt & E & _ & _ & _ & _ & Htags & _).
  exists out. split; [exact E|].
  destruct (_generate_meta_tags_eq opt
              (default [] (Requirements.seo_keywords requirements)) requirements)
    as (tags & Et & _ & _ & Hot & Hod & _ & Hc).
  rewrite Htags in Et. injection Et as <-.
  unfold _assess_technical_seo. cbn [score assessment]. rewrite Hot, Hod, Hc.
  set (t := SEOAgent.title (SEOAgent.meta_tags out)).
  set (d := SEOAgent.description (SEOAgent.meta_tags out)).
  replace (PyStr.is_empty ("https://example.com/" +:+ _)) with false by reflexivity.
  unfold banded, points. cbn [negb].
  destruct (Nat.leb_spec 30 (String.length t)), (Nat.leb_spec (String.length t) 60),
           (Nat.leb_spec 120 (String.length d)), (Nat.leb_spec (String.length d) 160),
           (PyStr.is_empty (SEOAgent.keywords (SEOAgent.meta_tags out)));
    destruct t as [|c0 t0]; cbn [String.length] in *; try lia;
    destruct d as [|c1 d0]; cbn [String.length] in *; try lia;
    cbn [PyStr.is_empty negb andb];
    (split; [vm_compute; discriminate|]);
    (split; [first [intros _; lia | intros A; vm_compute in A; discriminate]
            | first [intros _; reflexivity | intros; lia]]).
Qed.

End SEOSummaryScores.

(** ** The editing summary *)

Section EditingSummary.
Import EditorAgent EditorSummary.

Lemma Qmin_le_l (a b : Q) : (Qmin a b <= a)%Q.
Proof.
  unfold Qmin. destruct (Qle_bool a b) eqn:E; [lra|].
  destruct (Qlt_le_dec b a) as [Hlt|Hge]; [lra|].
  assert (Qle_bool a b = true) by (now apply Qle_bool_iff). congruence.
Qed.

Lemma length_track_improvements (original improved : string) :
  1 <= length (_track_improvements original improved) <= 4.
Proof.
  unfold _track_improvements.
  destruct (PyStr.word_count improved =? PyStr.word_count original);
    [|destruct (PyStr.word_count improved <? PyStr.word_count original)];
    destruct (PyStr.count "#" original <? PyStr.count "#" improved);
    destruct (length (ContentValidatorTool.nonblank_paragraphs improved)
              =? length (ContentValidatorTool.nonblank_paragraphs original));
    destruct (count_transitions original <? count_transitions improved);
    cbn; lia.
Qed.

Lemma _generate_recommendations_head (content : string) (requirements : Requirements.t) :
  2 <= length (_generate_recommendations content requirements) <= 5
  /\ (In (hd "" (_generate_recommendations content requirements)) publication_lines
      <-> (80 <= _calculate_final_quality_score content)%Z)
  /\ ((_calculate_final_quality_score content < 70)%Z ->
      hd "" (_generate_recommendations content requirements)
      = "Content requires significant improvements").
Proof.
  unfold _generate_recommendations, _calculate_final_quality_score, publication_lines.
  set (q := ContentValidatorTool.get_quality_score (ContentValidatorTool.run content)).
  destruct (Z.leb_spec 90 q); [|destruct (Z.leb_spec 80 q); [|destruct (Z.leb_spec 70 q)]];
    (split; [rewrite length_take, !length_app; cbn [length]; lia|]);
    cbn [app take hd In]; (split; [split|]); intros; try lia; try tauto;
    try reflexivity;
    match goal with
    | A : _ \/ _ |- _ => destruct A as [A|[A|[]]]; discriminate
    end.
Qed.

(** X17: in the summary of an editing run, ready_for_publication holds
    exactly when the run's first recommendation is one of the two lines
    that release the content ('Excellent content quality - ready for
    publication' or 'Good content quality - minor improvements may enhance
    impact'); the summary repeats the run's final_quality_score, lists one
    to four key improvements and two to five recommendations, and keeps
    the editor's confidence between 0 and 1. *)
Theorem editing_summary_consistent (content : string) (requirements : Requirements.t) :
  let out := edit_content content requirements in
  let s := create_editing_summary out in
  (ready_for_publication s = true <-> In (hd "" (final_recommendations s)) publication_lines)
  /\ final_quality_score (editing_metrics s) = EditorAgent.final_quality_score out
  /\ 1 <= length (key_improvements s) <= 4
  /\ 2 <= length (final_recommendations s) <= 5
  /\ (0 <= editor_confidence s <= 1)%Q.
Proof.
  intros out s. subst s out.
  unfold create_editing_summary, edit_content.
  cbn [ready_for_publication final_recommendations editing_metrics
       EditorSummary.final_quality_score EditorAgent.final_quality_score
       key_improvements editor_confidence EditorAgent.edited_content
       EditorAgent.original_content EditorAgent.improvements_made
       EditorAgent.recommendations].
  set (improved := _improve_content content requirements _).
  destruct (_generate_recommendations_head improved requirements) as (Hl & Hh & _).
  split.
  { rewrite Hh. unfold _calculate_final_quality_score. apply Z.leb_le. }
  split; [reflexivity|]. split; [apply length_track_improvements|].
  split; [exact Hl|].
  unfold _calculate_editor_confidence.
  apply Qmax_bounds; [lra|apply Qmin_le_l].
Qed.

Lemma _calculate_final_quality_score_range (content : string) :
  (0 <= _calculate_final_quality_score content <= 100)%Z.
Proof.
  unfold _calculate_final_quality_score, ContentValidatorTool.run,
    ContentValidatorTool.validate.
  destruct (_calculate_readability_range content) as (q & -> & _).
  cbn. unfold ContentValidatorTool._calculate_quality_score. lia.
Qed.

(** Clamping to the unit interval keeps an upper bound. *)
Lemma clamp_le (c b : Q) : (c <= b)%Q -> (Qmax 0 (Qmin 1 c) <= Qmax 0 b)%Q.
Proof.
  intros H. unfold Qmax, Qmin.
  destruct (Qle_bool 1 c) eqn:E1;
    [destruct (Qle_bool 1 0) eqn:E2|destruct (Qle_bool c 0) eqn:E2];
    destruct (Qle_bool b 0) eqn:E3;
    repeat match goal with
           | A : Qle_bool _ _ = true |- _ => apply Qle_bool_iff in A
           | A : Qle_bool ?x ?y = false |- _ =>
               assert (y < x)%Q
                 by (apply Qnot_le_lt; intros B; apply Qle_bool_iff in B; congruence);
               clear A
           end; lra.
Qed.

Lemma clamp_lt (c b : Q) : (0 < b)%Q -> (c < b)%Q -> (Qmax 0 (Qmin 1 c) < b)%Q.
Proof.
  intros Hb H. unfold Qmax, Qmin.
  destruct (Qle_bool 1 c) eqn:E1;
    [destruct (Qle_bool 1 0) eqn:E2|destruct (Qle_bool c 0) eqn:E2];
    repeat match goal with
           | A : Qle_bool _ _ = true |- _ => apply Qle_bool_iff in A
           | A : Qle_bool ?x ?y = false |- _ =>
               assert (y < x)%Q
                 by (apply Qnot_le_lt; intros B; apply Qle_bool_iff in B; congruence);
               clear A
           end; lra.
Qed.

(** X18: an editing run whose final quality score is below 70 opens its
    recommendations with 'Content requires significant improvements', and
    the editor's confidence then loses the 0.2 of a critical issue: as a
    float it is at most (score - 10) / 100 up to four rounding units (or
    0), so below 0.6. *)
Theorem low_score_lowers_confidence (content : string) (requirements : Requirements.t) :
  let out := edit_content content requirements in
  (EditorAgent.final_quality_score out < 70)%Z ->
  hd "" (EditorAgent.recommendations out) = "Content requires significant improvements"
  /\ (_calculate_editor_confidence out
      <= Qmax 0 ((inject_Z (EditorAgent.final_quality_score out) - 10) / 100
                 + 4 * unit_roundoff))%Q
  /\ (_calculate_editor_confidence out < (6 # 10))%Q.
Proof.
  intros out Hlow. subst out. unfold edit_content in *.
  cbn [EditorAgent.final_quality_score EditorAgent.recommendations] in *.
  set (improved := _improve_content content requirements _) in *.
  destruct (_generate_recommendations_head improved requirements) as (Hl & _ & Hh).
  specialize (Hh Hlow). split; [exact Hh|].
  unfold _calculate_editor_confidence.
  cbn [EditorAgent.final_quality_score EditorAgent.recommendations
       EditorAgent.improvements_made].
  set (recs := _generate_recommendations improved requirements) in *.
  pose proof (_calculate_final_quality_score_range improved) as [Hs0 _].
  set (score := _calculate_final_quality_score improved) in *.
  assert (Hcrit : (0 <? length
                     (List.filter
                        (fun rec => PyStr.contains "significant" (PyStr.lower rec)
                                    || PyStr.contains "requires" (PyStr.lower rec))
                        recs)) = true).
  { destruct recs as [|r0 rs]; [cbn in Hl; lia|].
    cbn [hd] in Hh. subst r0. reflexivity. }
  rewrite Hcrit.
  assert (Hs : (0 <= inject_Z score <= 69)%Q).
  { change 69%Q with (inject_Z 69). change 0%Q with (inject_Z 0).
    rewrite <- !Zle_Qle. lia. }
  set (q := (inject_Z score / 100)%Q).
  assert (Hq : (q == inject_Z score * (1 # 100))%Q) by (subst q; field).
  assert (Hb : ((inject_Z score - 10) / 100 + 4 * unit_roundoff
                == q - (1 # 10) + 4 * unit_roundoff)%Q) by (subst q; field).
  pose proof (float_of_near_pos q ltac:(lra)) as [C1 C2].
  set (c0 := float_of q) in *.
  destruct float_literals as (_ & _ & -> & -> & _).
  set (t1 := (3602879701896397 # 36028797018963968)%Q).
  set (t2 := (3602879701896397 # 18014398509481984)%Q).
  assert (Hgoal : forall x : Q,
            (0 <= x)%Q ->
            (x <= (q * (1 + unit_roundoff) + t1) * (1 + unit_roundoff))%Q ->
            (fsub x t2 <= q - (1 # 10) + 4 * unit_roundoff)%Q).
  { intros x X0 X1. unfold fsub.
    destruct (Qlt_le_dec (x - t2) 0) as [N|P].
    - pose proof (float_of_near_neg (x - t2) ltac:(lra)) as [_ D].
      subst t1 t2. unfold unit_roundoff in *. lra.
    - pose proof (float_of_near_pos (x - t2) P) as [_ D].
      subst t1 t2. unfold unit_roundoff in *. lra. }
  assert (Hc : forall x : Q,
            (x <= q - (1 # 10) + 4 * unit_roundoff)%Q ->
            (Qmax 0 (Qmin 1 x)
             <= Qmax 0 ((inject_Z score - 10) / 100 + 4 * unit_roundoff)
             /\ Qmax 0 (Qmin 1 x) < (6 # 10))%Q).
  { intros x Hx. split.
    - apply clamp_le. rewrite Hb. exact Hx.
    - apply clamp_lt; [reflexivity|]. unfold unit_roundoff in *. lra. }
  destruct (3 <=? length (_track_improvements content improved)); apply Hc, Hgoal.
  - unfold fadd.
    pose proof (float_of_near_pos (c0 + t1)
                  ltac:(subst t1; unfold unit_roundoff in *; lra)) as [D _].
    subst t1. unfold unit_roundoff in *. lra.
  - unfold fadd.
    pose proof (float_of_near_pos (c0 + t1)
                  ltac:(subst t1; unfold unit_roundoff in *; lra)) as [_ D].
    subst t1. unfold unit_roundoff in *. lra.
  - unfold unit_roundoff in *. lra.
  - subst t1. unfold unit_roundoff in *. lra.
Qed.

End EditingSummary.

Lemma low_score_lowers_confidence_witness :
  (EditorAgent.final_quality_score
     (EditorAgent.edit_content "Hello world." Requirements.empty) < 70)%Z
  /\ hd "" (EditorAgent.recommendations
              (EditorAgent.edit_content "Hello world." Requirements.empty))
     = "Content requires significant improvements"
  /\ (EditorSummary._calculate_editor_confidence
        (EditorAgent.edit_content "Hello world." Requirements.empty)
      <= Qmax 0 ((inject_Z (EditorAgent.final_quality_score
                              (EditorAgent.edit_content "Hello world." Requirements.empty))
                  - 10) / 100
                 + 4 * unit_roundoff))%Q
  /\ (EditorSummary._calculate_editor_confidence
        (EditorAgent.edit_content "Hello world." Requirements.empty) < (6 # 10))%Q.
Proof.
  split; [vm_compute; reflexivity|].
  apply (low_score_lowers_confidence "Hello world." Requirements.empty).
  vm_compute. reflexivity.
Defined.

(** ** Research: queries, sources and the credibility wording *)

Section ResearchShape.
Import ResearchAgent.

(** X19: the research queries are the six base queries followed by at
    most two more: with a target audience, the two audience queries and
    never a keyword query; without one, a query for each of the first two
    SEO keywords, never for the third. *)
Theorem research_queries_shape (topic : string) (requirements : Requirements.t) :
  let audience := default "" (Requirements.target_audience requirements) in
  let keywords := default [] (Requirements.seo_keywords requirements) in
  _generate_research_queries topic requirements
  = base_queries topic
    ++ (if PyStr.is_empty audience
        then map (fun keyword => keyword +:+ " " +:+ topic) (take 2 keywords)
        else [ topic +:+ " for " +:+ audience;
               topic +:+ " " +:+ audience +:+ " case studies" ]).
Proof.
  intros audience keywords. unfold _generate_research_queries.
  fold audience keywords. fold (base_queries topic).
  destruct (PyStr.is_empty audience).
  - rewrite take_app_ge by (cbn; lia). cbn [base_queries length Nat.sub].
    f_equal. rewrite <- fmap_take. rewrite take_take. reflexivity.
  - rewrite take_app_le by (rewrite length_app; cbn; lia).
    rewrite take_ge by (rewrite length_app; cbn; lia). reflexivity.
Qed.

Lemma insert_desc_sorted (x : source) (l : list source) :
  StronglySorted ranks_before l ->
  StronglySorted ranks_before
    (insert_desc (fun a b => Qlt_bool (credibility a) (credibility b)) x l).
Proof.
  induction 1 as [|y l Hl IH Hy]; cbn [insert_desc].
  - repeat constructor.
  - destruct (Qlt_bool (credibility y) (credibility x)) eqn:E.
    + assert (Hyx : (credibility y <= credibility x)%Q).
      { unfold Qlt_bool in E. apply negb_true_iff in E.
        destruct (Qlt_le_dec (credibility y) (credibility x)) as [Hlt|Hge]; [lra|].
        assert (Qle_bool (credibility x) (credibility y) = true)
          by (now apply Qle_bool_iff). congruence. }
      constructor; [now constructor|].
      constructor; [exact Hyx|].
      eapply Forall_impl; [exact Hy|].
      intros z Hz. unfold ranks_before in *. lra.
    + assert (Hxy : (credibility x <= credibility y)%Q).
      { unfold Qlt_bool in E. apply negb_false_iff in E. now apply Qle_bool_iff. }
      constructor; [exact IH|].
      apply Forall_insert_desc; [exact Hxy|exact Hy].
Qed.

Lemma insert_desc_perm {A} (lt : A -> A -> bool) (x : A) (l : list A) :
  insert_desc lt x l ≡ₚ x :: l.
Proof.
  induction l as [|y l IH]; cbn [insert_desc]; [reflexivity|].
  destruct (lt y x); [reflexivity|].
  rewrite IH. apply perm_swap.
Qed.

Lemma sort_desc_acc
    (l acc : list source) :
  StronglySorted ranks_before acc ->
  let sorted :=
    fold_left (fun acc x =>
                 insert_desc (fun a b => Qlt_bool (credibility a) (credibility b)) x acc)
              l acc in
  StronglySorted ranks_before sorted /\ sorted ≡ₚ l ++ acc.
Proof.
  revert acc. induction l as [|x l IH]; intros acc Hacc; cbn [fold_left app].
  - split; [exact Hacc|reflexivity].
  - destruct (IH _ (insert_desc_sorted x acc Hacc)) as [Hs Hp].
    split; [exact Hs|].
    cbv zeta in Hp. rewrite Hp, insert_desc_perm.
    symmetry. apply Permutation_middle.
Qed.

Lemma _compile_sources_sorted (search_results : list search_result) :
  StronglySorted ranks_before (_compile_sources search_results)
  /\ _compile_sources search_results
     ≡ₚ map source_of (take 5 (valid_results search_results))
  /\ length (_compile_sources search_results)
     = Nat.min 5 (length (valid_results search_results)).
Proof.
  unfold _compile_sources, sort_desc. fold source_of.
  change (map (fun r => source_of r)) with (map source_of).
  destruct (sort_desc_acc (map source_of (take 5 (valid_results search_results))) [])
    as [Hs Hp]; [constructor|].
  cbv zeta in Hp. rewrite app_nil_r in Hp.
  split; [exact Hs|]. split; [exact Hp|].
  rewrite Hp, length_map, length_take. reflexivity.
Qed.

(** X20: source_references is sorted by credibility, highest first, and
    holds exactly the records made of the first five valid search
    results, each once: at most five sources, none from an error-tagged
    result. *)
Theorem sources_sorted_by_credibility (search_results : list search_result) :
  StronglySorted ranks_before (_compile_sources search_results)
  /\ _compile_sources search_results
     ≡ₚ map source_of (take 5 (valid_results search_results))
  /\ length (_compile_sources search_results)
     = Nat.min 5 (length (valid_results search_results)).
Proof. exact (_compile_sources_sorted search_results). Qed.

Lemma fold_Qplus_upper (l : list Q) (a : Q) :
  Forall (fun q => q <= 1)%Q l ->
  (fold_left Qplus l a <= a + Qnat (length l))%Q.
Proof.
  intros HF. revert a. induction HF as [|q l Hq _ IH]; intros a.
  - cbn [fold_left length]. change (Qnat 0) with 0%Q. lra.
  - cbn [fold_left length]. specialize (IH (a + q)%Q).
    assert (E : (Qnat (S (length l)) == Qnat (length l) + 1)%Q).
    { unfold Qnat. rewrite Nat2Z.inj_succ, <- Z.add_1_r, inject_Z_plus. reflexivity. }
    rewrite E. lra.
Qed.

(** The assessment of at least one valid source, with the mean before it
    is rounded. *)
Lemma _assess_source_credibility_mean (search_results : list search_result) :
  valid_results search_results <> [] ->
  exists avg,
    _assess_source_credibility search_results
    = Ok {| overall_score := round2 avg;
            total_sources := Some (length (valid_results search_results));
            high_credibility_sources :=
              Some (length (List.filter (fun score => Qle_bool (8 # 10) score)
                              (map _assess_single_source_credibility
                                 (valid_results search_results))));
            assessment := _get_credibility_assessment avg |}
    /\ (1 # 2 <= avg <= 1)%Q.
Proof.
  intros Hvalid. unfold _assess_source_credibility.
  destruct (valid_results search_results) as [|r rs] eqn:E; [congruence|].
  set (scores := map _assess_single_source_credibility (r :: rs)).
  assert (HF : Forall (fun q => 1 # 2 <= q)%Q scores).
  { apply Forall_forall. intros q Hq. apply list_elem_of_fmap in Hq as (x & -> & _).
    apply single_source_credibility_bounds. }
  assert (HF' : Forall (fun q => q <= 1)%Q scores).
  { apply Forall_forall. intros q Hq. apply list_elem_of_fmap in Hq as (x & -> & _).
    apply single_source_credibility_bounds. }
  assert (Hlen : length scores = S (length rs))
    by (unfold scores; cbn; now rewrite length_map).
  pose proof (fold_Qplus_lower scores 0 HF) as Hlo.
  pose proof (fold_Qplus_upper scores 0 HF') as Hhi.
  fold (Qsum scores) in Hlo, Hhi.
  destruct scores as [|s0 scores'] eqn:Es; [discriminate|].
  rewrite <- Es in *. rewrite Hlen in *. rewrite py_div_S.
  cbn [mbind result_bind]. eexists. split; [reflexivity|].
  assert (Hpos : (0 < Qnat (S (length rs)))%Q) by (unfold Qnat, Qlt; cbn; lia).
  split.
  - apply Qle_shift_div_l; [exact Hpos|]. lra.
  - apply Qle_shift_div_r; [exact Hpos|]. lra.
Qed.

(** X21: with at least one valid source the credibility wording is never
    'Low credibility' (nor 'No valid sources found'): the mean of scores
    that are at least 0.5 passes the 0.4 threshold; the overall score is
    at most 1 and the count of high-credibility sources at most the
    number of sources. *)
Theorem credibility_never_low (search_results : list search_result) :
  valid_results search_results <> [] ->
  exists a n h,
    _assess_source_credibility search_results = Ok a
    /\ assessment a <> "Low credibility - additional authoritative sources needed"
    /\ assessment a <> "No valid sources found"
    /\ (overall_score a <= 1)%Q
    /\ total_sources a = Some n
    /\ high_credibility_sources a = Some h
    /\ h <= n.
Proof.
  intros Hvalid.
  destruct (_assess_source_credibility_mean search_results Hvalid)
    as (avg & -> & Hlo & Hhi).
  eexists _, _, _. split; [reflexivity|].
  cbn [assessment overall_score total_sources high_credibility_sources].
  assert (H4 : Qle_bool (4 # 10) avg = true) by (apply Qle_bool_iff; lra).
  split; [|split].
  - unfold _get_credibility_assessment. rewrite H4.
    destruct (Qle_bool (8 # 10) avg); [discriminate|].
    destruct (Qle_bool (6 # 10) avg); discriminate.
  - unfold _get_credibility_assessment. rewrite H4.
    destruct (Qle_bool (8 # 10) avg); [discriminate|].
    destruct (Qle_bool (6 # 10) avg); discriminate.
  - split.
    + change 1%Q with (inject_Z 1). apply round2_bounds.
      change (inject_Z 1) with 1%Q. lra.
    + split; [reflexivity|]. split; [reflexivity|].
      etransitivity; [apply filter_length_le|]. now rewrite length_map.
Qed.

End ResearchShape.

Lemma credibility_never_low_witness :
  exists a n h,
    ResearchAgent._assess_source_credibility [one_source] = Ok a
    /\ ResearchAgent.assessment a
       <> "Low credibility - additional authoritative sources needed"
    /\ ResearchAgent.assessment a <> "No valid sources found"
    /\ (ResearchAgent.overall_score a <= 1)%Q
    /\ ResearchAgent.total_sources a = Some n
    /\ ResearchAgent.high_credibility_sources a = Some h
    /\ h <= n.
Proof.
  apply (credibility_never_low [one_source]).
  vm_compute. discriminate.
Defined.

Section ResearchRun.
Import ResearchAgent.

Lemma facts_of_sentences_long (sentences facts : list string) :
  Forall (fun f => 50 < String.length f) facts ->
  Forall (fun f => 50 < String.length f) (facts_of_sentences sentences facts).
Proof.
  revert facts. induction sentences as [|s rest IH]; intros facts HF; [exact HF|].
  cbn [facts_of_sentences].
  destruct (50 <? String.length (PyStr.strip s)) eqn:L; cbn [andb]; [|now apply IH].
  destruct (existsb _ fact_indicators); [|now apply IH].
  assert (HF' : Forall (fun f => 50 < String.length f) (facts ++ [PyStr.strip s])).
  { apply Forall_app. split; [exact HF|].
    constructor; [now apply Nat.ltb_lt|constructor]. }
  destruct (5 <=? length (facts ++ [PyStr.strip s])); [exact HF'|now apply IH].
Qed.

Lemma _extract_key_facts_long (search_results : list search_result) :
  Forall (fun f => 50 < String.length f) (_extract_key_facts search_results).
Proof.
  unfold _extract_key_facts. apply Forall_take.
  assert (Hacc : Forall (fun f => 50 < String.length f) (@nil string)) by constructor.
  revert Hacc. generalize (@nil string) as acc.
  induction (take 5 (valid_results search_results)) as [|r rs IH];
    intros acc Hacc; cbn [fold_left]; [exact Hacc|].
  apply IH. now apply facts_of_sentences_long.
Qed.

Lemma _assess_source_credibility_ok (search_results : list search_result) :
  exists a, _assess_source_credibility search_results = Ok a.
Proof.
  destruct (valid_results search_results) as [|r rs] eqn:E.
  - unfold _assess_source_credibility. rewrite E. cbn. eauto.
  - destruct (_assess_source_credibility_mean search_results) as (avg & -> & _);
      [congruence|eauto].
Qed.

Context `{RegexLib} `{SearchTool}.

(** X22: conduct_research returns for every topic and requirements
    mapping, whatever the search tool answers: at most five key facts,
    each longer than 50 characters, at most three statistics, three
    quotes and five sources, seven or eight outline headings and at most
    three research gaps. *)
Theorem conduct_research_returns (topic : string) (requirements : Requirements.t) :
  exists out,
    conduct_research topic requirements = Ok out
    /\ ResearchAgent.topic out = topic
    /\ length (key_facts out) <= 5
    /\ Forall (fun f => 50 < String.length f) (key_facts out)
    /\ length (statistics out) <= 3
    /\ length (expert_quotes out) <= 3
    /\ length (source_references out) <= 5
    /\ 7 <= length (content_outline out) <= 8
    /\ length (research_gaps out) <= 3.
Proof.
  unfold conduct_research.
  set (search_results := flat_map _ _).
  destruct (_assess_source_credibility_ok search_results) as [a ->].
  cbn [mbind result_bind]. eexists. split; [reflexivity|].
  cbn [ResearchAgent.topic key_facts statistics expert_quotes source_references
       content_outline research_gaps].
  split; [reflexivity|].
  split; [unfold _extract_key_facts; rewrite length_take; lia|].
  split; [apply _extract_key_facts_long|].
  split; [unfold _extract_statistics; rewrite length_take; lia|].
  split; [unfold _extract_quotes; rewrite length_take; lia|].
  split.
  { destruct (_compile_sources_sorted search_results) as (_ & _ & ->). lia. }
  split.
  - unfold _suggest_content_outline.
    destruct (in_list _ ["guide"; "tutorial"; "how-to"]);
      [|destruct (in_list _ ["review"; "comparison"])]; cbn [length]; lia.
  - unfold _identify_research_gaps.
    destruct (length (valid_results search_results) <? 3), (existsb _ recent_indicators),
             (negb _ && negb _); cbn [length app]; lia.
Qed.

End ResearchRun.

(** ** Editing: the end of the edited text *)

Section LastCharacter.

Lemma last_char_None (s : string) : last_char s = None <-> s = "".
Proof.
  split; [|now intros ->].
  destruct s as [|c s]; [reflexivity|]. cbn.
  destruct (last_char s); discriminate.
Qed.

Lemma last_char_cons (c : ascii) (s : string) :
  s <> "" -> last_char (String c s) = last_char s.
Proof.
  intros Hs. cbn. destruct (last_char s) eqn:E; [reflexivity|].
  apply last_char_None in E. congruence.
Qed.

Lemma last_char_app (a b : string) :
  last_char (a +:+ b)
  = match last_char b with None => last_char a | r => r end.
Proof.
  induction a as [|c a IH].
  - change ("" +:+ b) with b. cbn. destruct (last_char b); reflexivity.
  - rewrite append_cons. cbn [last_char]. rewrite IH.
    destruct (last_char b); [reflexivity|].
    reflexivity.
Qed.

Lemma last_char_all (p : ascii -> bool) (s : string) (c : ascii) :
  all_chars p s = true -> last_char s = Some c -> p c = true.
Proof.
  induction s as [|a s IH]; [discriminate|]. cbn [all_chars last_char].
  intros H. apply andb_true_iff in H as [Ha Hs].
  destruct (last_char s) as [b|].
  - intros [= <-]. now apply IH.
  - now intros [= <-].
Qed.

Lemma all_chars_app (p : ascii -> bool) (a b : string) :
  all_chars p (a +:+ b) = all_chars p a && all_chars p b.
Proof.
  induction a as [|c a IH]; [reflexivity|].
  rewrite append_cons. cbn [all_chars]. now rewrite IH, andb_assoc.
Qed.

Lemma all_chars_lstrip_by (p f : ascii -> bool) (s : string) :
  all_chars p s = true -> all_chars p (PyStr.lstrip_by f s) = true.
Proof.
  induction s as [|c s IH]; [reflexivity|]. cbn [PyStr.lstrip_by].
  intros H. destruct (f c); [|exact H].
  cbn in H. apply andb_true_iff in H as [_ H]. now apply IH.
Qed.

Lemma all_chars_rstrip_by (p f : ascii -> bool) (s : string) :
  all_chars p s = true -> all_chars p (PyStr.rstrip_by f s) = true.
Proof.
  induction s as [|c s IH]; [reflexivity|]. cbn [PyStr.rstrip_by all_chars].
  intros H. apply andb_true_iff in H as [Hc Hs]. specialize (IH Hs).
  destruct (PyStr.rstrip_by f s).
  - destruct (f c); [reflexivity|]. cbn. now rewrite Hc.
  - cbn [all_chars] in *. now rewrite Hc.
Qed.

Lemma all_chars_strip (p : ascii -> bool) (s : string) :
  all_chars p s = true -> all_chars p (PyStr.strip s) = true.
Proof.
  intros H. unfold PyStr.strip.
  now apply all_chars_rstrip_by, all_chars_lstrip_by.
Qed.

Lemma all_chars_cons_head (p : ascii -> bool) (c : ascii) (l : list string) :
  p c = true -> Forall (fun w => all_chars p w = true) l ->
  Forall (fun w => all_chars p w = true) (PyStr.cons_head c l).
Proof.
  intros Hc [|w ws Hw Hws]; cbn [PyStr.cons_head].
  - constructor; [cbn; now rewrite Hc|constructor].
  - constructor; [cbn; now rewrite Hc|exact Hws].
Qed.

(** The pieces of a split are made of characters of the text. *)
Lemma all_chars_split_go (p : ascii -> bool) (sep : string) (s : string) :
  all_chars p s = true ->
  forall k, Forall (fun w => all_chars p w = true) (PyStr.split_go sep k s).
Proof.
  induction s as [|c s IH]; intros H k; cbn [PyStr.split_go].
  - repeat constructor.
  - cbn in H. apply andb_true_iff in H as [Hc Hs].
    destruct k as [|k]; [|now apply IH].
    destruct (String.prefix sep (String c s)).
    + constructor; [reflexivity|now apply IH].
    + apply all_chars_cons_head; [exact Hc|now apply IH].
Qed.

(** The pieces of a split at one character do not contain it. *)
Lemma split_char_free (d : ascii) (s : string) :
  Forall (fun w => all_chars (fun c => negb (Ascii.eqb c d)) w = true)
         (PyStr.split (String d "") s).
Proof.
  unfold PyStr.split. induction s as [|c s IH]; cbn [PyStr.split_go].
  - repeat constructor.
  - change (String.length (String d "") - 1) with 0.
    cbn [String.prefix]. destruct (ascii_dec d c) as [->|Hne].
    + rewrite prefix_empty. constructor; [reflexivity|exact IH].
    + apply all_chars_cons_head; [|exact IH].
      apply negb_true_iff, Ascii.eqb_neq. congruence.
Qed.

Lemma last_char_rstrip_by (f : ascii -> bool) (s : string) (c : ascii) :
  last_char (PyStr.rstrip_by f s) = Some c -> f c = false.
Proof.
  induction s as [|a s IH]; [discriminate|]. cbn [PyStr.rstrip_by].
  destruct (PyStr.rstrip_by f s) as [|b r] eqn:E.
  - destruct (f a) eqn:Fa; [discriminate|]. cbn. now intros [= <-].
  - rewrite last_char_cons by discriminate. exact IH.
Qed.

Lemma rstrip_by_empty (f : ascii -> bool) (s : string) :
  PyStr.rstrip_by f s = "" -> all_chars f s = true.
Proof.
  induction s as [|a s IH]; [reflexivity|]. cbn [PyStr.rstrip_by all_chars].
  destruct (PyStr.rstrip_by f s); [|discriminate].
  destruct (f a); [|discriminate]. intros _. now rewrite IH.
Qed.

Lemma all_chars_lstrip_by_inv (f : ascii -> bool) (s : string) :
  all_chars f (PyStr.lstrip_by f s) = true -> all_chars f s = true.
Proof.
  induction s as [|a s IH]; [reflexivity|]. cbn [PyStr.lstrip_by].
  destruct (f a) eqn:Fa; [|intros H; exact H].
  intros H. cbn. now rewrite Fa, IH.
Qed.

(** A text that strips to nothing is made of blanks. *)
Lemma strip_empty (s : string) :
  PyStr.strip s = "" -> all_chars PyStr.is_space s = true.
Proof.
  unfold PyStr.strip. intros H.
  now apply all_chars_lstrip_by_inv, rstrip_by_empty.
Qed.

Lemma last_char_strip (s : string) (c : ascii) :
  last_char (PyStr.strip s) = Some c -> PyStr.is_space c = false.
Proof. apply last_char_rstrip_by. Qed.

Lemma last_char_lstrip_by (f : ascii -> bool) (s : string) (c : ascii) :
  last_char s = Some c -> f c = false -> last_char (PyStr.lstrip_by f s) = Some c.
Proof.
  intros Hl Hc. induction s as [|a s IH]; [discriminate|].
  cbn [PyStr.lstrip_by]. destruct (f a) eqn:Fa; [|exact Hl].
  apply IH. cbn in Hl. destruct (last_char s); [exact Hl|].
  injection Hl as ->. congruence.
Qed.

Lemma rstrip_by_fixed (f : ascii -> bool) (s : string) (c : ascii) :
  last_char s = Some c -> f c = false -> PyStr.rstrip_by f s = s.
Proof.
  intros Hl Hc. induction s as [|a s IH]; [reflexivity|].
  cbn [PyStr.rstrip_by]. cbn in Hl.
  destruct (last_char s) as [b|] eqn:E.
  - rewrite (IH Hl). destruct s; [discriminate|reflexivity].
  - apply last_char_None in E. subst s. injection Hl as ->.
    cbn. now rewrite Hc.
Qed.

(** Stripping does not change the last character of a text that is empty
    or ends with a character other than a blank. *)
Lemma last_char_strip_tidy (s : string) :
  tidy_end s = true -> last_char (PyStr.strip s) = last_char s.
Proof.
  unfold tidy_end. destruct (last_char s) as [c|] eqn:E.
  - intros T. apply andb_true_iff in T as [Hs _]. apply negb_true_iff in Hs.
    unfold PyStr.strip.
    pose proof (last_char_lstrip_by PyStr.is_space s c E Hs) as Hl.
    now rewrite (rstrip_by_fixed _ _ c Hl Hs).
  - intros _. apply last_char_None in E. now subst s.
Qed.

End LastCharacter.

Section EditedEnd.
Import EditorAgent.

Lemma ends_tidy_tidy_end (x : string) : ends_tidy x -> tidy_end x = true.
Proof. intros (c & E & T). unfold tidy_end. now rewrite E. Qed.

Lemma last_char_join (sep : string) (l : list string) (x : string) :
  last l = Some x -> x <> "" -> last_char (PyStr.join sep l) = last_char x.
Proof.
  induction l as [|a l IH]; [discriminate|].
  destruct l as [|b l].
  - cbn. now intros [= ->].
  - rewrite last_cons_cons. intros Hl Hx.
    change (PyStr.join sep (a :: b :: l))
      with (a +:+ sep +:+ PyStr.join sep (b :: l)).
    rewrite !last_char_app, (IH Hl Hx).
    destruct (last_char x) eqn:E; [reflexivity|].
    apply last_char_None in E. congruence.
Qed.

Lemma join_last_piece_tidy (sep : string) (l : list string) :
  last_piece_tidy l -> tidy_end (PyStr.join sep l) = true.
Proof.
  unfold last_piece_tidy. destruct (last l) as [x|] eqn:E.
  - intros (c & Hc & T). unfold tidy_end.
    rewrite (last_char_join sep l x E), Hc; [exact T|].
    intros ->. discriminate.
  - intros _. apply last_None in E. now subst l.
Qed.

Lemma last_piece_tidy_flat_map {A} (f : A -> list string) (l : list A) :
  (forall x, last_piece_tidy (f x)) -> last_piece_tidy (flat_map f l).
Proof.
  intros Hf. induction l as [|x l IH]; cbn [flat_map]; [exact I|].
  unfold last_piece_tidy in *. rewrite last_app.
  destruct (last (flat_map f l)); [exact IH|apply Hf].
Qed.

(** The second part of a stripped sentence split in two at a separator
    that ends with a blank is not blank. *)
Lemma second_part_not_blank (sep sentence p0 p1 : string) (b : ascii) :
  sep <> "" ->
  last_char sep = Some b -> PyStr.is_space b = true ->
  (forall c, last_char sentence = Some c -> PyStr.is_space c = false) ->
  PyStr.split sep sentence = [p0; p1] ->
  PyStr.strip p1 <> "".
Proof.
  intros Hsep Hb Hsp Hlast Hsplit Hempty.
  pose proof (join_split sep sentence Hsep) as Hj. rewrite Hsplit in Hj.
  change (PyStr.join sep [p0; p1]) with (p0 +:+ sep +:+ p1) in Hj.
  apply strip_empty in Hempty.
  assert (Hl : exists c, last_char sentence = Some c /\ PyStr.is_space c = true).
  { rewrite <- Hj, !last_char_app, Hb.
    destruct (last_char p1) as [c|] eqn:E.
    - exists c. split; [reflexivity|]. now apply (last_char_all _ p1).
    - now exists b. }
  destruct Hl as (c & Hc & Hs). specialize (Hlast c Hc). congruence.
Qed.

Lemma ends_tidy_stripped_part (sentence part : string) (l : list string) (sep : string) :
  all_chars not_dot sentence = true ->
  PyStr.split sep sentence = l -> part ∈ l ->
  PyStr.strip part <> "" ->
  ends_tidy (PyStr.strip part).
Proof.
  intros Hd Hs Hin Hne.
  destruct (last_char (PyStr.strip part)) as [c|] eqn:E.
  - exists c. split; [exact E|]. unfold tidy_char.
    rewrite (last_char_strip _ _ E). cbn [negb andb].
    apply (last_char_all not_dot (PyStr.strip part)); [|exact E].
    apply all_chars_strip.
    pose proof (all_chars_split_go not_dot sep sentence Hd 0) as HF.
    rewrite Forall_forall in HF. apply HF. unfold PyStr.split in Hs.
    now rewrite Hs.
  - apply last_char_None in E. congruence.
Qed.

Lemma split_long_sentence_tidy (piece : string) :
  all_chars not_dot piece = true ->
  last_piece_tidy (split_long_sentence piece).
Proof.
  intros Hd. unfold split_long_sentence.
  set (sentence := PyStr.strip piece).
  assert (Hds : all_chars not_dot sentence = true) by now apply all_chars_strip.
  assert (Hlast : forall c, last_char sentence = Some c -> PyStr.is_space c = false)
    by (intros c; apply last_char_strip).
  assert (Hkept : last_piece_tidy
                    (if PyStr.is_empty sentence then [] else [sentence])).
  { destruct (PyStr.is_empty sentence) eqn:Em; [exact I|].
    unfold last_piece_tidy. cbn [last].
    destruct (last_char sentence) as [c|] eqn:E.
    - exists c. split; [exact E|]. unfold tidy_char.
      rewrite (Hlast c eq_refl). cbn [negb andb].
      now apply (last_char_all not_dot sentence).
    - apply last_char_None in E. rewrite E in Em. discriminate. }
  destruct (30 <? PyStr.word_count sentence); [|exact Hkept].
  destruct (PyStr.contains " and " sentence).
  - destruct (PyStr.split " and " sentence) as [|p0 [|p1 [|p2 ps]]] eqn:Es;
      try exact Hkept.
    unfold last_piece_tidy. cbn [last].
    apply (ends_tidy_stripped_part sentence p1 [p0; p1] " and " Hds Es).
    + apply list_elem_of_further, list_elem_of_here.
    + apply (second_part_not_blank " and " sentence p0 p1 " "%char);
        [discriminate|reflexivity|reflexivity|exact Hlast|exact Es].
  - destruct (PyStr.contains " which " sentence); [|exact Hkept].
    destruct (PyStr.split " which " sentence) as [|p0 [|p1 [|p2 ps]]] eqn:Es;
      try exact Hkept.
    unfold last_piece_tidy. cbn [last].
    assert (Hne : PyStr.strip p1 <> "").
    { apply (second_part_not_blank " which " sentence p0 p1 " "%char);
        [discriminate|reflexivity|reflexivity|exact Hlast|exact Es]. }
    destruct (ends_tidy_stripped_part sentence p1 [p0; p1] " which " Hds Es)
      as (c & Hc & T); [apply list_elem_of_further, list_elem_of_here|exact Hne|].
    exists c. split; [|exact T]. now rewrite last_char_app, Hc.
Qed.

(** After [_improve_readability] the text is empty or ends with a
    character that is neither blank nor a full stop. *)
Lemma _improve_readability_tidy (content : string) :
  tidy_end (_improve_readability content) = true.
Proof.
  unfold _improve_readability. apply join_last_piece_tidy.
  pose proof (split_char_free "." content) as HF.
  induction HF as [|piece l Hp _ IH]; cbn [flat_map]; [exact I|].
  unfold last_piece_tidy in *. rewrite last_app.
  destruct (last (flat_map split_long_sentence l)); [exact IH|].
  now apply split_long_sentence_tidy.
Qed.

Lemma replace_nonempty (old new s : string) :
  new <> "" -> s <> "" -> PyStr.replace old new s <> "".
Proof.
  intros Hnew Hs. destruct s as [|c s]; [congruence|].
  unfold PyStr.replace. cbn [PyStr.replace_go].
  destruct (String.prefix old (String c s)); [|discriminate].
  destruct new; [congruence|discriminate].
Qed.

(** A replacement keeps the end tidy when the new text is not empty and
    ends tidily whenever the old one does. *)
Lemma replace_tidy_end (old new s : string) :
  old <> "" -> new <> "" ->
  (tidy_end old = true -> tidy_end new = true) ->
  tidy_end s = true -> tidy_end (PyStr.replace old new s) = true.
Proof.
  intros Hold Hnew Himp.
  remember (String.length s) as n eqn:Hn. revert s Hn.
  induction n as [n IH] using lt_wf_ind. intros s Hn Hs.
  destruct s as [|c s]; [reflexivity|].
  unfold PyStr.replace. cbn [PyStr.replace_go].
  destruct (String.prefix old (String c s)) eqn:P.
  - rewrite replace_go_skip.
    pose proof (prefix_app_drop _ _ P) as Hsplit.
    destruct old as [|o old']; [congruence|].
    cbn [String.length Nat.sub PyStr.drop] in Hsplit |- *. rewrite Nat.sub_0_r.
    set (rest := PyStr.drop (String.length old') s) in *.
    fold (PyStr.replace (String o old') new rest).
    destruct rest as [|r rest'] eqn:Er.
    + cbn [PyStr.replace PyStr.replace_go]. rewrite append_empty_r.
      apply Himp. rewrite append_empty_r in Hsplit. now rewrite <- Hsplit.
    + rewrite <- Er in *.
      assert (Hrest : rest <> "") by (rewrite Er; discriminate).
      assert (Ht : tidy_end rest = true).
      { unfold tidy_end in Hs |- *. rewrite Hsplit, last_char_app in Hs.
        destruct (last_char rest) eqn:E; [exact Hs|].
        apply last_char_None in E. congruence. }
      assert (Hlen : String.length rest < n).
      { subst n. unfold rest. cbn [String.length].
        pose proof (str_length_drop_le (String.length old') s). lia. }
      pose proof (IH _ Hlen rest eq_refl Ht) as IHr.
      pose proof (replace_nonempty (String o old') new rest Hnew Hrest) as Hne.
      unfold tidy_end in IHr |- *. rewrite last_char_app.
      destruct (last_char (PyStr.replace (String o old') new rest)) eqn:E;
        [exact IHr|].
      apply last_char_None in E. congruence.
  - fold (PyStr.replace old new s).
    destruct s as [|c' s'] eqn:Es; [exact Hs|]. rewrite <- Es in *.
    assert (Hne : s <> "") by (rewrite Es; discriminate).
    assert (Ht : tidy_end s = true).
    { unfold tidy_end in Hs |- *. now rewrite last_char_cons in Hs. }
    assert (Hlen : String.length s < n) by (subst n; cbn; lia).
    pose proof (IH _ Hlen s eq_refl Ht) as IHs.
    pose proof (replace_nonempty old new s Hnew Hne) as Hne'.
    unfold tidy_end in IHs |- *. now rewrite last_char_cons.
Qed.

Lemma case_variant_refl (s : string) : case_variant s s = true.
Proof.
  induction s as [|c s IH]; [reflexivity|]. cbn. now rewrite Ascii.eqb_refl, IH.
Qed.

Lemma case_variant_app (a b c d : string) :
  case_variant a b = true -> case_variant c d = true ->
  case_variant (a +:+ c) (b +:+ d) = true.
Proof.
  revert b. induction a as [|x a IH]; intros [|y b] H1 H2; try discriminate.
  - exact H2.
  - rewrite !append_cons. cbn [case_variant] in *.
    apply andb_true_iff in H1 as [Hx Ha]. rewrite Hx. now apply IH.
Qed.

Lemma case_variant_capitalize_first (s : string) :
  case_variant (PyStr.capitalize_first s) s = true.
Proof.
  destruct s as [|c s]; [reflexivity|]. cbn [PyStr.capitalize_first].
  destruct (PyStr.is_lower_char c) eqn:L.
  - cbn [case_variant]. rewrite L, Ascii.eqb_refl, orb_true_r.
    apply case_variant_refl.
  - apply case_variant_refl.
Qed.

Lemma case_variant_join (sep : string) (l : list string) :
  case_variant (PyStr.join sep (map PyStr.capitalize_first l)) (PyStr.join sep l) = true.
Proof.
  induction l as [|a l IH]; [reflexivity|].
  destruct l as [|b l].
  - apply case_variant_capitalize_first.
  - change (case_variant
              (PyStr.capitalize_first a +:+ sep
               +:+ PyStr.join sep (map PyStr.capitalize_first (b :: l)))
              (a +:+ sep +:+ PyStr.join sep (b :: l)) = true).
    apply case_variant_app; [apply case_variant_capitalize_first|].
    apply case_variant_app; [apply case_variant_refl|exact IH].
Qed.

Lemma tidy_char_upper (c : ascii) :
  PyStr.is_lower_char c = true -> tidy_char (PyStr.upper_char c) = true.
Proof. destruct c as [[] [] [] [] [] [] [] []]; (discriminate || reflexivity). Qed.

Lemma case_variant_tidy_end (t s : string) :
  case_variant t s = true -> tidy_end s = true -> tidy_end t = true.
Proof.
  unfold tidy_end. revert s. induction t as [|a t IH]; intros [|b s] H; try discriminate.
  - intros _. reflexivity.
  - cbn [case_variant] in H. apply andb_true_iff in H as [Hab Hts].
    cbn [last_char]. specialize (IH s Hts).
    destruct t as [|a' t']; destruct s as [|b' s']; try discriminate.
    + cbn. apply orb_true_iff in Hab as [E|E].
      * apply Ascii.eqb_eq in E. now subst.
      * apply andb_true_iff in E as [L E]. apply Ascii.eqb_eq in E. subst a.
        intros _. now apply tidy_char_upper.
    + destruct (last_char (String a' t')) eqn:E1;
        [|apply last_char_None in E1; discriminate].
      destruct (last_char (String b' s')) eqn:E2;
        [|apply last_char_None in E2; discriminate].
      exact IH.
Qed.

Lemma _fix_common_issues_tidy (content : string) (q : ContentValidatorTool.output) :
  tidy_end content = true -> tidy_end (_fix_common_issues content q) = true.
Proof.
  intros H. unfold _fix_common_issues.
  set (fixed := replace_all grammar_fixes content).
  assert (Hf : tidy_end fixed = true).
  { subst fixed. unfold replace_all, grammar_fixes. cbn [fold_left].
    repeat (apply replace_tidy_end;
            [discriminate|discriminate|first [reflexivity|discriminate]|]).
    exact H. }
  apply (case_variant_tidy_end _ fixed); [|exact Hf].
  rewrite <- (join_split ". " fixed) at 2 by discriminate.
  apply case_variant_join.
Qed.

(** The edited text is empty or ends with a character that is neither
    blank nor a full stop. *)
Lemma _improve_content_tidy (content : string) (requirements : Requirements.t)
    (q : ContentValidatorTool.output) :
  tidy_end (_improve_content content requirements q) = true.
Proof.
  unfold _improve_content. apply _fix_common_issues_tidy, _improve_readability_tidy.
Qed.

End EditedEnd.

Section PlainText.
Import EditorAgent.

Lemma all_chars_join (p : ascii -> bool) (sep : string) (l : list string) :
  all_chars p sep = true ->
  Forall (fun w => all_chars p w = true) l ->
  all_chars p (PyStr.join sep l) = true.
Proof.
  intros Hsep. induction 1 as [|a l Ha Hl IH]; [reflexivity|].
  destruct l as [|b l]; [exact Ha|].
  change (PyStr.join sep (a :: b :: l)) with (a +:+ sep +:+ PyStr.join sep (b :: l)).
  now rewrite !all_chars_app, Ha, Hsep, IH.
Qed.

Lemma all_chars_lstrip_char (p : ascii -> bool) (c : ascii) (s : string) :
  all_chars p s = true -> all_chars p (PyStr.lstrip_char c s) = true.
Proof.
  induction s as [|a s IH]; [reflexivity|]. cbn [PyStr.lstrip_char].
  intros H. destruct (Ascii.eqb c a); [|exact H].
  cbn in H. apply andb_true_iff in H as [_ H]. now apply IH.
Qed.

Lemma all_chars_repeat_char (p : ascii -> bool) (c : ascii) (n : nat) :
  p c = true -> all_chars p (PyStr.repeat_char c n) = true.
Proof. intros Hc. induction n as [|n IH]; cbn; [reflexivity|now rewrite Hc]. Qed.

Lemma all_chars_replace_go (p : ascii -> bool) (old new s : string) :
  all_chars p new = true -> all_chars p s = true ->
  forall k, all_chars p (PyStr.replace_go old new k s) = true.
Proof.
  intros Hnew. induction s as [|c s IH]; intros H k; [reflexivity|].
  cbn in H. apply andb_true_iff in H as [Hc Hs].
  cbn [PyStr.replace_go]. destruct k as [|k]; [|now apply IH].
  destruct (String.prefix old (String c s)).
  - rewrite all_chars_app, Hnew. now apply IH.
  - cbn. rewrite Hc. now apply IH.
Qed.

Lemma all_chars_replace_all (p : ascii -> bool) (table : list (string * string))
    (s : string) :
  Forall (fun entry => all_chars p entry.2 = true) table ->
  all_chars p s = true -> all_chars p (replace_all table s) = true.
Proof.
  unfold replace_all. intros HF. revert s.
  induction HF as [|[old new] table Hn _ IH]; intros s Hs; [exact Hs|].
  cbn [fold_left]. apply IH. unfold PyStr.replace.
  now apply all_chars_replace_go.
Qed.

Lemma plain_char_upper (c : ascii) :
  PyStr.is_lower_char c = true -> plain_char (PyStr.upper_char c) = true.
Proof. destruct c as [[] [] [] [] [] [] [] []]; (discriminate || reflexivity). Qed.

Lemma plain_capitalize_first (s : string) : plain s -> plain (PyStr.capitalize_first s).
Proof.
  unfold plain. destruct s as [|c s]; [reflexivity|]. cbn [PyStr.capitalize_first].
  destruct (PyStr.is_lower_char c) eqn:L; [|tauto].
  cbn. intros H. apply andb_true_iff in H as [_ H].
  now rewrite plain_char_upper, H.
Qed.

Lemma plain_split (sep s : string) : plain s -> Forall plain (PyStr.split sep s).
Proof. intros H. now apply all_chars_split_go. Qed.

Lemma plain_join (sep : string) (l : list string) :
  plain sep -> Forall plain l -> plain (PyStr.join sep l).
Proof. apply all_chars_join. Qed.

Lemma plain_strip (s : string) : plain s -> plain (PyStr.strip s).
Proof. apply all_chars_strip. Qed.

Lemma plain_app (a b : string) : plain a -> plain b -> plain (a +:+ b).
Proof. unfold plain. intros Ha Hb. now rewrite all_chars_app, Ha, Hb. Qed.

Lemma _fix_paragraph_spacing_plain (content : string) :
  plain content -> plain (_fix_paragraph_spacing content).
Proof.
  intros H. unfold _fix_paragraph_spacing.
  apply plain_join; [reflexivity|].
  apply Forall_flat_map.
  eapply Forall_impl; [apply (plain_split (PyStr.NL +:+ PyStr.NL) content H)|].
  intros para Hp. cbv beta zeta.
  destruct (PyStr.is_empty (PyStr.strip para)); [constructor|].
  constructor; [|constructor].
  apply plain_join; [reflexivity|]. now apply plain_split, plain_strip.
Qed.

Lemma _improve_structure_plain (content : string) (requirements : Requirements.t) :
  plain content -> plain (_improve_structure content requirements).
Proof.
  intros H. unfold _improve_structure. apply _fix_paragraph_spacing_plain.
  apply plain_join; [reflexivity|].
  apply Forall_map.
  eapply Forall_impl; [apply (plain_split PyStr.NL content H)|].
  intros line Hl. cbv beta zeta.
  destruct (PyStr.startswith "#" line); [|exact Hl].
  apply plain_app; [now apply all_chars_repeat_char|].
  apply plain_app; [reflexivity|].
  apply plain_strip. unfold plain. apply all_chars_lstrip_char.
  now apply plain_strip.
Qed.

Lemma _improve_clarity_plain (content : string) :
  plain content -> plain (_improve_clarity content).
Proof.
  intros H. unfold _improve_clarity, plain. apply all_chars_replace_all; [|exact H].
  unfold clarity_improvements. repeat constructor.
Qed.

Lemma add_transition_plain (previous para : string) :
  plain para -> plain (add_transition previous para).
Proof.
  intros H. unfold add_transition.
  repeat match goal with
         | |- plain (if ?b then _ else _) => destruct b
         end;
    first [exact H | apply plain_app; [reflexivity|exact H]].
Qed.

Lemma flow_loop_plain (paragraphs : list string) :
  Forall plain paragraphs ->
  forall previous, Forall plain (flow_loop previous paragraphs).
Proof.
  induction 1 as [|para rest Hp _ IH]; intros previous; cbn [flow_loop];
    [constructor|].
  constructor; [|apply IH].
  destruct previous; [now apply add_transition_plain|exact Hp].
Qed.

Lemma _improve_flow_plain (content : string) :
  plain content -> plain (_improve_flow content).
Proof.
  intros H. unfold _improve_flow. apply plain_join; [reflexivity|].
  now apply flow_loop_plain, plain_split.
Qed.

Lemma split_long_sentence_plain (piece : string) :
  plain piece -> Forall plain (split_long_sentence piece).
Proof.
  intros H. unfold split_long_sentence.
  set (sentence := PyStr.strip piece).
  assert (Hs : plain sentence) by now apply plain_strip.
  assert (Hkept : Forall plain (if PyStr.is_empty sentence then [] else [sentence])).
  { destruct (PyStr.is_empty sentence); repeat constructor. exact Hs. }
  destruct (30 <? PyStr.word_count sentence); [|exact Hkept].
  destruct (PyStr.contains " and " sentence).
  - pose proof (plain_split " and " sentence Hs) as HF.
    destruct (PyStr.split " and " sentence) as [|p0 [|p1 [|p2 ps]]];
      try exact Hkept.
    inversion HF as [|? ? H0 HF']; subst. inversion HF' as [|? ? H1 _]; subst.
    repeat constructor; now apply plain_strip.
  - destruct (PyStr.contains " which " sentence); [|exact Hkept].
    pose proof (plain_split " which " sentence Hs) as HF.
    destruct (PyStr.split " which " sentence) as [|p0 [|p1 [|p2 ps]]];
      try exact Hkept.
    inversion HF as [|? ? H0 HF']; subst. inversion HF' as [|? ? H1 _]; subst.
    repeat constructor; [now apply plain_strip|].
    apply plain_app; [reflexivity|now apply plain_strip].
Qed.

Lemma _improve_readability_plain (content : string) :
  plain content -> plain (_improve_readability content).
Proof.
  intros H. unfold _improve_readability. apply plain_join; [reflexivity|].
  apply Forall_flat_map.
  eapply Forall_impl; [apply (plain_split "." content H)|].
  intros piece. apply split_long_sentence_plain.
Qed.

Lemma _fix_common_issues_plain (content : string) (q : ContentValidatorTool.output) :
  plain content -> plain (_fix_common_issues content q).
Proof.
  intros H. unfold _fix_common_issues. apply plain_join; [reflexivity|].
  apply Forall_map.
  eapply Forall_impl; [apply plain_split|].
  - unfold plain. apply all_chars_replace_all; [|exact H].
    unfold grammar_fixes. repeat constructor.
  - intros s. apply plain_capitalize_first.
Qed.

(** Editing brings in no exclamation mark and no question mark. *)
Lemma _improve_content_plain (content : string) (requirements : Requirements.t)
    (q : ContentValidatorTool.output) :
  plain content -> plain (_improve_content content requirements q).
Proof.
  intros H. unfold _improve_content.
  now apply _fix_common_issues_plain, _improve_readability_plain,
            _improve_flow_plain, _improve_clarity_plain, _improve_structure_plain.
Qed.

End PlainText.

Section EditedPunctuation.
Import EditorAgent.

Lemma re_search_end_last (s : string) :
  Terminators.re_search_end s = true ->
  exists c, last_char s = Some c
            /\ (Terminators.is_terminator c = true \/ PyStr.is_space c = true).
Proof.
  induction s as [|a s IH]; [discriminate|]. cbn [Terminators.re_search_end].
  intros H. apply orb_true_iff in H as [H|H].
  - apply andb_true_iff in H as [Ht He]. apply orb_true_iff in He as [He|He].
    + destruct s; [|discriminate]. exists a. split; [reflexivity|now left].
    + apply String.eqb_eq in He. subst s. eexists. split; [reflexivity|now right].
  - destruct (IH H) as (c & Hc & Hd). exists c. split; [|exact Hd].
    cbn [last_char]. now rewrite Hc.
Qed.

(** A tidy end without exclamation or question mark fails the validator's
    test for end punctuation. *)
Lemma no_end_punctuation_found (s : string) :
  tidy_end s = true ->
  (forall c, last_char s = Some c -> plain_char c = true) ->
  Terminators.re_search_end (PyStr.strip s) = false.
Proof.
  intros Ht Hp.
  destruct (Terminators.re_search_end (PyStr.strip s)) eqn:E; [|reflexivity].
  apply re_search_end_last in E as (c & Hc & Hd).
  rewrite (last_char_strip_tidy s Ht) in Hc.
  specialize (Hp c Hc). unfold tidy_end in Ht. rewrite Hc in Ht.
  unfold tidy_char, not_dot, plain_char, Terminators.is_terminator in *.
  destruct (PyStr.is_space c); [discriminate|].
  destruct Hd as [Hd|Hd]; [|discriminate].
  destruct (Ascii.eqb c "."), (Ascii.eqb c "!"), (Ascii.eqb c "?"); discriminate.
Qed.

(** What the validator returns, field by field. *)
Lemma validator_run_eq (content : string) :
  exists q,
    ContentValidatorTool.run content
    = ContentValidatorTool.Metrics
        {| ContentValidatorTool.word_count := PyStr.word_count content;
           ContentValidatorTool.character_count := String.length content;
           ContentValidatorTool.sentence_count :=
             (Z.of_nat (length (Terminators.re_split content)) - 1)%Z;
           ContentValidatorTool.paragraph_count :=
             length (ContentValidatorTool.nonblank_paragraphs content);
           ContentValidatorTool.readability_score := q;
           ContentValidatorTool.issues := ContentValidatorTool._identify_issues content;
           ContentValidatorTool.quality_score :=
             ContentValidatorTool._calculate_quality_score
               (ContentValidatorTool._identify_issues content) q
               (PyStr.word_count content) |}
    /\ (0 <= q <= 100)%Q.
Proof.
  unfold ContentValidatorTool.run, ContentValidatorTool.validate.
  destruct (_calculate_readability_range content) as (q & -> & Hq).
  exists q. split; [reflexivity|exact Hq].
Qed.

(** X23: whatever the content, the edited text does not end with a full
    stop, and neither does it once surrounding blanks are stripped: the
    last sentence loses its full stop when the text is split at '.' and
    rejoined with '. ', and no later fix brings one back to the end. *)
Theorem edited_content_drops_final_period
    (content : string) (requirements : Requirements.t) :
  let edited := edited_content (edit_content content requirements) in
  last_char edited <> Some "."%char
  /\ last_char (PyStr.strip edited) = last_char edited.
Proof.
  intros edited. subst edited. unfold edit_content. cbn [edited_content].
  set (edited := _improve_content content requirements _).
  pose proof (_improve_content_tidy content requirements
                (ContentValidatorTool.run content)) as Ht.
  fold edited in Ht. split; [|now apply last_char_strip_tidy].
  unfold tidy_end in Ht. intros E. rewrite E in Ht. discriminate.
Qed.

(** X24: a content without exclamation and question mark comes out of
    the editor without them and failing the validator's end-punctuation
    check: the issue 'Content doesn't end with proper punctuation' is
    among the issues of the edited text, and the final quality score is
    at most 95. *)
Theorem edited_content_lacks_end_punctuation
    (content : string) (requirements : Requirements.t) :
  plain content ->
  let out := edit_content content requirements in
  plain (edited_content out)
  /\ In no_end_punctuation
        (ContentValidatorTool.get_issues (ContentValidatorTool.run (edited_content out)))
  /\ (final_quality_score out <= 95)%Z.
Proof.
  intros Hplain out. subst out. unfold edit_content.
  cbn [edited_content final_quality_score].
  set (edited := _improve_content content requirements _).
  pose proof (_improve_content_tidy content requirements
                (ContentValidatorTool.run content)) as Ht.
  pose proof (_improve_content_plain content requirements
                (ContentValidatorTool.run content) Hplain) as Hp.
  fold edited in Ht, Hp. split; [exact Hp|].
  assert (Hend : Terminators.re_search_end (PyStr.strip edited) = false).
  { apply no_end_punctuation_found; [exact Ht|].
    intros c Hc. now apply (last_char_all plain_char edited). }
  assert (Hin : In no_end_punctuation (ContentValidatorTool._identify_issues edited)).
  { unfold ContentValidatorTool._identify_issues. rewrite Hend.
    rewrite !in_app_iff. right. right. now left. }
  unfold _calculate_final_quality_score.
  destruct (validator_run_eq edited) as (q & -> & _).
  cbn [ContentValidatorTool.get_issues ContentValidatorTool.get_quality_score
       ContentValidatorTool.issues ContentValidatorTool.quality_score].
  split; [exact Hin|].
  unfold ContentValidatorTool._calculate_quality_score.
  destruct (ContentValidatorTool._identify_issues edited) as [|i l]; [destruct Hin|].
  cbn [length].
  destruct (Qlt_bool q 30), (Qlt_bool q 50),
           (PyStr.word_count edited <? 100), (PyStr.word_count edited <? 300),
           (3000 <? PyStr.word_count edited); lia.
Qed.

End EditedPunctuation.

Lemma edited_content_lacks_end_punctuation_witness :
  plain "Hello world."
  /\ plain (EditorAgent.edited_content
              (EditorAgent.edit_content "Hello world." Requirements.empty))
  /\ In no_end_punctuation
        (ContentValidatorTool.get_issues
           (ContentValidatorTool.run
              (EditorAgent.edited_content
                 (EditorAgent.edit_content "Hello world." Requirements.empty))))
  /\ (EditorAgent.final_quality_score
        (EditorAgent.edit_content "Hello world." Requirements.empty) <= 95)%Z.
Proof.
  split; [reflexivity|].
  apply (edited_content_lacks_end_punctuation "Hello world." Requirements.empty).
  reflexivity.
Defined.

(** ** Coordinator: the improvement sentence *)

Section ValidationFeedback.
Import CoordinatorAgent.

(** X25: the validation never fails; when the word count is out of range
    it asks for exactly one improvement, whose number of words to add or
    to remove is positive (also for a plan whose minimum exceeds its
    maximum), and the feedback is the 'needs improvements' line followed
    by that sentence; within range there is no improvement and the
    feedback is the 'meets quality standards' line alone. *)
Theorem validation_improvement_sound (content : string) (p : plan) :
  exists v,
    validate_content_quality content p = Ok v
    /\ Forall (improvement_sound (PyStr.word_count content)) (improvements_needed v)
    /\ length (improvements_needed v)
       = (if word_count_in_range content p then 0 else 1)
    /\ feedback v
       = (if word_count_in_range content p then [MeetsStandards]
          else NeedsImprovements :: map Needed (improvements_needed v)).
Proof.
  unfold validate_content_quality, word_count_in_range.
  set (min_words := default 900%Q _).
  set (max_words := default 1100%Q _).
  set (wc := Qnat (PyStr.word_count content)).
  destruct (Qle_bool min_words wc && Qle_bool wc max_words) eqn:Hwc;
    cbn -[PyStr.contains PyStr.last PyStr.lower PyStr.take PyStr.split
          PyStr.isupper existsb Qlt_bool Qminus fsub];
    eexists; (split; [reflexivity|]);
    cbn [improvements_needed feedback].
  - repeat split; constructor.
  - split; [|destruct (Qlt_bool wc min_words); split; reflexivity].
    destruct (Qlt_bool wc min_words) eqn:Hlt; (constructor; [|constructor]);
      cbn [improvement_sound]; (split; [reflexivity|]);
      apply float_of_pos.
    + unfold Qlt_bool in Hlt. apply negb_true_iff in Hlt.
      destruct (Qlt_le_dec wc min_words) as [H|H]; [lra|].
      apply Qle_bool_iff in H. congruence.
    + unfold Qlt_bool in Hlt. apply negb_false_iff in Hlt. rewrite Hlt in Hwc.
      cbn [andb] in Hwc.
      destruct (Qlt_le_dec max_words wc) as [H|H]; [lra|].
      apply Qle_bool_iff in H. congruence.
Qed.

End ValidationFeedback.

(** ** SEO stage: title and structure *)

Section TitleKeyword.
Import SEOAgent.

Lemma prefix_refl (s : string) : String.prefix s s = true.
Proof.
  induction s as [|c s IH]; [reflexivity|]. cbn.
  destruct (ascii_dec c c); [exact IH|congruence].
Qed.

Lemma contains_refl (s : string) : PyStr.contains s s = true.
Proof. apply contains_prefix, prefix_refl. Qed.

Lemma drop_suffix (k : nat) (s : string) : exists a, s = a +:+ PyStr.drop k s.
Proof.
  revert k. induction s as [|c s IH]; intros [|k]; try (now exists "").
  destruct (IH k) as [a Ha]. exists (String c a).
  cbn [PyStr.drop]. rewrite append_cons. now f_equal.
Qed.

Lemma lstrip_by_suffix (f : ascii -> bool) (s : string) :
  exists a, s = a +:+ PyStr.lstrip_by f s.
Proof.
  induction s as [|c s (a & Ha)]; [now exists ""|].
  cbn [PyStr.lstrip_by]. destruct (f c); [|now exists ""].
  exists (String c a). rewrite append_cons. now f_equal.
Qed.

Lemma rstrip_by_prefix (f : ascii -> bool) (s : string) :
  exists b, s = PyStr.rstrip_by f s +:+ b.
Proof.
  induction s as [|c s (b & Hb)]; [now exists ""|].
  cbn [PyStr.rstrip_by]. destruct (PyStr.rstrip_by f s) as [|r rs] eqn:E.
  - change ("" +:+ b) with b in Hb. subst b. destruct (f c).
    + now exists (String c s).
    + exists s. reflexivity.
  - exists b. rewrite append_cons. now f_equal.
Qed.

(** What is found in the stripped rest of a line is found in the line. *)
Lemma contains_lower_title (n line : string) (k : nat) :
  PyStr.contains n (PyStr.lower (PyStr.strip (PyStr.drop k line))) = true ->
  PyStr.contains n (PyStr.lower line) = true.
Proof.
  intros H. unfold PyStr.strip in H.
  destruct (drop_suffix k line) as [a Ha].
  destruct (lstrip_by_suffix PyStr.is_space (PyStr.drop k line)) as [b Hb].
  destruct (rstrip_by_prefix PyStr.is_space
              (PyStr.lstrip_by PyStr.is_space (PyStr.drop k line))) as [c Hc].
  rewrite Ha, Hb, Hc, !lower_app.
  now apply contains_app_r, contains_app_r, contains_app_l.
Qed.

Lemma retitle_mentions (k : string) (ks : list string) (line title : string) :
  title = PyStr.strip (PyStr.drop 2 line) ->
  exists l,
    retitle (k :: ks) line title = Ok l
    /\ PyStr.contains (PyStr.lower k) (PyStr.lower l) = true.
Proof.
  intros Ht. unfold retitle. cbn [py_index lookup list_lookup mbind result_bind].
  destruct (PyStr.contains (PyStr.lower k) (PyStr.lower title)) eqn:C; cbn [negb].
  - exists line. split; [reflexivity|]. subst title.
    now apply (contains_lower_title _ line 2).
  - assert (Hnew : forall rest,
              PyStr.contains (PyStr.lower k)
                (PyStr.lower ("# " +:+ k +:+ ": " +:+ rest)) = true).
    { intros rest. rewrite !lower_app.
      apply contains_app_r, contains_app_l, contains_refl. }
    destruct (PyStr.contains ":" title) eqn:Cc.
    + pose proof (split_contains_two ":" title ltac:(discriminate) Cc) as L.
      pose proof (join_split ":" title ltac:(discriminate)) as J.
      destruct (PyStr.split ":" title) as [|p0 [|p1 ps]]; cbn in L; try lia.
      cbn [py_index lookup list_lookup mbind result_bind].
      destruct (PyStr.contains (PyStr.lower k) (PyStr.lower p0)) eqn:C0; cbn [negb].
      * exfalso.
        change (PyStr.join ":" (p0 :: p1 :: ps))
          with (p0 +:+ ":" +:+ PyStr.join ":" (p1 :: ps)) in J.
        rewrite <- J, lower_app in C.
        rewrite (contains_app_l _ _ _ C0) in C. discriminate.
      * cbn [mbind result_bind]. eexists. split; [reflexivity|]. apply Hnew.
    + cbn [mbind result_bind]. eexists. split; [reflexivity|]. apply Hnew.
Qed.

Lemma title_loop_mentions (k : string) (ks lines : list string) :
  existsb (PyStr.startswith "# ") lines = true ->
  exists lines' l,
    title_loop (k :: ks) lines = Ok lines'
    /\ l ∈ lines'
    /\ PyStr.contains (PyStr.lower k) (PyStr.lower l) = true.
Proof.
  induction lines as [|line rest IH]; [discriminate|].
  cbn [existsb title_loop]. destruct (PyStr.startswith "# " line) eqn:S.
  - intros _.
    destruct (retitle_mentions k ks line _ eq_refl) as (l & -> & Hl).
    cbn [mbind result_bind]. exists (l :: rest), l.
    split; [reflexivity|]. split; [apply list_elem_of_here|exact Hl].
  - cbn [orb]. intros H. destruct (IH H) as (lines' & l & -> & Hin & Hl).
    cbn [mbind result_bind]. exists (line :: lines'), l.
    split; [reflexivity|]. split; [now apply list_elem_of_further|exact Hl].
Qed.

Lemma join_elem (sep : string) (l : list string) (x : string) :
  x ∈ l -> exists a b, PyStr.join sep l = a +:+ x +:+ b.
Proof.
  induction l as [|y l IH]; intros Hin; [now apply elem_of_nil in Hin|].
  apply elem_of_cons in Hin as [->|Hin].
  - destruct l as [|z l].
    + exists "", "". cbn. now rewrite append_empty_r.
    + exists "", (sep +:+ PyStr.join sep (z :: l)). reflexivity.
  - destruct (IH Hin) as (a & b & E). destruct l as [|z l].
    + now apply elem_of_nil in Hin.
    + exists (y +:+ sep +:+ a), b.
      change (PyStr.join sep (y :: z :: l))
        with (y +:+ sep +:+ PyStr.join sep (z :: l)).
      rewrite E, !append_assoc. reflexivity.
Qed.

(** X26: when the content has a first-level heading line (one that starts
    with '# ') and there is at least one keyword, the title optimization
    returns a text that mentions the primary keyword, letter case
    ignored: the heading either mentioned it already or is rewritten to
    start with it. *)
Theorem optimized_title_mentions_keyword
    (content : string) (k : string) (ks : list string) :
  existsb (PyStr.startswith "# ") (PyStr.split PyStr.NL content) = true ->
  exists optimized,
    _optimize_title_seo content (k :: ks) = Ok optimized
    /\ PyStr.contains (PyStr.lower k) (PyStr.lower optimized) = true.
Proof.
  intros H. unfold _optimize_title_seo.
  destruct (title_loop_mentions k ks _ H) as (lines' & l & -> & Hin & Hl).
  cbn [mbind result_bind]. eexists. split; [reflexivity|].
  destruct (join_elem PyStr.NL lines' l Hin) as (a & b & ->).
  rewrite !lower_app. now apply contains_app_r, contains_app_l.
Qed.

Lemma flat_map_singleton {A} (f : A -> list A) (l : list A) :
  Forall (fun x => f x = [x]) l -> flat_map f l = l.
Proof.
  induction 1 as [|x l Hx _ IH]; [reflexivity|].
  cbn [flat_map]. now rewrite Hx, IH.
Qed.

(** X27: restructuring leaves alone a content none of whose lines has
    more than 200 words: only such a line is ever regrouped. *)
Theorem structure_unchanged_without_long_lines (content : string) :
  Forall (fun line => PyStr.word_count line <= 200) (PyStr.split PyStr.NL content) ->
  _optimize_content_structure content = content.
Proof.
  intros H. unfold _optimize_content_structure.
  rewrite flat_map_singleton; [apply join_split_char|].
  eapply Forall_impl; [exact H|]. intros line Hl. cbv beta in Hl |- *.
  apply Nat.ltb_ge in Hl. rewrite Hl.
  destruct (PyStr.startswith "#" line); [reflexivity|].
  destruct (negb _ && negb _); reflexivity.
Qed.

End TitleKeyword.

Lemma optimized_title_mentions_keyword_witness :
  exists optimized,
    SEOAgent._optimize_title_seo "# Basics" ("ai" :: []) = Ok optimized
    /\ PyStr.contains (PyStr.lower "ai") (PyStr.lower optimized) = true.
Proof.
  apply (optimized_title_mentions_keyword "# Basics" "ai" []).
  reflexivity.
Defined.

Lemma structure_unchanged_without_long_lines_witness :
  SEOAgent._optimize_content_structure "Hello world." = "Hello world.".
Proof.
  apply (structure_unchanged_without_long_lines "Hello world.").
  repeat constructor.
Defined.

(** ** Editing: clarity *)

Section Clarity.
Import EditorAgent.

Lemma replace_all_absent (table : list (string * string)) (content : string) :
  Forall (fun entry => PyStr.contains entry.1 content = false) table ->
  replace_all table content = content.
Proof.
  unfold replace_all. induction 1 as [|[old new] table Ho _ IH]; [reflexivity|].
  cbn [fold_left]. cbn in Ho. now rewrite (replace_absent old new content Ho).
Qed.

(** X28: the clarity pass changes only a text that holds one of its
    eleven wordy phrases as written (lower case): a content in which none
    of them occurs comes back unchanged. *)
Theorem clarity_unchanged_without_phrases (content : string) :
  Forall (fun entry => PyStr.contains entry.1 content = false) clarity_improvements ->
  _improve_clarity content = content.
Proof. apply replace_all_absent. Qed.

End Clarity.

Lemma clarity_unchanged_without_phrases_witness :
  EditorAgent._improve_clarity "In order to win." = "In order to win.".
Proof.
  apply (clarity_unchanged_without_phrases "In order to win.").
  repeat constructor.
Defined.

(** ** SEO stage: headings and keyword integration *)

Section HeadingsAndKeywords.
Import SEOAgent.

Lemma headings_loop_frame (ks lines : list string) :
  forall i,
    exists lines',
      headings_loop ks i lines = Ok lines'
      /\ Forall2 (fun l l' => l' = l
                              \/ (is_h2 l = true /\ PyStr.startswith "## " l' = true))
                 lines lines'
      /\ changed_lines lines lines' <= length ks - i.
Proof.
  induction lines as [|line rest IH]; intros i.
  - exists []. split; [reflexivity|]. split; [constructor|cbn; lia].
  - cbn [headings_loop]. fold (is_h2 line).
    destruct (IH i) as (l0 & E0 & F0 & C0). destruct (IH (S i)) as (l1 & E1 & F1 & C1).
    assert (Hkeep : exists lines',
               (rest ← headings_loop ks i rest; Ok (line :: rest)) = Ok lines'
               /\ Forall2 (fun l l' => l' = l
                              \/ (is_h2 l = true /\ PyStr.startswith "## " l' = true))
                          (line :: rest) lines'
               /\ changed_lines (line :: rest) lines' <= length ks - i).
    { rewrite E0. cbn [mbind result_bind]. eexists. split; [reflexivity|].
      split; [constructor; [now left|exact F0]|].
      cbn [changed_lines]. rewrite String.eqb_refl. exact C0. }
    destruct (is_h2 line) eqn:H2; [|exact Hkeep].
    destruct (i <? length ks) eqn:Hi; [|exact Hkeep].
    apply Nat.ltb_lt in Hi. destruct (py_index_lt ks i Hi) as (k & -> & _).
    cbn [mbind result_bind].
    destruct (negb _); [|exact Hkeep].
    rewrite E1. cbn [mbind result_bind]. eexists. split; [reflexivity|].
    split.
    + constructor; [|exact F1]. right. split; [exact H2|].
      unfold PyStr.startswith. apply (prefix_app "## " "## "). reflexivity.
    + cbn [changed_lines]. destruct (String.eqb line _); lia.
Qed.

(** X29: the heading optimization returns for every keyword list; it
    keeps the number of lines, leaves every line unchanged that is not a
    second-level heading, writes a rewritten heading as '## ...', and
    rewrites at most one heading per keyword. *)
Theorem headings_only_touch_h2 (content : string) (ks : list string) :
  exists lines',
    _optimize_headings_seo content ks = Ok (PyStr.join PyStr.NL lines')
    /\ Forall2 (fun l l' => l' = l
                            \/ (is_h2 l = true /\ PyStr.startswith "## " l' = true))
               (PyStr.split PyStr.NL content) lines'
    /\ changed_lines (PyStr.split PyStr.NL content) lines' <= length ks.
Proof.
  unfold _optimize_headings_seo. destruct ks as [|k ks].
  - exists (PyStr.split PyStr.NL content).
    split; [now rewrite join_split by discriminate|]. split.
    + induction (PyStr.split PyStr.NL content); constructor; [now left|assumption].
    + induction (PyStr.split PyStr.NL content) as [|l ls IHl]; [cbn; lia|].
      cbn [changed_lines]. rewrite String.eqb_refl. exact IHl.
  - destruct (headings_loop_frame (k :: ks) (PyStr.split PyStr.NL content) 0)
      as (lines' & -> & F & C).
    cbn [mbind result_bind]. exists lines'. split; [reflexivity|].
    split; [exact F|]. lia.
Qed.

Lemma paragraphs_loop_passed_over (keyword : string) (count : nat)
    (paragraphs : list string) (additions_made : nat) :
  Forall (fun para => passed_over para = true) paragraphs ->
  paragraphs_loop keyword count paragraphs additions_made = paragraphs.
Proof.
  induction 1 as [|para rest Hp _ IH]; [reflexivity|].
  cbn [paragraphs_loop]. fold (passed_over para). rewrite Hp, IH.
  destruct (count <=? additions_made); reflexivity.
Qed.

Lemma _add_keyword_naturally_passed_over (content keyword : string) (count : nat) :
  Forall (fun para => passed_over para = true)
         (PyStr.split (PyStr.NL +:+ PyStr.NL) content) ->
  _add_keyword_naturally content keyword count = content.
Proof.
  intros H. unfold _add_keyword_naturally.
  rewrite paragraphs_loop_passed_over by exact H.
  apply join_split. discriminate.
Qed.

(** X30: the keyword integration returns unchanged a content all of whose
    paragraphs are headings or have fewer than 20 words, whatever the
    keywords and however far their counts are below the target. *)
Theorem short_paragraphs_keep_their_words (content : string) (ks : list string) :
  Forall (fun para => passed_over para = true)
         (PyStr.split (PyStr.NL +:+ PyStr.NL) content) ->
  _integrate_keywords_naturally content ks = content.
Proof.
  intros H. unfold _integrate_keywords_naturally.
  destruct ks as [|k0 ks0]; [reflexivity|].
  induction (k0 :: ks0) as [|k ks IH]; [reflexivity|].
  cbn [fold_left].
  destruct (_ <? _); [|exact IH].
  now rewrite _add_keyword_naturally_passed_over.
Qed.

End HeadingsAndKeywords.

Lemma short_paragraphs_keep_their_words_witness :
  SEOAgent._integrate_keywords_naturally "Hello world." ["ai"] = "Hello world.".
Proof.
  apply (short_paragraphs_keep_their_words "Hello world." ["ai"]).
  repeat constructor.
Defined.

(** ** Editing twice *)

Section EditingTwice.
Import EditorAgent.





















End EditingTwice.


(** The first run's output for [two_paragraph_draft], which the second run
    changes, passes every check of [normalised] but one: its second
    paragraph is due for a transition. *)
Example two_paragraph_draft_transition_due :
  let t := EditorAgent.edited_content
             (EditorAgent.edit_content two_paragraph_draft Requirements.empty) in
  headings_in_form t = true
  /\ paragraphs_in_form t = true
  /\ free_of EditorAgent.clarity_improvements t = true
  /\ no_transition_due t = false
  /\ sentences_in_form t = true
  /\ free_of EditorAgent.grammar_fixes t = true
  /\ capitalised t = true.
Proof. vm_compute. repeat split; reflexivity. Qed.
